(** * mongomock GridFS: the chunked writer (GridIn) and reader (GridOut)

    A shallow embedding of [mongomock/gridfs/grid_file.py], of the two front
    ends of [mongomock/gridfs/__init__.py] that are built on it, and of
    [Binary] from [mongomock/bson/binary.py].  Python objects that are
    mutated in place (the writer, the reader, the two collections behind
    [root_collection]) are threaded through a small state-and-exception
    monad: a raised exception keeps the mutations made before it, as in
    Python.  Loops carry a fuel argument; running out of fuel is a separate
    outcome, never confused with a result or an exception. *)

From Stdlib Require Import ZArith List Lia String Ascii Bool DecimalString.
From Stdlib.Strings Require Import Byte.
Import ListNotations.
Open Scope Z_scope.

Set Implicit Arguments.

(* ===================================================================== *)
(** ** Python values used by the module *)
(* ===================================================================== *)

Definition bytes := list byte.

(** [len(x)] *)
Definition len {A : Type} (l : list A) : Z := Z.of_nat (List.length l).

(** Prefix and suffix at a non-negative offset (a negative one counts as 0). *)
Definition take {A : Type} (k : Z) (l : list A) : list A := firstn (Z.to_nat k) l.
Definition drop {A : Type} (k : Z) (l : list A) : list A := skipn (Z.to_nat k) l.

(** [b[s:]] with Python's reading of a negative start. *)
Definition slice_from (s : Z) (b : bytes) : bytes :=
  if s <? 0 then drop (Z.max 0 (len b + s)) b else drop s b.

(** Truth value of a bytes object: [if data], [not data]. *)
Definition truthy (b : bytes) : bool :=
  match b with [] => false | _ :: _ => true end.

Definition EMPTY : bytes := [].
Definition NEWLN : byte := x0a.

Fixpoint index_of (x : byte) (b : bytes) : option nat :=
  match b with
  | [] => None
  | y :: b' => if Byte.eqb x y then Some O
               else match index_of x b' with
                    | Some i => Some (S i)
                    | None => None
                    end
  end.

(** [b.find(x, start, stop)] for a one-byte needle: the lowest index of [x]
    inside [b[start:stop]], or [-1]. *)
Definition find (x : byte) (start stop : Z) (b : bytes) : Z :=
  let norm i := if i <? 0 then Z.max 0 (len b + i) else Z.min i (len b) in
  let s := norm start in
  let e := norm stop in
  match index_of x (take (e - s) (drop s b)) with
  | Some i => s + Z.of_nat i
  | None => -1
  end.

(** ["%d" % z] and ["%i" % z] *)
Definition str_of_Z (z : Z) : string := NilZero.string_of_int (Z.to_int z).

(** [int(a / b)] on integers with [b <> 0]: the quotient truncated toward
    zero.  (Python 3 goes through a float; the exact quotient is used here.) *)
Definition int_div (a b : Z) : Z := Z.quot a b.

(** [math.ceil(a / float(b))] with [b <> 0], on the exact quotient. *)
Definition ceil_div (a b : Z) : Z := - ((- a) / b).

Definition ObjectId := Z.

(* ===================================================================== *)
(** ** Exceptions and the state-and-exception monad *)
(* ===================================================================== *)

Inductive exn : Type :=
| ValueError (msg : string)
| TypeError (msg : string)
| AttributeError (msg : string)
| AssertionError
| ZeroDivisionError
| IOError (errno : Z) (msg : string)
| DuplicateKeyError
| FileExists (file_id : ObjectId)       (* "file with _id %r already exists" *)
| NoFile (file_id : option ObjectId)    (* "no file in gridfs collection %r with _id %r" *)
| CorruptGridFile (msg : string).

Inductive outcome (A : Type) : Type :=
| Return (a : A)
| Raise (e : exn)
| OutOfFuel.
Arguments Return {A} a.
Arguments Raise {A} e.
Arguments OutOfFuel {A}.

Definition M (St A : Type) : Type := St -> outcome A * St.

Definition ret {St A : Type} (a : A) : M St A := fun s => (Return a, s).
Definition raise {St A : Type} (e : exn) : M St A := fun s => (Raise e, s).
Definition out_of_fuel {St A : Type} : M St A := fun s => (OutOfFuel, s).

Definition bind {St A B : Type} (c : M St A) (k : A -> M St B) : M St B :=
  fun s => match c s with
           | (Return a, s') => k a s'
           | (Raise e, s') => (Raise e, s')
           | (OutOfFuel, s') => (OutOfFuel, s')
           end.

Definition gets {St A : Type} (f : St -> A) : M St A := fun s => (Return (f s), s).
Definition modify {St : Type} (f : St -> St) : M St unit := fun s => (Return tt, f s).

(** [try: c  except <handled>: h e]; an exception the handler does not take
    is re-raised by the handler itself. *)
Definition try_except {St A : Type} (c : M St A) (h : exn -> M St A) : M St A :=
  fun s => match c s with
           | (Raise e, s') => h e s'
           | r => r
           end.

Declare Scope py_scope.
Delimit Scope py_scope with py.
Notation "x <- c ;; k" := (bind c (fun x => k))
  (at level 100, c at next level, right associativity) : py_scope.
Notation "c ;;; k" := (bind c (fun _ => k))
  (at level 100, right associativity) : py_scope.
Open Scope py_scope.

(* ===================================================================== *)
(** ** io.BytesIO (imported as [StringIO] by py3compat) *)
(* ===================================================================== *)

Module BytesIO.

Record t : Type := mk { value : bytes; pos : Z }.

Definition empty : t := mk [] 0.
Definition of_bytes (b : bytes) : t := mk b 0.

Definition tell (s : t) : Z := pos s.
Definition getvalue (s : t) : bytes := value s.

(** [s.write(b)]: overwrite at the cursor, growing (and zero-filling a gap)
    as needed; the cursor ends after the written bytes. *)
Definition write (b : bytes) (s : t) : t :=
  let v := value s in
  let p := pos s in
  let v' := if len v <? p then v ++ repeat x00 (Z.to_nat (p - len v)) else v in
  mk (take p v' ++ b ++ drop (p + len b) v') (p + len b).

(** [s.read(size)]; a negative size reads to the end. *)
Definition read (size : Z) (s : t) : bytes * t :=
  let rest := drop (pos s) (value s) in
  let out := if size <? 0 then rest else take size rest in
  (out, mk (value s) (pos s + len out)).

(** [s.seek(p)] from the start. *)
Definition seek (p : Z) (s : t) : outcome unit * t :=
  if p <? 0 then (Raise (ValueError "negative seek value"), s)
  else (Return tt, mk (value s) p).

End BytesIO.

(* ===================================================================== *)
(** ** bson.binary.Binary: the payload of a chunk record *)
(* ===================================================================== *)

Definition BINARY_SUBTYPE : Z := 0.

(** [a == b] on [bytes] objects *)
Fixpoint bytes_eqb (a b : bytes) : bool :=
  match a, b with
  | [], [] => true
  | x :: a', y :: b' => Byte.eqb x y && bytes_eqb a' b'
  | _, _ => false
  end.

Module Binary.

(** A [bytes] object that carries a subtype. *)
Record t : Type := mk { data : bytes; __subtype : Z }.

(** What [Binary] is built from and compared with: a plain [bytes] object,
    an [int], a [Binary], or an object of another type. *)
Inductive pyobject : Type :=
| Bytes (b : bytes)
| Int (z : Z)
| Bin (b : t)
| Other.

(** [isinstance(o, bytes)], with the bytes when it holds; [Binary] is a
    subclass of [bytes]. *)
Definition as_bytes (o : pyobject) : option bytes :=
  match o with
  | Bytes b => Some b
  | Bin b => Some (data b)
  | _ => None
  end.

(** [Binary(data, subtype)] *)
Definition __new__ (data subtype : pyobject) : outcome t :=
  match as_bytes data with
  | None => Raise (TypeError "data must be an instance of bytes")
  | Some b =>
      match subtype with
      | Int s =>
          if (256 <=? s) || (s <? 0)
          then Raise (ValueError "subtype must be contained in [0, 256)")
          else Return (mk b s)
      | _ => Raise (TypeError "subtype must be an instance of int")
      end
  end.

Definition subtype (self : t) : Z := __subtype self.

Definition __getnewargs__ (self : t) : pyobject * pyobject :=
  (Bytes (data self), Int (__subtype self)).

Definition __eq__ (self : t) (other : pyobject) : bool :=
  match other with
  | Bin o => (__subtype self =? subtype o) && bytes_eqb (data self) (data o)
  | _ => false
  end.

Definition __ne__ (self : t) (other : pyobject) : bool := negb (__eq__ self other).

(** [hash_bytes] is the hash of the interpreter on [bytes] objects; the
    hash of a small non-negative [int] is the number itself. *)
Definition __hash__ (hash_bytes : bytes -> Z) (self : t) : Z :=
  Z.lxor (hash_bytes (data self)) (__subtype self).

End Binary.

(* ===================================================================== *)
(** ** Documents and collections *)
(* ===================================================================== *)

(** The [md5] entry of a file document: a live [hashlib.md5] object,
    identified by the bytes fed to it so far, or a hexadecimal digest string,
    identified by the bytes it is the digest of.  The digest itself stays
    symbolic: [hashlib] is outside the repository. *)
Inductive md5_field : Type :=
| md5_object (fed : bytes)
| hex_string (digest_of : bytes).

Module hashlib.

(** [md5()] *)
Definition md5 : md5_field := md5_object [].

(** [m.update(data)]: feeding [a] then [b] is feeding [a + b]. *)
Definition update (data : bytes) (m : md5_field) : outcome md5_field :=
  match m with
  | md5_object fed => Return (md5_object (fed ++ data))
  | hex_string _ => Raise (AttributeError "'str' object has no attribute 'update'")
  end.

(** [m.hexdigest()] *)
Definition hexdigest (m : md5_field) : outcome md5_field :=
  match m with
  | md5_object fed => Return (hex_string fed)
  | hex_string _ => Raise (AttributeError "'str' object has no attribute 'hexdigest'")
  end.

End hashlib.

Module FileDoc.
Record t : Type := mk {
  _id : ObjectId;
  chunkSize : Z;
  md5 : md5_field;
  length : option Z;
  uploadDate : option Z;
  filename : option string;
  contentType : option string;
  encoding : option string
}.
Definition set_md5 (m : md5_field) (f : t) : t :=
  mk (_id f) (chunkSize f) m (length f) (uploadDate f)
     (filename f) (contentType f) (encoding f).
Definition set_length (l : Z) (f : t) : t :=
  mk (_id f) (chunkSize f) (md5 f) (Some l) (uploadDate f)
     (filename f) (contentType f) (encoding f).
Definition set_uploadDate (d : Z) (f : t) : t :=
  mk (_id f) (chunkSize f) (md5 f) (length f) (Some d)
     (filename f) (contentType f) (encoding f).
Definition set_filename (name : string) (f : t) : t :=
  mk (_id f) (chunkSize f) (md5 f) (length f) (uploadDate f)
     (Some name) (contentType f) (encoding f).
Definition set_contentType (ctype : string) (f : t) : t :=
  mk (_id f) (chunkSize f) (md5 f) (length f) (uploadDate f)
     (filename f) (Some ctype) (encoding f).
End FileDoc.

Module ChunkDoc.
Record t : Type := mk { files_id : ObjectId; n : Z; data : bytes }.
End ChunkDoc.

Inductive index_spec : Type :=
| _C_INDEX    (* [("files_id", ASCENDING), ("n", ASCENDING)] *)
| _F_INDEX.   (* [("filename", ASCENDING), ("uploadDate", ASCENDING)] *)

Definition index_spec_eqb (a b : index_spec) : bool :=
  match a, b with
  | _C_INDEX, _C_INDEX => true
  | _F_INDEX, _F_INDEX => true
  | _, _ => false
  end.

(** Modelled from the spec: the document store ([mongomock.collection]) is
    not among the sources.  A collection is the list of its documents in
    insertion order together with the indexes created on it; [insert_one]
    answers success or a duplicate-key error, [find_one] answers the first
    matching record or nothing, [delete_one] removes the first match and
    [delete_many] every match. *)
Record collection (D : Type) : Type :=
  mkColl { docs : list D; indexes : list (index_spec * bool) }.

(** Modelled from the spec: [findOne(filter) -> record | absent] of the
    document store; of several matching records the first in insertion order
    is the one answered. *)
Definition find_one {D : Type} (filter : D -> bool) (c : collection D) : option D :=
  List.find filter (docs c).

(** Modelled from the spec: index creation of the document store; only a
    unique index changes what the store answers. *)
Definition create_index {D : Type} (index : index_spec) (unique : bool)
    (c : collection D) : collection D :=
  mkColl (docs c) (indexes c ++ [(index, unique)]).

(** Modelled from the spec: [insertOne(record) -> success |
    duplicate-key-error] of the document store.  [clash new old] tells
    whether [new] collides with the stored [old] under a uniqueness
    constraint of the collection. *)
Definition insert_one {D : Type} (clash : D -> D -> bool) (doc : D)
    (c : collection D) : outcome unit * collection D :=
  if existsb (clash doc) (docs c) then (Raise DuplicateKeyError, c)
  else (Return tt, mkColl (docs c ++ [doc]) (indexes c)).

(** Modelled from the spec: [deleteMany(filter)] of the document store. *)
Definition delete_many {D : Type} (filter : D -> bool) (c : collection D) : collection D :=
  mkColl (List.filter (fun d => negb (filter d)) (docs c)) (indexes c).

Fixpoint remove_first {D : Type} (filter : D -> bool) (l : list D) : list D :=
  match l with
  | [] => []
  | d :: l' => if filter d then l' else d :: remove_first filter l'
  end.

(** Modelled from the spec: [deleteOne(filter)] of the document store, which
    removes the first matching record. *)
Definition delete_one {D : Type} (filter : D -> bool) (c : collection D) : collection D :=
  mkColl (remove_first filter (docs c)) (indexes c).

(** Modelled from the spec: [deleteOne(filter) -> deletedCount] of the
    document store, the count that [delete_one] on the same collection
    reports. *)
Definition deleted_count {D : Type} (filter : D -> bool) (c : collection D) : Z :=
  match find_one filter c with Some _ => 1 | None => 0 end.

(** Modelled from the spec: the records after [updateOne(filter, fieldSet)],
    which sets the fields on the first matching record. *)
Fixpoint update_first {D : Type} (filter : D -> bool) (assign : D -> D) (l : list D)
    : list D :=
  match l with
  | [] => []
  | d :: l' => if filter d then assign d :: l' else d :: update_first filter assign l'
  end.

(** Modelled from the spec: [updateOne(filter, fieldSet) -> matchedCount] of
    the document store; the first matching record gets the fields set. *)
Definition update_one {D : Type} (filter : D -> bool) (assign : D -> D)
    (c : collection D) : collection D :=
  mkColl (update_first filter assign (docs c)) (indexes c).


(** Modelled from the spec: whether a uniqueness constraint on [index] is in
    force on the collection. *)
Definition has_unique_index {D : Type} (index : index_spec) (c : collection D) : bool :=
  existsb (fun iu => index_spec_eqb (fst iu) index && snd iu) (indexes c).

(** Modelled from the spec: the uniqueness constraints of the two GridFS
    collections, [_id] on the files, and the pair (files_id, n) on the chunks
    once the unique index exists. *)
Definition files_clash (new old : FileDoc.t) : bool :=
  FileDoc._id new =? FileDoc._id old.

Definition chunks_clash (c : collection ChunkDoc.t) (new old : ChunkDoc.t) : bool :=
  has_unique_index _C_INDEX c
  && (ChunkDoc.files_id new =? ChunkDoc.files_id old)
  && (ChunkDoc.n new =? ChunkDoc.n old).

(** [root_collection]: the object whose [.files] and [.chunks] the writer and
    the reader share. *)
Record root_collection : Type :=
  mkRoot { files : collection FileDoc.t; chunks : collection ChunkDoc.t }.

Definition set_files (f : collection FileDoc.t) (r : root_collection) :=
  mkRoot f (chunks r).
Definition set_chunks (c : collection ChunkDoc.t) (r : root_collection) :=
  mkRoot (files r) c.

(** The filters the module passes to the store. *)
Definition by_id (i : ObjectId) (f : FileDoc.t) : bool := FileDoc._id f =? i.
Definition by_files_id (i : ObjectId) (c : ChunkDoc.t) : bool := ChunkDoc.files_id c =? i.
Definition by_files_id_n (i : ObjectId) (k : Z) (c : ChunkDoc.t) : bool :=
  (ChunkDoc.files_id c =? i) && (ChunkDoc.n c =? k).
Definition by_files_id_n_gte (i : ObjectId) (k : Z) (c : ChunkDoc.t) : bool :=
  (ChunkDoc.files_id c =? i) && (k <=? ChunkDoc.n c).

(* ===================================================================== *)
(** ** GridIn: the chunked writer *)
(* ===================================================================== *)

Definition DEFAULT_CHUNK_SIZE : Z := 255 * 1024.

(** What [write] may be handed: a bytes object, a text object (known by what
    its [encode] method answers for an encoding name), a file-like object
    (known by its [read] method and its current state), or anything else. *)
Inductive pydata : Type :=
| PyBytes (b : bytes)
| PyText (encode : string -> outcome bytes)
| PyFile (S : Type) (read : Z -> M S bytes) (s : S)
| PyOther.

(** [StringIO(data).read] *)
Definition bytesio_read (size : Z) : M BytesIO.t bytes :=
  fun s => let (b, s') := BytesIO.read size s in (Return b, s').

Module GridIn.

Record t : Type := mk {
  _file : FileDoc.t;
  _buffer : BytesIO.t;
  _position : Z;
  _chunk_number : Z;
  _closed : bool;
  _ensured_index : bool
}.

Definition set_file (f : FileDoc.t) (g : t) : t :=
  mk f (_buffer g) (_position g) (_chunk_number g) (_closed g) (_ensured_index g).
Definition set_buffer (b : BytesIO.t) (g : t) : t :=
  mk (_file g) b (_position g) (_chunk_number g) (_closed g) (_ensured_index g).
Definition set_position (p : Z) (g : t) : t :=
  mk (_file g) (_buffer g) p (_chunk_number g) (_closed g) (_ensured_index g).
Definition set_chunk_number (k : Z) (g : t) : t :=
  mk (_file g) (_buffer g) (_position g) k (_closed g) (_ensured_index g).
Definition set_closed (c : bool) (g : t) : t :=
  mk (_file g) (_buffer g) (_position g) (_chunk_number g) c (_ensured_index g).
Definition set_ensured_index (e : bool) (g : t) : t :=
  mk (_file g) (_buffer g) (_position g) (_chunk_number g) (_closed g) e.

(** The writer object together with the [root_collection] it points to. *)
Record state : Type := mkState { self : t; coll : root_collection }.

Definition on_self (f : t -> t) (w : state) : state := mkState (f (self w)) (coll w).
Definition on_coll (f : root_collection -> root_collection) (w : state) : state :=
  mkState (self w) (f (coll w)).

(** [GridIn(root_collection, _id=..., chunkSize=..., ...)]; the caller passes
    the identifier that [ObjectId()] would otherwise generate. *)
Definition __init__ (file_id : ObjectId) (chunk_size : option Z)
    (filename contentType encoding : option string) : t :=
  mk (FileDoc.mk file_id
        (match chunk_size with Some c => c | None => DEFAULT_CHUNK_SIZE end)
        hashlib.md5 None None filename contentType encoding)
     BytesIO.empty 0 0 false false.

Definition __create_index {D : Type} (index : index_spec) (unique : bool)
    (c : collection D) : collection D :=
  match find_one (fun _ => true) c with
  | None => create_index index unique c
  | Some _ => c
  end.

Definition __ensure_indexes : M state unit :=
  ensured <- gets (fun w => _ensured_index (self w)) ;;
  if ensured then ret tt
  else
    modify (on_coll (fun r => set_files (__create_index _F_INDEX false (files r)) r)) ;;;
    modify (on_coll (fun r => set_chunks (__create_index _C_INDEX true (chunks r)) r)) ;;;
    modify (on_self (set_ensured_index true)).

Definition file_id : M state ObjectId := gets (fun w => FileDoc._id (_file (self w))).
Definition chunk_size : M state Z := gets (fun w => FileDoc.chunkSize (_file (self w))).
Definition closed : M state bool := gets (fun w => _closed (self w)).

Definition abort : M state unit :=
  i <- file_id ;;
  modify (on_coll (fun r => set_chunks (delete_many (by_files_id i) (chunks r)) r)) ;;;
  modify (on_coll (fun r => set_files (delete_one (by_id i) (files r)) r)) ;;;
  modify (on_self (set_closed true)).

Definition _raise_file_exists {A : Type} (i : ObjectId) : M state A :=
  raise (FileExists i).

(** [except DuplicateKeyError: self._raise_file_exists(i)] *)
Definition on_duplicate_key {A : Type} (i : ObjectId) (e : exn) : M state A :=
  match e with
  | DuplicateKeyError => _raise_file_exists i
  | _ => raise e
  end.

(** [self._file['md5'] = method(self._file['md5'])], unless the method raises *)
Definition on_md5 (method : md5_field -> outcome md5_field) : M state unit :=
  fun w => match method (FileDoc.md5 (_file (self w))) with
           | Return m => (Return tt, on_self (fun g => set_file (FileDoc.set_md5 m (_file g)) g) w)
           | Raise e => (Raise e, w)
           | OutOfFuel => (OutOfFuel, w)
           end.

(** [self._file['md5'].update(data)] *)
Definition md5_update (data : bytes) : M state unit := on_md5 (hashlib.update data).

(** [self._file['md5'] = self._file['md5'].hexdigest()] *)
Definition md5_finish : M state unit := on_md5 hashlib.hexdigest.

Definition chunks_insert_one (chunk : ChunkDoc.t) : M state unit :=
  fun w => let (o, c') := insert_one (chunks_clash (chunks (coll w))) chunk (chunks (coll w)) in
           (o, on_coll (set_chunks c') w).

Definition files_insert_one (doc : FileDoc.t) : M state unit :=
  fun w => let (o, c') := insert_one files_clash doc (files (coll w)) in
           (o, on_coll (set_files c') w).

Definition __flush_data (data : bytes) : M state unit :=
  __ensure_indexes ;;;
  md5_update data ;;;
  if negb (truthy data) then ret tt
  else
    cs <- chunk_size ;;
    (if len data <=? cs then ret tt else raise AssertionError) ;;;
    i <- file_id ;;
    k <- gets (fun w => _chunk_number (self w)) ;;
    let chunk := ChunkDoc.mk i k data in
    try_except (chunks_insert_one chunk) (on_duplicate_key i) ;;;
    modify (on_self (fun g => set_chunk_number (_chunk_number g + 1) g)) ;;;
    modify (on_self (fun g => set_position (_position g + len data) g)).

Definition __flush_buffer : M state unit :=
  v <- gets (fun w => BytesIO.getvalue (_buffer (self w))) ;;
  __flush_data v ;;;
  modify (on_self (set_buffer BytesIO.empty)).

(** [now] is what [datetime.datetime.utcnow()] answers. *)
Definition __flush (now : Z) : M state unit :=
  try_except
    (__flush_buffer ;;;
     md5_finish ;;;
     modify (on_self (fun g => set_file (FileDoc.set_length (_position g) (_file g)) g)) ;;;
     modify (on_self (fun g => set_file (FileDoc.set_uploadDate now (_file g)) g)) ;;;
     doc <- gets (fun w => _file (self w)) ;;
     files_insert_one doc)
    (fun e => i <- file_id ;; on_duplicate_key i e).

Definition close (now : Z) : M state unit :=
  c <- closed ;;
  if c then ret tt
  else __flush now ;;; modify (on_self (set_closed true)).

(** The part of [write] that runs once the [read] callable is known; its
    state pairs the data source with the writer's. *)
Section Stream.
Context {S : Type}.
Variable read : Z -> M S bytes.

Definition liftW {A : Type} (c : M state A) : M (S * state) A :=
  fun sw => let (o, w') := c (snd sw) in (o, (fst sw, w')).

Definition call_read (size : Z) : M (S * state) bytes :=
  fun sw => let (o, s') := read size (fst sw) in (o, (s', snd sw)).

Definition buffer_write (b : bytes) : M (S * state) unit :=
  liftW (modify (on_self (fun g => set_buffer (BytesIO.write b (_buffer g)) g))).

(** Lines 250-262: top the buffer up; the answer is [true] when [write]
    returns from inside this block. *)
Definition write_topup : M (S * state) bool :=
  pos <- liftW (gets (fun w => BytesIO.tell (_buffer (self w)))) ;;
  if 0 <? pos then
    cs <- liftW chunk_size ;;
    let space := cs - pos in
    if space =? 0 then liftW __flush_buffer ;;; ret false
    else
      to_write <- try_except (call_read space)
                    (fun e => liftW abort ;;; raise e) ;;
      buffer_write to_write ;;;
      if len to_write <? space then ret true
      else liftW __flush_buffer ;;; ret false
  else ret false.

(** Lines 265-267: the loop over full chunks; answers the last [to_write]. *)
Fixpoint write_loop (fuel : nat) (to_write : bytes) : M (S * state) bytes :=
  match fuel with
  | O => out_of_fuel
  | Datatypes.S fuel' =>
      cs <- liftW chunk_size ;;
      if truthy to_write && (len to_write =? cs) then
        liftW (__flush_data to_write) ;;;
        cs' <- liftW chunk_size ;;
        to_write' <- call_read cs' ;;
        write_loop fuel' to_write'
      else ret to_write
  end.

Definition write_stream (fuel : nat) : M (S * state) unit :=
  done <- write_topup ;;
  if done then ret tt
  else
    cs <- liftW chunk_size ;;
    to_write <- call_read cs ;;
    to_write' <- write_loop fuel to_write ;;
    buffer_write to_write'.

End Stream.

(** Run a stream computation on a source and forget the source afterwards. *)
Definition with_source {S A : Type} (s : S) (c : M (S * state) A) : M state A :=
  fun w => let (o, sw) := c (s, w) in (o, snd sw).

Definition write (fuel : nat) (data : pydata) : M state unit :=
  c <- closed ;;
  if c then raise (ValueError "cannot write to a closed file")
  else
    match data with
    | PyFile read s => with_source s (write_stream read fuel)
    | PyBytes b => with_source (BytesIO.of_bytes b) (write_stream bytesio_read fuel)
    | PyText encode =>
        enc <- gets (fun w => FileDoc.encoding (_file (self w))) ;;
        match enc with
        | None => raise (TypeError "must specify an encoding for file in order to write str")
        | Some e =>
            match encode e with
            | Return b => with_source (BytesIO.of_bytes b) (write_stream bytesio_read fuel)
            | Raise (AttributeError _) =>
                raise (TypeError "must specify an encoding for file in order to write str")
            | Raise x => raise x
            | OutOfFuel => out_of_fuel
            end
        end
    | PyOther => raise (TypeError "can only write strings or file-like objects")
    end.

Fixpoint writelines (fuel : nat) (sequence : list pydata) : M state unit :=
  match sequence with
  | [] => ret tt
  | line :: rest => write fuel line ;;; writelines fuel rest
  end.

(** [_grid_in_property(field_name, ...)]: the getter.  [field] is
    [self._file.get(field_name, default)], the default being 0 for the
    length and [None] otherwise. *)
Definition getter {A : Type} (field_name : string) (closed_only : bool)
    (field : FileDoc.t -> A) : M state A :=
  c <- closed ;;
  if closed_only && negb c
  then raise (AttributeError ("can only get '" ++ field_name ++ "' on a closed file"))
  else gets (fun w => field (_file (self w))).

(** [_grid_in_property(field_name, ...)]: the setter.  [assign] is
    [{"$set": {field_name: value}}] on a document. *)
Definition setter (assign : FileDoc.t -> FileDoc.t) : M state unit :=
  c <- closed ;;
  (if c then
     i <- file_id ;;
     modify (on_coll (fun r => set_files (update_one (by_id i) assign (files r)) r))
   else ret tt) ;;;
  modify (on_self (fun g => set_file (assign (_file g)) g)).

Definition _id : M state ObjectId := getter "_id" false FileDoc._id.
Definition filename : M state (option string) := getter "filename" false FileDoc.filename.
Definition content_type : M state (option string) :=
  getter "contentType" false FileDoc.contentType.
Definition length : M state Z :=
  getter "length" true (fun f => match FileDoc.length f with Some l => l | None => 0 end).
Definition md5 : M state md5_field := getter "md5" true FileDoc.md5.

(** [self.filename = value] and [self.content_type = value] *)
Definition assign_filename (value : string) : M state unit :=
  setter (FileDoc.set_filename value).
Definition assign_content_type (value : string) : M state unit :=
  setter (FileDoc.set_contentType value).

(** [__exit__]: close, and answer [False] so that an exception of the body
    of the [with] statement propagates. *)
Definition __exit__ (now : Z) : M state bool := close now ;;; ret false.

End GridIn.

(* ===================================================================== *)
(** ** GridOut: the chunked reader *)
(* ===================================================================== *)

Definition _SEEK_SET : Z := 0.
Definition _SEEK_CUR : Z := 1.
Definition _SEEK_END : Z := 2.

Module GridOut.

Record t : Type := mk {
  __file_id : option ObjectId;
  __buffer : bytes;
  __position : Z;
  _file : option FileDoc.t
}.

Definition set_buffer (b : bytes) (g : t) : t :=
  mk (__file_id g) b (__position g) (_file g).
Definition set_position (p : Z) (g : t) : t :=
  mk (__file_id g) (__buffer g) p (_file g).
Definition set_file (f : option FileDoc.t) (g : t) : t :=
  mk (__file_id g) (__buffer g) (__position g) f.

(** [GridOut(root_collection, file_id, file_document)] *)
Definition __init__ (file_id : option ObjectId) (file_document : option FileDoc.t) : t :=
  mk file_id EMPTY 0 file_document.

(** ["no chunk #%d" % chunk_number] *)
Definition no_chunk_message (chunk_number : Z) : string :=
  "no chunk #" ++ str_of_Z chunk_number.

(** ["Extra chunk found: expected %i chunks but found chunk with n=%i"
     % (max_chunk_n, chunk['n'])] *)
Definition extra_chunk_message (max_chunk_n found_n : Z) : string :=
  "Extra chunk found: expected " ++ str_of_Z max_chunk_n
  ++ " chunks but found chunk with n=" ++ str_of_Z found_n.

Section Reader.
(** The [root_collection] handed to the constructor; the reader only looks
    things up in it. *)
Variable coll : root_collection.

Definition _ensure_file : M t unit :=
  fun g =>
    match _file g with
    | Some _ => (Return tt, g)
    | None =>
        let found := match __file_id g with
                     | Some i => find_one (by_id i) (files coll)
                     | None => None
                     end in
        match found with
        | Some f => (Return tt, set_file (Some f) g)
        | None => (Raise (NoFile (__file_id g)), g)
        end
    end.

(** [_grid_out_property(field_name)]: resolve the file, then [self._file.get]. *)
Definition property {A : Type} (field : FileDoc.t -> A) : M t A :=
  _ensure_file ;;;
  fun g => match _file g with
           | Some f => (Return (field f), g)
           | None => (Raise (AttributeError "'NoneType' object has no attribute 'get'"), g)
           end.

Definition _id : M t ObjectId := property FileDoc._id.
Definition chunk_size : M t Z := property FileDoc.chunkSize.
(** Protect against PHP-237: a missing length reads as 0. *)
Definition length : M t Z :=
  property (fun f => match FileDoc.length f with Some l => l | None => 0 end).

Definition readchunk : M t bytes :=
  received <- gets (fun g => len (__buffer g)) ;;
  cs <- chunk_size ;;
  chunk_data <-
    (if 0 <? received then gets __buffer
     else
       pos <- gets __position ;;
       l <- length ;;
       if pos <? l then
         (if cs =? 0 then raise ZeroDivisionError else ret tt) ;;;
         let chunk_number := int_div (received + pos) cs in
         i <- _id ;;
         match find_one (by_files_id_n i chunk_number) (chunks coll) with
         | None => raise (CorruptGridFile (no_chunk_message chunk_number))
         | Some chunk =>
             let chunk_data := slice_from (pos mod cs) (ChunkDoc.data chunk) in
             if negb (truthy chunk_data) then raise (CorruptGridFile "truncated chunk")
             else ret chunk_data
         end
       else ret EMPTY) ;;
  modify (fun g => set_position (__position g + len chunk_data) g) ;;;
  modify (set_buffer EMPTY) ;;;
  ret chunk_data.

(** [size = remainder if size < 0 or size > remainder else size] *)
Definition clamp_size (size : Z) : M t Z :=
  l <- length ;;
  pos <- gets __position ;;
  let remainder := l - pos in
  ret (if (size <? 0) || (remainder <? size) then remainder else size).

(** The [while received < size] loop of [read]; [data] is the local
    [StringIO] the chunks are collected in. *)
Fixpoint read_loop (fuel : nat) (size received : Z) (data : BytesIO.t)
    : M t (Z * BytesIO.t) :=
  match fuel with
  | O => out_of_fuel
  | S fuel' =>
      if received <? size then
        chunk_data <- readchunk ;;
        read_loop fuel' size (received + len chunk_data) (BytesIO.write chunk_data data)
      else ret (received, data)
  end.

(** "Detect extra chunks." *)
Definition detect_extra_chunks : M t unit :=
  l <- length ;;
  cs <- chunk_size ;;
  (if cs =? 0 then raise ZeroDivisionError else ret tt) ;;;
  let max_chunk_n := ceil_div l cs in
  i <- _id ;;
  match find_one (by_files_id_n_gte i max_chunk_n) (chunks coll) with
  | Some chunk =>
      if negb (len (ChunkDoc.data chunk) =? 0) then
        raise (CorruptGridFile (extra_chunk_message max_chunk_n (ChunkDoc.n chunk)))
      else ret tt
  | None => ret tt
  end.

(** The common tail of [read] and [readline]: move the cursor back over the
    surplus, "return 'size' bytes and store the rest". *)
Definition return_and_store (size received : Z) (data : BytesIO.t) : M t bytes :=
  modify (fun g => set_position (__position g - (received - size)) g) ;;;
  match BytesIO.seek size data with
  | (Return _, data1) =>
      let (rest, data2) := BytesIO.read (-1) data1 in
      modify (set_buffer rest) ;;;
      match BytesIO.seek 0 data2 with
      | (Return _, data3) => ret (fst (BytesIO.read size data3))
      | (Raise e, _) => raise e
      | (OutOfFuel, _) => out_of_fuel
      end
  | (Raise e, _) => raise e
  | (OutOfFuel, _) => out_of_fuel
  end.

Definition read (fuel : nat) (size : Z) : M t bytes :=
  _ensure_file ;;;
  if size =? 0 then ret EMPTY
  else
    size' <- clamp_size size ;;
    rd <- read_loop fuel size' 0 BytesIO.empty ;;
    let (received, data) := (rd : Z * BytesIO.t) in
    detect_extra_chunks ;;;
    return_and_store size' received data.

(** The loop of [readline]; answers the final [size], [received] and [data]. *)
Fixpoint readline_loop (fuel : nat) (size received : Z) (data : BytesIO.t)
    : M t (Z * Z * BytesIO.t) :=
  match fuel with
  | O => out_of_fuel
  | S fuel' =>
      if received <? size then
        chunk_data <- readchunk ;;
        let pos := find NEWLN 0 size chunk_data in
        let size' := if negb (pos =? -1) then received + pos + 1 else size in
        let received' := received + len chunk_data in
        let data' := BytesIO.write chunk_data data in
        if negb (pos =? -1) then ret (size', received', data')
        else readline_loop fuel' size' received' data'
      else ret (size, received, data)
  end.

Definition readline (fuel : nat) (size : Z) : M t bytes :=
  if size =? 0 then ret EMPTY
  else
    size' <- clamp_size size ;;
    r <- readline_loop fuel size' 0 BytesIO.empty ;;
    let '(size'', received, data) := (r : Z * Z * BytesIO.t) in
    return_and_store size'' received data.

Definition tell : M t Z := gets __position.

Definition seek (pos whence : Z) : M t unit :=
  new_pos <-
    (if whence =? _SEEK_SET then ret pos
     else if whence =? _SEEK_CUR then p <- gets __position ;; ret (p + pos)
     else if whence =? _SEEK_END then l <- length ;; ret (l + pos)
     else raise (IOError 22 "Invalid value for `whence`")) ;;
  if new_pos <? 0 then raise (IOError 22 "Invalid value for `pos` - must be positive")
  else
    modify (set_position new_pos) ;;;
    modify (set_buffer EMPTY).

End Reader.

End GridOut.

(* ===================================================================== *)
(** ** GridOutIterator: the chunks of a file, one after the other *)
(* ===================================================================== *)

(** What a call of [next] gives: a value, or the end of the iteration
    ([raise StopIteration], which the [for] statement takes as its end). *)
Inductive iteration (A : Type) : Type :=
| Yield (a : A)
| StopIteration.
Arguments Yield {A} a.
Arguments StopIteration {A}.

Module GridOutIterator.

Record t : Type := mk {
  __id : ObjectId;
  __current_chunk : Z;
  __max_chunk : Z
}.

Section Iterator.
(** The [root_collection] of the reader; [chunks] is its [.chunks]. *)
Variable coll : root_collection.

(** [GridOutIterator(grid_out, chunks)], which is also what
    [GridOut.__iter__] answers; the three properties are read on the reader. *)
Definition __init__ : M GridOut.t t :=
  i <- GridOut._id coll ;;
  l <- GridOut.length coll ;;
  cs <- GridOut.chunk_size coll ;;
  (if cs =? 0 then raise ZeroDivisionError else ret tt) ;;;
  ret (mk i 0 (ceil_div l cs)).

Definition next : M t (iteration bytes) :=
  cur <- gets __current_chunk ;;
  max_chunk <- gets __max_chunk ;;
  if max_chunk <=? cur then ret StopIteration
  else
    i <- gets __id ;;
    match find_one (by_files_id_n i cur) (chunks coll) with
    | None => raise (CorruptGridFile (GridOut.no_chunk_message cur))
    | Some chunk =>
        modify (fun it => mk (__id it) (__current_chunk it + 1) (__max_chunk it)) ;;;
        ret (Yield (ChunkDoc.data chunk))
    end.

(** [for chunk in iterator: body(chunk)], the body acting on a state of its
    own. *)
Fixpoint for_each {D : Type} (body : bytes -> M D unit) (fuel : nat) (it : t) : M D unit :=
  match fuel with
  | O => out_of_fuel
  | S fuel' =>
      fun d =>
        match next it with
        | (Return (Yield chunk), it') => (body chunk ;;; for_each body fuel' it') d
        | (Return StopIteration, _) => (Return tt, d)
        | (Raise e, _) => (Raise e, d)
        | (OutOfFuel, _) => (OutOfFuel, d)
        end
  end.

End Iterator.

End GridOutIterator.

(* ===================================================================== *)
(** ** MockGridFS and GridFSBucket: the two front ends *)
(* ===================================================================== *)

(** [try: c  finally: cleanup] *)
Definition try_finally {St A : Type} (c : M St A) (cleanup : M St unit) : M St A :=
  fun s =>
    match c s with
    | (OutOfFuel, s') => (OutOfFuel, s')
    | (o, s') =>
        match cleanup s' with
        | (Return _, s'') => (o, s'')
        | (Raise e, s'') => (Raise e, s'')
        | (OutOfFuel, s'') => (OutOfFuel, s'')
        end
    end.

(** [with manager: body], [exit] being the manager's [__exit__]: it runs
    whether the body raised or not, and an exception of the body goes on
    unless [exit] answers true or raises itself. *)
Definition with_statement {St : Type} (body : M St unit) (exit : M St bool) : M St unit :=
  fun s =>
    match body s with
    | (Return _, s') => (exit ;;; ret tt) s'
    | (Raise e, s') =>
        match exit s' with
        | (Return swallow, s'') => if swallow then (Return tt, s'') else (Raise e, s'')
        | (Raise e', s'') => (Raise e', s'')
        | (OutOfFuel, s'') => (OutOfFuel, s'')
        end
    | (OutOfFuel, s') => (OutOfFuel, s')
    end.

(** A computation of a writer made over the store: what it leaves of the
    store is the store afterwards. *)
Definition on_writer {A : Type} (g : GridIn.t) (c : M GridIn.state A)
    : M root_collection A :=
  fun coll => let (o, w) := c (GridIn.mkState g coll) in (o, GridIn.coll w).

(** A value handed where a file name is expected: a string, or anything
    else. *)
Inductive pyvalue : Type :=
| PyStr (s : string)
| PyNotStr.

Definition validate_string {St : Type} (opt : string) (value : pyvalue) : M St string :=
  match value with
  | PyStr s => ret s
  | PyNotStr =>
      raise (TypeError ("Wrong type for " ++ opt ++ ", value must be an instance of str"))
  end.

(** The methods act on the [root_collection] that [database[collection]]
    is; a new file takes the identifier that [ObjectId()] would generate,
    or the caller's, as [file_id]. *)
Module MockGridFS.

Definition put (fuel : nat) (now : Z) (data : pydata) (file_id : ObjectId)
    (chunk_size : option Z) (filename contentType encoding : option string)
    : M root_collection ObjectId :=
  on_writer (GridIn.__init__ file_id chunk_size filename contentType encoding)
    (try_finally (GridIn.write fuel data) (GridIn.close now) ;;;
     GridIn._id).

Definition get (file_id : ObjectId) : M root_collection GridOut.t :=
  fun coll =>
    match GridOut._ensure_file coll (GridOut.__init__ (Some file_id) None) with
    | (Return _, gout) => (Return gout, coll)
    | (Raise e, _) => (Raise e, coll)
    | (OutOfFuel, _) => (OutOfFuel, coll)
    end.

Definition delete (file_id : ObjectId) : M root_collection unit :=
  modify (fun r => set_files (delete_one (by_id file_id) (files r)) r) ;;;
  modify (fun r => set_chunks (delete_many (by_files_id file_id) (chunks r)) r).

End MockGridFS.

Module GridFSBucket.

Record t : Type := mk { _chunk_size_bytes : Z }.

Section Bucket.
Variable self : t.

(** [open_upload_stream(filename, chunk_size_bytes)], without metadata. *)
Definition open_upload_stream (file_id : ObjectId) (filename : pyvalue)
    (chunk_size_bytes : option Z) : M root_collection GridIn.t :=
  name <- validate_string "filename" filename ;;
  ret (GridIn.__init__ file_id
         (Some (match chunk_size_bytes with
                | Some c => c
                | None => _chunk_size_bytes self
                end))
         (Some name) None None).

Definition upload_from_stream (fuel : nat) (now : Z) (file_id : ObjectId)
    (filename : pyvalue) (source : pydata) (chunk_size_bytes : option Z)
    : M root_collection ObjectId :=
  gin <- open_upload_stream file_id filename chunk_size_bytes ;;
  on_writer gin
    (with_statement (GridIn.write fuel source) (GridIn.__exit__ now) ;;;
     GridIn._id).

Definition open_download_stream (file_id : ObjectId) : M root_collection GridOut.t :=
  fun coll =>
    match GridOut._ensure_file coll (GridOut.__init__ (Some file_id) None) with
    | (Return _, gout) => (Return gout, coll)
    | (Raise e, _) => (Raise e, coll)
    | (OutOfFuel, _) => (OutOfFuel, coll)
    end.

(** [download_to_stream(file_id, destination)]; the destination is known by
    its [write] method and its state, the store is only read. *)
Definition download_to_stream {D : Type} (write : bytes -> M D unit)
    (coll : root_collection) (fuel : nat) (file_id : ObjectId) : M D unit :=
  fun d =>
    match open_download_stream file_id coll with
    | (Return gout, _) =>
        match GridOutIterator.__init__ coll gout with
        | (Return it, _) => GridOutIterator.for_each coll write fuel it d
        | (Raise e, _) => (Raise e, d)
        | (OutOfFuel, _) => (OutOfFuel, d)
        end
    | (Raise e, _) => (Raise e, d)
    | (OutOfFuel, _) => (OutOfFuel, d)
    end.

Definition delete (file_id : ObjectId) : M root_collection unit :=
  count <- gets (fun r => deleted_count (by_id file_id) (files r)) ;;
  modify (fun r => set_files (delete_one (by_id file_id) (files r)) r) ;;;
  modify (fun r => set_chunks (delete_many (by_files_id file_id) (chunks r)) r) ;;;
  if count =? 0 then raise (NoFile (Some file_id)) else ret tt.


End Bucket.

End GridFSBucket.

(** [destination.write] of a [BytesIO] destination. *)
Definition bytesio_write (b : bytes) : M BytesIO.t unit :=
  fun s => (Return tt, BytesIO.write b s).

(* ===================================================================== *)
(** ** Vocabulary of the statements *)
(* ===================================================================== *)

(** The bytes of chunk [i] when [B] is cut into chunks of [C] bytes. *)
Definition chunk_of (C : Z) (B : bytes) (i : Z) : bytes := take C (drop (i * C) B).

(** The reader [r] resolves to the file document [f] in [coll]: it was
    built from [f], or from an identifier that [coll.files] maps to [f]. *)
Definition resolves (coll : root_collection) (r : GridOut.t) (f : FileDoc.t) : Prop :=
  GridOut._file r = Some f
  \/ (GridOut._file r = None
      /\ exists i, GridOut.__file_id r = Some i
                   /\ find_one (by_id i) (files coll) = Some f).

(** The declared length of a file document, as the [length] property reads it. *)
Definition declared_length (f : FileDoc.t) : Z :=
  match FileDoc.length f with Some l => l | None => 0 end.

(** The look-ahead buffer of the reader [r] holds bytes of the content [B]
    that follow its cursor (none for a fresh reader and after a seek). *)
Definition lookahead_of (B : bytes) (r : GridOut.t) : Prop :=
  exists k, GridOut.__buffer r = take k (drop (GridOut.__position r) B).

(** The extra-chunk probe of [read] finds nothing, or an empty chunk. *)
Definition no_extra_chunk (coll : root_collection) (f : FileDoc.t) (L : Z) : Prop :=
  match find_one (by_files_id_n_gte (FileDoc._id f) (ceil_div L (FileDoc.chunkSize f)))
                 (chunks coll) with
  | Some c => ChunkDoc.data c = []
  | None => True
  end.

(** [coll.chunks] carries the content [B] of the finalized file [f]: the
    declared length is [len B], and chunk [i] is found and holds bytes
    [i*C .. (i+1)*C) of [B]. *)
Definition holds_chunks (coll : root_collection) (f : FileDoc.t) (B : bytes) : Prop :=
  0 < FileDoc.chunkSize f
  /\ FileDoc.length f = Some (len B)
  /\ (forall i, 0 <= i -> i * FileDoc.chunkSize f < len B ->
        exists c, find_one (by_files_id_n (FileDoc._id f) i) (chunks coll) = Some c
                  /\ ChunkDoc.data c = chunk_of (FileDoc.chunkSize f) B i).

(** ... and the extra-chunk probe stays silent. *)
Definition holds_content (coll : root_collection) (f : FileDoc.t) (B : bytes) : Prop :=
  holds_chunks coll f B /\ no_extra_chunk coll f (len B).

(** A well-formed finalized file, by the shape of its records alone: with
    declared length [L] and chunk size [C], every index below [ceil(L/C)] is
    found, all those chunks carry [C] bytes except the last, which carries
    the remaining [L - i*C], and no non-empty chunk is found further out. *)
Definition well_formed (coll : root_collection) (f : FileDoc.t) : Prop :=
  exists L,
    FileDoc.length f = Some L /\ 0 <= L /\ 0 < FileDoc.chunkSize f
    /\ (forall i, 0 <= i < ceil_div L (FileDoc.chunkSize f) ->
          exists c, find_one (by_files_id_n (FileDoc._id f) i) (chunks coll) = Some c
                    /\ len (ChunkDoc.data c) = Z.min (FileDoc.chunkSize f)
                                                  (L - i * FileDoc.chunkSize f))
    /\ no_extra_chunk coll f L.

(** The bytes the store holds at index [i] of file [fid], and the
    concatenation of the first [count] such chunks. *)
Definition chunk_data_at (coll : root_collection) (fid : ObjectId) (i : Z) : bytes :=
  match find_one (by_files_id_n fid i) (chunks coll) with
  | Some c => ChunkDoc.data c
  | None => []
  end.

Definition file_content (coll : root_collection) (fid : ObjectId) (count : nat) : bytes :=
  List.concat (map (fun i => chunk_data_at coll fid (Z.of_nat i)) (seq 0 count)).

(** The chunk documents [0 .. k-1] of the content [B] of file [fid]. *)
Definition chunk_docs (fid : ObjectId) (C : Z) (B : bytes) (k : nat) : list ChunkDoc.t :=
  map (fun i => ChunkDoc.mk fid (Z.of_nat i) (chunk_of C B (Z.of_nat i))) (seq 0 k).

(** Neither collection of [coll] mentions the identifier [fid]. *)
Definition fresh_id (coll : root_collection) (fid : ObjectId) : Prop :=
  (forall c, In c (docs (chunks coll)) -> ChunkDoc.files_id c <> fid)
  /\ (forall f, In f (docs (files coll)) -> FileDoc._id f <> fid).

(** The open writer [w], created with the document [f0] over the store
    [coll0], has flushed the first [k] chunks of the stream [U] (that is its
    first [P] bytes) and holds [buf] in its buffer. *)
Definition writer_at (f0 : FileDoc.t) (coll0 : root_collection) (U : bytes)
    (k : nat) (P : Z) (buf : bytes) (w : GridIn.state) : Prop :=
  GridIn._closed (GridIn.self w) = false
  /\ GridIn._file (GridIn.self w) = FileDoc.set_md5 (md5_object (take P U)) f0
  /\ GridIn._buffer (GridIn.self w) = BytesIO.mk buf (len buf)
  /\ GridIn._position (GridIn.self w) = P
  /\ GridIn._chunk_number (GridIn.self w) = Z.of_nat k
  /\ docs (chunks (GridIn.coll w))
     = docs (chunks coll0) ++ chunk_docs (FileDoc._id f0) (FileDoc.chunkSize f0) U k
  /\ docs (files (GridIn.coll w)) = docs (files coll0).

(** The writer has taken in exactly the bytes [T]: every full chunk of [T]
    is flushed, the rest waits in the buffer. *)
Definition writer_inv (f0 : FileDoc.t) (coll0 : root_collection) (T : bytes)
    (w : GridIn.state) : Prop :=
  let C := FileDoc.chunkSize f0 in
  writer_at f0 coll0 T (Z.to_nat (len T / C)) (len T / C * C) (drop (len T / C * C) T) w.

(** The writes of a list of byte strings, one [write] call each. *)
Definition write_calls (parts : list bytes) : list pydata := map PyBytes parts.

(** Write the parts one after the other, then close. *)
Definition upload (fuel : nat) (parts : list bytes) (now : Z) : M GridIn.state unit :=
  GridIn.writelines fuel (write_calls parts) ;;; GridIn.close now.

(** The file document that [close] stores for a writer created with [f0]
    that has taken in the bytes [T]. *)
Definition final_doc (f0 : FileDoc.t) (T : bytes) (now : Z) : FileDoc.t :=
  FileDoc.set_uploadDate now (FileDoc.set_length (len T) (FileDoc.set_md5 (hex_string T) f0)).

(** [md5(B).hexdigest()]: the digest of [B] taken in one pass. *)
Definition md5_of (B : bytes) : outcome md5_field :=
  match hashlib.update B hashlib.md5 with
  | Return m => hashlib.hexdigest m
  | Raise e => Raise e
  | OutOfFuel => OutOfFuel
  end.

(** The [md5] entry of the document is still a hash object. *)
Definition live_md5 (f : FileDoc.t) : Prop :=
  exists fed, FileDoc.md5 f = md5_object fed.

(** [w'] is [w] with nothing taken away: the writer is as open or closed
    as before, it is still the writer of the same file with the same chunk
    size, every chunk document is still there and the file documents are
    the same. *)
Definition keeps_records (w w' : GridIn.state) : Prop :=
  GridIn._closed (GridIn.self w') = GridIn._closed (GridIn.self w)
  /\ FileDoc._id (GridIn._file (GridIn.self w')) = FileDoc._id (GridIn._file (GridIn.self w))
  /\ FileDoc.chunkSize (GridIn._file (GridIn.self w'))
     = FileDoc.chunkSize (GridIn._file (GridIn.self w))
  /\ incl (docs (chunks (GridIn.coll w))) (docs (chunks (GridIn.coll w')))
  /\ docs (files (GridIn.coll w')) = docs (files (GridIn.coll w))
  /\ (live_md5 (GridIn._file (GridIn.self w)) -> live_md5 (GridIn._file (GridIn.self w'))).

(** Every run of [c], whatever its outcome, relates the states by [R]. *)
Definition always {St A : Type} (R : St -> St -> Prop) (c : M St A) : Prop :=
  forall s o s', c s = (o, s') -> R s s'.


(** Where [seek(pos, whence)] puts the cursor. *)
Definition seek_target (r : GridOut.t) (L pos whence : Z) : Z :=
  if whence =? _SEEK_SET then pos
  else if whence =? _SEEK_CUR then GridOut.__position r + pos
  else L + pos.

(** A reader whose identifier the files collection does not know. *)
Definition unknown_file (coll : root_collection) (r : GridOut.t) : Prop :=
  GridOut._file r = None
  /\ match GridOut.__file_id r with
     | Some i => find_one (by_id i) (files coll) = None
     | None => True
     end.

(** The bytes of [b] up to and including its first line feed; all of [b]
    when it has none. *)
Definition first_line (b : bytes) : bytes :=
  match index_of NEWLN b with
  | Some i => take (Z.of_nat i + 1) b
  | None => b
  end.

(** [count] calls of [readline()] in a row, and the lines they answer. *)
Fixpoint readline_calls (coll : root_collection) (fuel : nat) (count : nat)
    : M GridOut.t (list bytes) :=
  match count with
  | O => ret []
  | S k =>
      line <- GridOut.readline coll fuel (-1) ;;
      more <- readline_calls coll fuel k ;;
      ret (line :: more)
  end.

(** The first [count] lines of [b]: each ends with its line feed, except
    a last one that the end of [b] cuts; past the end the lines are empty. *)
Fixpoint lines_of (count : nat) (b : bytes) : list bytes :=
  match count with
  | O => []
  | S k => first_line b :: lines_of k (drop (len (first_line b)) b)
  end.

(** One [write] call per piece, in order. *)
Fixpoint write_all {D : Type} (write : bytes -> M D unit) (pieces : list bytes) : M D unit :=
  match pieces with
  | [] => ret tt
  | piece :: more => write piece ;;; write_all write more
  end.

(** The payloads stored at the indexes [first .. first + count - 1]. *)
Definition stored_chunks (coll : root_collection) (fid : ObjectId) (first count : nat)
    : list bytes :=
  map (fun i => chunk_data_at coll fid (Z.of_nat i)) (seq first count).

(** The chunk size a new file gets. *)
Definition chunk_size_or_default (chunk_size : option Z) : Z :=
  match chunk_size with Some c => c | None => DEFAULT_CHUNK_SIZE end.

(** The document a new writer starts from. *)
Definition new_doc (fid : ObjectId) (C : Z) (fname ctype enc : option string) : FileDoc.t :=
  FileDoc.mk fid C hashlib.md5 None None fname ctype enc.

(* ===================================================================== *)
(** ** Concrete stores, writers and sources for the examples *)
(* ===================================================================== *)

Definition bytes_of (s : string) : bytes := list_byte_of_string s.

Definition empty_store : root_collection := mkRoot (mkColl [] []) (mkColl [] []).

Definition hello_parts : list bytes := [bytes_of "hello "; bytes_of "world"].

(** A finalized file document of identifier 7 with 4-byte chunks. *)
Definition file7 (content : bytes) : FileDoc.t :=
  FileDoc.mk 7 4 (hex_string content) (Some (len content)) (Some 99) None None None.

Definition chunk7 (k : Z) (data : string) : ChunkDoc.t := ChunkDoc.mk 7 k (bytes_of data).

Definition store7 (content : string) (chunk_list : list ChunkDoc.t) : root_collection :=
  mkRoot (mkColl [file7 (bytes_of content)] [(_F_INDEX, false)])
         (mkColl chunk_list [(_C_INDEX, true)]).

(** "hello world" as [close] leaves it. *)
Definition hello_store : root_collection :=
  store7 "hello world" [chunk7 0 "hell"; chunk7 1 "o wo"; chunk7 2 "rld"].

(** The same after the deletion of chunk 1. *)
Definition hello_store_without_chunk_1 : root_collection :=
  store7 "hello world" [chunk7 0 "hell"; chunk7 2 "rld"].





(** Seven letters and a line feed, in two chunks. *)
Definition line_content : bytes := bytes_of "abcdefg" ++ [NEWLN].
Definition line_store : root_collection :=
  mkRoot (mkColl [file7 line_content] [(_F_INDEX, false)])
         (mkColl [chunk7 0 "abcd"; ChunkDoc.mk 7 1 (bytes_of "efg" ++ [NEWLN])]
                 [(_C_INDEX, true)]).

(** A reader opened by identifier. *)
Definition reader7 : GridOut.t := GridOut.__init__ (Some 7) None.

(** A new writer for identifier 7 over a store whose files collection
    already has a document with that identifier. *)
Definition taken_store : root_collection :=
  mkRoot (mkColl [file7 (bytes_of "old")] [(_F_INDEX, false)]) (mkColl [] [(_C_INDEX, true)]).
Definition writer7_on_taken_store : GridIn.state :=
  GridIn.mkState (GridIn.__init__ 7 (Some 4) None None None) taken_store.


(** A file-like object whose [read] always raises. *)
Definition broken_read (size : Z) : M unit bytes :=
  fun s => (Raise (IOError 5 "Input/output error"), s).

(** Two lines and the beginning of a third, in two chunks. *)
Definition lines_content : bytes :=
  bytes_of "ab" ++ [NEWLN] ++ bytes_of "cd" ++ [NEWLN] ++ bytes_of "e".
Definition lines_store : root_collection :=
  mkRoot (mkColl [file7 lines_content] [(_F_INDEX, false)])
         (mkColl [ChunkDoc.mk 7 0 (take 4 lines_content);
                  ChunkDoc.mk 7 1 (drop 4 lines_content)]
                 [(_C_INDEX, true)]).

(** A bucket whose files get 4-byte chunks. *)
Definition bucket4 : GridFSBucket.t := GridFSBucket.mk 4.

(** A file-like object that answers two bytes to every read and counts the
    reads. *)
Definition stingy_read (size : Z) : M nat bytes :=
  fun reads => (Return (bytes_of "ab"), S reads).

(* ===================================================================== *)
(** ** Lists of bytes measured in Z *)
(* ===================================================================== *)

Unset Implicit Arguments.

Lemma len_nonneg {A : Type} (l : list A) : 0 <= len l.
Proof. unfold len; lia. Qed.

Lemma len_nil {A : Type} : len (@nil A) = 0.
Proof. reflexivity. Qed.

Lemma len_app {A : Type} (l1 l2 : list A) : len (l1 ++ l2) = len l1 + len l2.
Proof. unfold len; rewrite length_app; lia. Qed.

Lemma len_zero_nil {A : Type} (l : list A) : len l = 0 -> l = [].
Proof. destruct l; [reflexivity | unfold len; simpl; lia]. Qed.

Lemma len_take {A : Type} (k : Z) (l : list A) :
  len (take k l) = Z.min (Z.max 0 k) (len l).
Proof. unfold len, take; rewrite length_firstn; lia. Qed.

Lemma len_drop {A : Type} (k : Z) (l : list A) :
  len (drop k l) = Z.max 0 (len l - Z.max 0 k).
Proof. unfold len, drop; rewrite length_skipn; lia. Qed.

Lemma take_all {A : Type} (k : Z) (l : list A) : len l <= k -> take k l = l.
Proof. unfold len, take; intros; apply firstn_all2; lia. Qed.

Lemma take_nonpos {A : Type} (k : Z) (l : list A) : k <= 0 -> take k l = [].
Proof. unfold take; intros; replace (Z.to_nat k) with O by lia; reflexivity. Qed.

Lemma drop_nonpos {A : Type} (k : Z) (l : list A) : k <= 0 -> drop k l = l.
Proof. unfold drop; intros; replace (Z.to_nat k) with O by lia; reflexivity. Qed.

Lemma drop_all {A : Type} (k : Z) (l : list A) : len l <= k -> drop k l = [].
Proof. unfold len, drop; intros; apply skipn_all2; lia. Qed.

Lemma take_drop_id {A : Type} (k : Z) (l : list A) : take k l ++ drop k l = l.
Proof. apply firstn_skipn. Qed.

Lemma drop_drop {A : Type} (a b : Z) (l : list A) :
  0 <= a -> 0 <= b -> drop a (drop b l) = drop (b + a) l.
Proof.
  unfold drop; intros; rewrite skipn_skipn; f_equal; lia.
Qed.

Lemma take_take {A : Type} (a b : Z) (l : list A) :
  take a (take b l) = take (Z.min a b) l.
Proof.
  unfold take; rewrite firstn_firstn; f_equal; lia.
Qed.

Lemma drop_take {A : Type} (a b : Z) (l : list A) :
  0 <= a -> drop a (take b l) = take (b - a) (drop a l).
Proof.
  unfold drop, take; intros; rewrite skipn_firstn_comm; f_equal; lia.
Qed.

Lemma take_app_drop {A : Type} (a b : Z) (l : list A) :
  0 <= a -> 0 <= b -> take a l ++ take b (drop a l) = take (a + b) l.
Proof.
  intros Ha Hb.
  rewrite <- (take_drop_id a l) at 3.
  unfold take at 3. rewrite firstn_app.
  fold (take (a + b) (take a l)). rewrite take_take, Z.min_r by lia.
  f_equal.
  destruct (Z_le_gt_dec a (len l)) as [Hle | Hgt].
  - unfold take, drop. f_equal. rewrite length_firstn. unfold len in Hle. lia.
  - rewrite (drop_all a l) by lia. unfold take. now rewrite !firstn_nil.
Qed.

Lemma take_app_l {A : Type} (k : Z) (l1 l2 : list A) :
  k <= len l1 -> take k (l1 ++ l2) = take k l1.
Proof.
  unfold take, len; intros. rewrite firstn_app.
  replace (Z.to_nat k - List.length l1)%nat with O by lia.
  simpl. apply app_nil_r.
Qed.

Lemma drop_app_l {A : Type} (k : Z) (l1 l2 : list A) :
  k <= len l1 -> drop k (l1 ++ l2) = drop k l1 ++ l2.
Proof.
  unfold drop, len; intros. rewrite skipn_app.
  replace (Z.to_nat k - List.length l1)%nat with O by lia. reflexivity.
Qed.

Lemma drop_app_r {A : Type} (k : Z) (l1 l2 : list A) :
  len l1 <= k -> drop k (l1 ++ l2) = drop (k - len l1) l2.
Proof.
  unfold drop, len; intros. rewrite skipn_app.
  rewrite skipn_all2 by lia. simpl. f_equal. lia.
Qed.

Lemma truthy_len (b : bytes) : truthy b = (0 <? len b).
Proof. destruct b; [reflexivity | unfold len; simpl; symmetry; apply Z.ltb_lt; lia]. Qed.

(* ===================================================================== *)
(** ** Running the monad *)
(* ===================================================================== *)

Section MonadLaws.
Context {St A B : Type}.

Lemma bind_Return (c : M St A) (k : A -> M St B) s a s' :
  c s = (Return a, s') -> bind c k s = k a s'.
Proof. unfold bind; intros ->; reflexivity. Qed.

Lemma bind_Raise (c : M St A) (k : A -> M St B) s e s' :
  c s = (Raise e, s') -> bind c k s = (Raise e, s').
Proof. unfold bind; intros ->; reflexivity. Qed.

Lemma bind_OutOfFuel (c : M St A) (k : A -> M St B) s s' :
  c s = (OutOfFuel, s') -> bind c k s = (OutOfFuel, s').
Proof. unfold bind; intros ->; reflexivity. Qed.

Lemma bind_ret (a : A) (k : A -> M St B) s : bind (ret a) k s = k a s.
Proof. reflexivity. Qed.

Lemma bind_gets (f : St -> A) (k : A -> M St B) s : bind (gets f) k s = k (f s) s.
Proof. reflexivity. Qed.

Lemma bind_modify (f : St -> St) (k : unit -> M St B) s :
  bind (modify f) k s = k tt (f s).
Proof. reflexivity. Qed.

Lemma bind_raise (e : exn) (k : A -> M St B) s : bind (raise e) k s = (Raise e, s).
Proof. reflexivity. Qed.

End MonadLaws.

Ltac msimpl :=
  repeat (rewrite bind_ret || rewrite bind_gets || rewrite bind_modify
          || rewrite bind_raise); cbv beta.

(** Cut a [bind] at the outcome and state its first computation reaches. *)
Ltac mcut o s' :=
  match goal with
  | |- bind ?c ?k ?s = _ =>
      let H := fresh "Hcut" in
      assert (H : c s = (o, s'));
      [ | first [ rewrite (bind_Return c k s _ _ H)
                | rewrite (bind_Raise c k s _ _ H)
                | rewrite (bind_OutOfFuel c k s _ H) ]; clear H; cbv beta ]
  end.

(* ===================================================================== *)
(** ** The reader on a store that holds the content *)
(* ===================================================================== *)

Lemma ensure_file_resolves coll r f :
  resolves coll r f ->
  GridOut._ensure_file coll r = (Return tt, GridOut.set_file (Some f) r).
Proof.
  unfold resolves, GridOut._ensure_file. intros [H | (H & i & Hi & Hf)].
  - rewrite H. destruct r; simpl in *; subst; reflexivity.
  - rewrite H, Hi, Hf. reflexivity.
Qed.

Lemma property_resolved {A : Type} coll (field : FileDoc.t -> A) r f :
  GridOut._file r = Some f ->
  GridOut.property coll field r = (Return (field f), r).
Proof.
  intros H. unfold GridOut.property, bind, GridOut._ensure_file. rewrite H. simpl. rewrite H. reflexivity.
Qed.

Lemma length_resolved coll r f :
  GridOut._file r = Some f -> GridOut.length coll r = (Return (declared_length f), r).
Proof. intros H. unfold GridOut.length. now rewrite (property_resolved coll _ r f H). Qed.

Lemma chunk_size_resolved coll r f :
  GridOut._file r = Some f -> GridOut.chunk_size coll r = (Return (FileDoc.chunkSize f), r).
Proof. intros H. unfold GridOut.chunk_size. now rewrite (property_resolved coll _ r f H). Qed.

Lemma id_resolved coll r f :
  GridOut._file r = Some f -> GridOut._id coll r = (Return (FileDoc._id f), r).
Proof. intros H. unfold GridOut._id. now rewrite (property_resolved coll _ r f H). Qed.

Lemma clamp_size_resolved coll r f size :
  GridOut._file r = Some f ->
  GridOut.clamp_size coll size r
  = (Return (if (size <? 0) || (declared_length f - GridOut.__position r <? size)
             then declared_length f - GridOut.__position r else size), r).
Proof.
  intros Hf. unfold GridOut.clamp_size.
  rewrite (bind_Return _ _ _ _ _ (length_resolved coll r f Hf)). msimpl. reflexivity.
Qed.

(** [readchunk] hands out the look-ahead buffer when there is one. *)
Lemma readchunk_buffered coll r f :
  GridOut._file r = Some f -> GridOut.__buffer r <> [] ->
  GridOut.readchunk coll r
  = (Return (GridOut.__buffer r),
     GridOut.set_buffer EMPTY
       (GridOut.set_position (GridOut.__position r + len (GridOut.__buffer r)) r)).
Proof.
  intros Hf Hb. unfold GridOut.readchunk. msimpl.
  rewrite (bind_Return _ _ _ _ _ (chunk_size_resolved coll r f Hf)).
  rewrite <- truthy_len.
  replace (truthy (GridOut.__buffer r)) with true
    by (destruct (GridOut.__buffer r); [congruence | reflexivity]).
  msimpl. reflexivity.
Qed.

Lemma chunk_of_tail (C q : Z) (B : bytes) :
  0 < C -> 0 <= q ->
  drop (q mod C) (chunk_of C B (q / C)) = take (C - q mod C) (drop q B).
Proof.
  intros HC Hq. unfold chunk_of.
  assert (Hmod : 0 <= q mod C < C) by (apply Z.mod_pos_bound; exact HC).
  assert (Hdiv : q = C * (q / C) + q mod C) by (apply Z.div_mod; lia).
  assert (0 <= q / C) by (apply Z.div_pos; lia).
  rewrite drop_take by lia. rewrite drop_drop by nia.
  do 2 f_equal. lia.
Qed.

Lemma readchunk_fetch coll f B r :
  holds_chunks coll f B ->
  GridOut._file r = Some f ->
  GridOut.__buffer r = [] ->
  0 <= GridOut.__position r < len B ->
  let q := GridOut.__position r in
  let C := FileDoc.chunkSize f in
  let chunk := take (C - q mod C) (drop q B) in
  GridOut.readchunk coll r
  = (Return chunk, GridOut.mk (GridOut.__file_id r) [] (q + len chunk) (Some f))
  /\ 0 < len chunk.
Proof.
  intros (HC & HL & Hchunks) Hf Hb Hq q C chunk.
  assert (Hmod : 0 <= q mod C < C) by (apply Z.mod_pos_bound; exact HC).
  assert (Hdiv : q = C * (q / C) + q mod C) by (apply Z.div_mod; unfold C; lia).
  assert (Hlen : 0 < len chunk).
  { unfold chunk. rewrite len_take, len_drop. fold q in Hq. lia. }
  split; [| exact Hlen].
  destruct (Hchunks (q / C)) as (c & Hfind & Hdata).
  { apply Z.div_pos; [apply Hq | exact HC]. }
  { fold C. fold q in Hq. nia. }
  unfold GridOut.readchunk, GridOut.chunk_size, GridOut.length, GridOut._id.
  msimpl. rewrite Hb. change (len []) with 0. 
  erewrite bind_Return by (apply property_resolved; exact Hf). cbv beta.
  mcut (Return chunk) r.
  { change (0 <? 0) with false. cbv iota. msimpl.
      erewrite bind_Return by (apply property_resolved; exact Hf). cbv beta.
      rewrite HL. fold q. replace (q <? len B) with true by (symmetry; apply Z.ltb_lt; apply Hq).
      fold C. replace (C =? 0) with false by (symmetry; apply Z.eqb_neq; lia).
      msimpl.
      erewrite bind_Return by (apply property_resolved; exact Hf). cbv beta.
      unfold int_div. rewrite Z.add_0_l. rewrite Z.quot_div_nonneg by lia.
      rewrite Hfind.
      assert (Hslice : slice_from (q mod C) (ChunkDoc.data c) = chunk).
      { unfold slice_from. replace (q mod C <? 0) with false by (symmetry; apply Z.ltb_ge; lia).
        rewrite Hdata. apply chunk_of_tail; [exact HC | apply Hq]. }
      rewrite Hslice, truthy_len.
      replace (0 <? len chunk) with true by (symmetry; apply Z.ltb_lt; exact Hlen).
      reflexivity. }
  msimpl. unfold ret. destruct r; simpl in *. subst. reflexivity.
Qed.

Lemma take_min_len {A : Type} (k : Z) (l : list A) : take (Z.min k (len l)) l = take k l.
Proof.
  destruct (Z_le_gt_dec k (len l)).
  - rewrite Z.min_l by lia. reflexivity.
  - rewrite Z.min_r by lia. rewrite !take_all by lia. reflexivity.
Qed.

Lemma BytesIO_write_at_end (b : bytes) (s : BytesIO.t) :
  BytesIO.pos s = len (BytesIO.value s) ->
  BytesIO.write b s = BytesIO.mk (BytesIO.value s ++ b) (BytesIO.pos s + len b).
Proof.
  intros H. unfold BytesIO.write. rewrite H, Z.ltb_irrefl.
  rewrite take_all by lia. rewrite drop_all by (pose proof (len_nonneg b); lia).
  rewrite app_nil_r. reflexivity.
Qed.

Lemma read_loop_spec coll f B fid p size :
  holds_chunks coll f B ->
  0 <= p -> p + size <= len B ->
  forall fuel q,
    p <= q <= len B ->
    Z.max 0 (size - (q - p)) < Z.of_nat fuel ->
    exists q',
      GridOut.read_loop coll fuel size (q - p)
        (BytesIO.mk (take (q - p) (drop p B)) (q - p))
        (GridOut.mk fid [] q (Some f))
      = (Return (q' - p, BytesIO.mk (take (q' - p) (drop p B)) (q' - p)),
         GridOut.mk fid [] q' (Some f))
      /\ q <= q' <= len B /\ size <= q' - p.
Proof.
  intros Hc Hp Hsize. induction fuel as [| fuel IH]; intros q Hq Hfuel; [lia |].
  cbn [GridOut.read_loop].
  destruct (Z.ltb_spec (q - p) size) as [Hlt | Hge].
  - destruct (readchunk_fetch coll f B (GridOut.mk fid [] q (Some f)) Hc eq_refl eq_refl)
      as [Hrc Hpos]; [simpl; lia |].
    simpl in Hrc, Hpos.
    set (chunk := take (FileDoc.chunkSize f - q mod FileDoc.chunkSize f) (drop q B)) in *.
    rewrite (bind_Return _ _ _ _ _ Hrc).
    assert (Hchunk_le : q + len chunk <= len B).
    { unfold chunk. rewrite len_take, len_drop. lia. }
    rewrite BytesIO_write_at_end by (simpl; rewrite len_take, len_drop; lia).
    simpl BytesIO.value. simpl BytesIO.pos.
    assert (Happ : take (q - p) (drop p B) ++ chunk = take (q + len chunk - p) (drop p B)).
    { unfold chunk at 1. replace (drop q B) with (drop (q - p) (drop p B))
        by (rewrite drop_drop by lia; f_equal; lia).
      rewrite take_app_drop by (destruct Hc as (HC & _);
        pose proof (Z.mod_pos_bound q _ HC); lia).
      rewrite <- take_min_len. symmetry. rewrite <- take_min_len. f_equal.
      unfold chunk. rewrite len_take, !len_drop.
      destruct Hc as (HC & _). pose proof (Z.mod_pos_bound q _ HC). lia. }
    rewrite Happ.
    replace (q - p + len chunk) with (q + len chunk - p) by lia.
    destruct (IH (q + len chunk)) as (q' & Hloop & Hq' & Hs); [lia | lia |].
    exists q'. rewrite Hloop. split; [reflexivity | lia].
  - exists q. split; [reflexivity | lia].
Qed.

Lemma holds_chunks_length coll f B : holds_chunks coll f B -> declared_length f = len B.
Proof. intros (_ & HL & _). unfold declared_length. now rewrite HL. Qed.

Lemma take_min_len_max {A : Type} (k : Z) (l : list A) :
  take (Z.min (Z.max 0 k) (len l)) l = take k l.
Proof.
  rewrite take_min_len. destruct (Z_le_gt_dec 0 k).
  - rewrite Z.max_r by lia. reflexivity.
  - rewrite Z.max_l by lia. rewrite !take_nonpos by lia. reflexivity.
Qed.

(** The loop of [read] started on a reader whose look-ahead buffer, if
    any, holds content: it collects the bytes from the cursor on. *)
Lemma read_loop_from_reader coll f B r n fuel :
  let p := GridOut.__position r in
  holds_chunks coll f B ->
  GridOut._file r = Some f ->
  lookahead_of B r ->
  0 <= p -> 0 <= n -> p + n <= len B ->
  (n = 0 -> GridOut.__buffer r = []) ->
  n < Z.of_nat fuel ->
  exists q',
    GridOut.read_loop coll fuel n 0 BytesIO.empty r
    = (Return (q' - p, BytesIO.mk (take (q' - p) (drop p B)) (q' - p)),
       GridOut.mk (GridOut.__file_id r) [] q' (Some f))
    /\ p <= q' <= len B /\ n <= q' - p.
Proof.
  intros p Hc Hf (k & Hk) Hp Hn Hend Hzero Hfuel. fold p in Hk.
  destruct (GridOut.__buffer r) as [| x b] eqn:Hb.
  - (* nothing in the buffer *)
    destruct (read_loop_spec coll f B (GridOut.__file_id r) p n Hc Hp Hend fuel p)
      as (q' & Hloop & Hq' & Hnq); [lia | lia |].
    rewrite Z.sub_diag in Hloop. rewrite take_nonpos in Hloop by lia.
    exists q'. split; [| split; assumption].
    rewrite <- Hloop. f_equal. destruct r; simpl in *. subst. reflexivity.
  - (* the buffer is handed out first *)
    assert (Hn0 : 0 < n).
    { destruct (Z.eq_dec n 0) as [Hz | Hz]; [specialize (Hzero Hz); discriminate | lia]. }
    assert (Hlen : 0 < len (x :: b) <= len B - p).
    { split; [unfold len; simpl; lia |]. rewrite Hk, len_take, len_drop. lia. }
    assert (Hself : x :: b = take (len (x :: b)) (drop p B)).
    { rewrite Hk at 1. rewrite Hk, len_take. symmetry. apply take_min_len_max. }
    destruct fuel as [| fuel]; [lia |]. cbn [GridOut.read_loop].
    replace (0 <? n) with true by (symmetry; apply Z.ltb_lt; lia).
    rewrite (bind_Return _ _ _ _ _
               (readchunk_buffered coll r f Hf ltac:(rewrite Hb; discriminate))).
    rewrite Hb. rewrite BytesIO_write_at_end by reflexivity.
    cbn [BytesIO.value BytesIO.pos BytesIO.empty app]. rewrite !Z.add_0_l.
    fold p.
    set (q := p + len (x :: b)).
    destruct (read_loop_spec coll f B (GridOut.__file_id r) p n Hc Hp Hend fuel q)
      as (q' & Hloop & Hq' & Hnq); [unfold q; lia | unfold q; lia |].
    replace (q - p) with (len (x :: b)) in Hloop by (unfold q; lia).
    rewrite <- Hself in Hloop.
    exists q'. split; [| split; [unfold q in Hq'; lia | exact Hnq]].
    rewrite <- Hloop. f_equal.
    unfold GridOut.set_buffer, GridOut.set_position. simpl. rewrite Hf. reflexivity.
Qed.

Lemma read_spec coll f B r size fuel :
  holds_content coll f B ->
  resolves coll r f ->
  lookahead_of B r ->
  0 <= GridOut.__position r <= len B ->
  size <> 0 ->
  let p := GridOut.__position r in
  let n := if (size <? 0) || (len B - p <? size) then len B - p else size in
  n < Z.of_nat fuel ->
  exists r',
    GridOut.read coll fuel size r = (Return (take n (drop p B)), r')
    /\ GridOut.__position r' = p + n
    /\ GridOut._file r' = Some f.
Proof.
  intros Hc Hres Hb Hp Hsz p n Hfuel.
  assert (Hn : 0 <= n /\ p + n <= len B /\ (n = 0 -> p = len B)).
  { unfold n. destruct (Z.ltb_spec size 0); simpl; [lia |].
    destruct (Z.ltb_spec (len B - p) size); lia. }
  destruct Hn as (Hn0 & Hn1 & Hn2).
  set (r1 := GridOut.set_file (Some f) r).
  destruct (read_loop_from_reader coll f B r1 n fuel (proj1 Hc) eq_refl Hb (proj1 Hp)
              Hn0 Hn1) as (q' & Hloop & Hq' & Hnq).
  { intros Hz. destruct Hb as (k & Hk). simpl. rewrite Hk. fold p.
    rewrite (drop_all p B) by (specialize (Hn2 Hz); lia).
    unfold take. apply firstn_nil. }
  { exact Hfuel. }
  change (GridOut.__position r1) with p in Hloop, Hq', Hnq.
  change (GridOut.__file_id r1) with (GridOut.__file_id r) in Hloop.
  unfold GridOut.read.
  rewrite (bind_Return _ _ _ _ _ (ensure_file_resolves coll r f Hres)).
  replace (size =? 0) with false by (symmetry; apply Z.eqb_neq; exact Hsz).
  cbv iota. fold r1.
  pose proof (holds_chunks_length coll f B (proj1 Hc)) as HL.
  destruct Hc as ((HC & _ & Hchunks) & Hextra).
  eexists. split.
  2:{ shelve. }
  rewrite (bind_Return _ _ _ _ _ (clamp_size_resolved coll r1 f size eq_refl)).
  rewrite HL. change (GridOut.__position r1) with p. fold n.
  rewrite (bind_Return _ _ _ _ _ Hloop).
  set (r2 := GridOut.mk (GridOut.__file_id r) [] q' (Some f)).
  mcut (Return tt) r2.
  { unfold GridOut.detect_extra_chunks.
    rewrite (bind_Return _ _ _ _ _ (length_resolved coll r2 f eq_refl)).
    rewrite (bind_Return _ _ _ _ _ (chunk_size_resolved coll r2 f eq_refl)).
    replace (FileDoc.chunkSize f =? 0) with false by (symmetry; apply Z.eqb_neq; lia).
    msimpl.
    rewrite (bind_Return _ _ _ _ _ (id_resolved coll r2 f eq_refl)).
    rewrite HL. unfold no_extra_chunk in Hextra.
    destruct (find_one _ _) as [c |]; [| reflexivity].
    rewrite Hextra. reflexivity. }
  unfold GridOut.return_and_store. msimpl.
  unfold BytesIO.seek. replace (n <? 0) with false by (symmetry; apply Z.ltb_ge; lia).
  unfold BytesIO.read. cbn [BytesIO.value BytesIO.pos fst Z.ltb Z.compare].
  replace (n <? 0) with false by (symmetry; apply Z.ltb_ge; lia).
  msimpl. rewrite (drop_nonpos 0) by lia.
  rewrite take_take, Z.min_l by lia. reflexivity.
  Unshelve. simpl. split; [lia | reflexivity].
Qed.

(* ===================================================================== *)
(** ** The writer on byte strings *)
(* ===================================================================== *)

Lemma ensure_indexes_run (w : GridIn.state) :
  exists i1 i2,
    GridIn.__ensure_indexes w
    = (Return tt,
       GridIn.mkState (GridIn.set_ensured_index true (GridIn.self w))
         (mkRoot (mkColl (docs (files (GridIn.coll w))) i1)
                 (mkColl (docs (chunks (GridIn.coll w))) i2))).
Proof.
  destruct w as [[f b p k c e] [[fd fi] [cd ci]]].
  unfold GridIn.__ensure_indexes. msimpl. simpl.
  destruct e.
  - exists fi, ci. reflexivity.
  - msimpl. unfold GridIn.__create_index, find_one. simpl.
    destruct fd, cd; simpl; eexists; eexists; reflexivity.
Qed.

Lemma existsb_false_iff {A : Type} (p : A -> bool) (l : list A) :
  existsb p l = false <-> forall x, In x l -> p x = false.
Proof.
  induction l as [| a l IH]; simpl.
  - split; [intros _ x [] | reflexivity].
  - rewrite orb_false_iff, IH. split.
    + intros [Ha Hl] x [<- | Hx]; auto.
    + intros H; split; [apply H; now left | intros x Hx; apply H; now right].
Qed.

Lemma in_chunk_docs fid C B k c :
  In c (chunk_docs fid C B k) ->
  ChunkDoc.files_id c = fid /\ 0 <= ChunkDoc.n c < Z.of_nat k
  /\ ChunkDoc.data c = chunk_of C B (ChunkDoc.n c).
Proof.
  unfold chunk_docs. rewrite in_map_iff. intros (i & <- & Hi).
  apply in_seq in Hi. simpl. repeat split; lia.
Qed.

Lemma chunk_docs_S fid C B k :
  chunk_docs fid C B (S k)
  = chunk_docs fid C B k ++ [ChunkDoc.mk fid (Z.of_nat k) (chunk_of C B (Z.of_nat k))].
Proof.
  unfold chunk_docs. rewrite seq_S, map_app. reflexivity.
Qed.

Lemma no_clash_fresh coll0 fid C U k (cc : collection ChunkDoc.t) data :
  (forall c, In c (docs (chunks coll0)) -> ChunkDoc.files_id c <> fid) ->
  existsb (chunks_clash cc (ChunkDoc.mk fid (Z.of_nat k) data))
          (docs (chunks coll0) ++ chunk_docs fid C U k) = false.
Proof.
  intros Hfresh. apply existsb_false_iff. intros c Hc.
  unfold chunks_clash. simpl.
  apply in_app_or in Hc. destruct Hc as [Hc | Hc].
  - apply Hfresh in Hc.
    replace (fid =? ChunkDoc.files_id c) with false by (symmetry; apply Z.eqb_neq; congruence).
    now rewrite andb_false_r.
  - apply in_chunk_docs in Hc. destruct Hc as (_ & Hn & _).
    replace (Z.of_nat k =? ChunkDoc.n c) with false by (symmetry; apply Z.eqb_neq; lia).
    now rewrite andb_false_r.
Qed.

Lemma take_chunk_next (C : Z) (U : bytes) (k : Z) :
  0 < C -> 0 <= k ->
  take (k * C) U ++ chunk_of C U k = take (k * C + len (chunk_of C U k)) U.
Proof.
  intros HC Hk. unfold chunk_of. rewrite take_app_drop by nia.
  rewrite <- take_min_len. symmetry. rewrite <- take_min_len. f_equal.
  rewrite len_take, len_drop. nia.
Qed.

Lemma flush_data_chunk f0 coll0 U k P buf w data :
  let C := FileDoc.chunkSize f0 in
  writer_at f0 coll0 U k P buf w ->
  fresh_id coll0 (FileDoc._id f0) ->
  0 < C -> P = Z.of_nat k * C ->
  data = chunk_of C U (Z.of_nat k) -> data <> [] ->
  exists w',
    GridIn.__flush_data data w = (Return tt, w')
    /\ writer_at f0 coll0 U (S k) (P + len data) buf w'.
Proof.
  intros C (Hcl & Hfile & Hbuf & Hpos & Hnum & Hch & Hfl) [Hfresh _] HC HP Hdata Hne.
  destruct (ensure_indexes_run w) as (i1 & i2 & Hens).
  unfold GridIn.__flush_data.
  rewrite (bind_Return _ _ _ _ _ Hens). clear Hens.
  destruct w as [[f b p kk c e] [[fd fi] [cd ci]]]. simpl in *. subst f b p kk c cd fd.
  assert (Htr : truthy data = true) by (destruct data; [congruence | reflexivity]).
  assert (Hle : len data <= C) by (rewrite Hdata; unfold chunk_of; rewrite len_take; lia).
  subst C. apply Z.leb_le in Hle.
  unfold GridIn.md5_update, GridIn.on_md5, GridIn.chunk_size, GridIn.file_id,
    try_except, GridIn.chunks_insert_one, insert_one, bind, gets, modify, ret.
  simpl. rewrite Htr. simpl. rewrite Hle. simpl.
  rewrite no_clash_fresh by exact Hfresh. simpl.
  eexists. split; [reflexivity |].
  unfold writer_at. simpl. repeat split.
  - unfold FileDoc.set_md5. simpl. rewrite HP, Hdata, take_chunk_next by lia. reflexivity.
  - lia.
  - rewrite chunk_docs_S, Hdata, app_assoc. reflexivity.
Qed.

Lemma flush_data_empty f0 coll0 U k P buf w :
  writer_at f0 coll0 U k P buf w ->
  exists w',
    GridIn.__flush_data [] w = (Return tt, w')
    /\ writer_at f0 coll0 U k P buf w'.
Proof.
  intros (Hcl & Hfile & Hbuf & Hpos & Hnum & Hch & Hfl).
  destruct (ensure_indexes_run w) as (i1 & i2 & Hens).
  unfold GridIn.__flush_data.
  rewrite (bind_Return _ _ _ _ _ Hens). clear Hens.
  destruct w as [[f b p kk c e] [[fd fi] [cd ci]]]. simpl in *. subst f b p kk c cd fd.
  unfold GridIn.md5_update, GridIn.on_md5, bind at 1. simpl.
  eexists. split; [reflexivity |].
  unfold writer_at. simpl. rewrite app_nil_r. repeat split.
Qed.

Lemma writer_at_set_buffer f0 coll0 U k P buf buf' w :
  writer_at f0 coll0 U k P buf w ->
  writer_at f0 coll0 U k P buf'
    (GridIn.on_self (GridIn.set_buffer (BytesIO.mk buf' (len buf'))) w).
Proof.
  intros (Hcl & Hfile & Hbuf & Hpos & Hnum & Hch & Hfl).
  unfold writer_at. simpl. repeat split; assumption.
Qed.

Lemma flush_buffer_chunk f0 coll0 U k P buf w :
  let C := FileDoc.chunkSize f0 in
  writer_at f0 coll0 U k P buf w ->
  fresh_id coll0 (FileDoc._id f0) ->
  0 < C -> P = Z.of_nat k * C ->
  buf = chunk_of C U (Z.of_nat k) -> buf <> [] ->
  exists w',
    GridIn.__flush_buffer w = (Return tt, w')
    /\ writer_at f0 coll0 U (S k) (P + len buf) [] w'.
Proof.
  intros C Hw Hfresh HC HP Hbuf Hne.
  destruct (flush_data_chunk f0 coll0 U k P buf w buf Hw Hfresh HC HP Hbuf Hne)
    as (w1 & Hfd & Hw1).
  unfold GridIn.__flush_buffer. msimpl.
  replace (BytesIO.getvalue (GridIn._buffer (GridIn.self w))) with buf
    by (destruct Hw as (_ & _ & -> & _); reflexivity).
  rewrite (bind_Return _ _ _ _ _ Hfd).
  eexists. split; [reflexivity |].
  apply (writer_at_set_buffer _ _ _ _ _ _ [] _ Hw1).
Qed.

Lemma flush_buffer_empty f0 coll0 U k P w :
  writer_at f0 coll0 U k P [] w ->
  exists w',
    GridIn.__flush_buffer w = (Return tt, w')
    /\ writer_at f0 coll0 U k P [] w'.
Proof.
  intros Hw.
  destruct (flush_data_empty f0 coll0 U k P [] w Hw) as (w1 & Hfd & Hw1).
  unfold GridIn.__flush_buffer. msimpl.
  replace (BytesIO.getvalue (GridIn._buffer (GridIn.self w))) with (@nil byte)
    by (destruct Hw as (_ & _ & -> & _); reflexivity).
  rewrite (bind_Return _ _ _ _ _ Hfd).
  eexists. split; [reflexivity |].
  apply (writer_at_set_buffer _ _ _ _ _ _ [] _ Hw1).
Qed.

(** *** Streams *)

Lemma liftW_run {S A : Type} (c : M GridIn.state A) (s : S) w o w' :
  c w = (o, w') -> GridIn.liftW c (s, w) = (o, (s, w')).
Proof. unfold GridIn.liftW. simpl. intros ->. reflexivity. Qed.

Lemma call_read_bytesio (n : Z) (b : bytes) (p : Z) (w : GridIn.state) :
  0 <= n ->
  GridIn.call_read bytesio_read n (BytesIO.mk b p, w)
  = (Return (take n (drop p b)), (BytesIO.mk b (p + len (take n (drop p b))), w)).
Proof.
  intros Hn. unfold GridIn.call_read, bytesio_read, BytesIO.read. simpl.
  replace (n <? 0) with false by (symmetry; apply Z.ltb_ge; lia). reflexivity.
Qed.

Lemma chunk_of_app_suffix (C : Z) (T b : bytes) (k s : Z) :
  0 <= s -> k * C = len T + s ->
  chunk_of C (T ++ b) k = take C (drop s b).
Proof.
  intros Hs Hk. unfold chunk_of. f_equal. rewrite Hk.
  rewrite drop_app_r by lia. f_equal. lia.
Qed.

Lemma write_loop_spec f0 coll0 T b :
  let C := FileDoc.chunkSize f0 in
  let U := T ++ b in
  fresh_id coll0 (FileDoc._id f0) ->
  0 < C ->
  forall fuel k w to_write,
    writer_at f0 coll0 U k (Z.of_nat k * C) [] w ->
    len T <= Z.of_nat k * C <= len U ->
    to_write = chunk_of C U (Z.of_nat k) ->
    Z.max 0 (len U - Z.of_nat k * C) < Z.of_nat fuel ->
    exists k' w' s',
      GridIn.write_loop bytesio_read fuel to_write
        (BytesIO.mk b (Z.of_nat k * C + len to_write - len T), w)
      = (Return (drop (Z.of_nat k' * C) U), (s', w'))
      /\ writer_at f0 coll0 U k' (Z.of_nat k' * C) [] w'
      /\ Z.of_nat k' = len U / C.
Proof.
  intros C U Hfresh HC.
  induction fuel as [| fuel IH]; intros k w to_write Hw HT Htw Hfuel; [lia |].
  cbn [GridIn.write_loop].
  assert (Hcs : GridIn.chunk_size w = (Return C, w)).
  { unfold GridIn.chunk_size, gets. destruct Hw as (_ & -> & _). reflexivity. }
  rewrite (bind_Return _ _ _ _ _ (liftW_run _ _ _ _ _ Hcs)).
  assert (Hlen : len to_write = Z.min C (Z.max 0 (len U - Z.of_nat k * C))).
  { rewrite Htw. unfold chunk_of. rewrite len_take, len_drop. nia. }
  rewrite truthy_len.
  destruct (Z.eqb_spec (len to_write) C) as [Heq | Hneq].
  - replace (0 <? len to_write) with true by (symmetry; apply Z.ltb_lt; lia).
    cbn [andb].
    destruct (flush_data_chunk f0 coll0 U k (Z.of_nat k * C) [] w to_write Hw Hfresh HC
                eq_refl Htw) as (w1 & Hfd & Hw1).
    { intros ->. rewrite len_nil in Heq. lia. }
    rewrite (bind_Return _ _ _ _ _ (liftW_run _ _ _ _ _ Hfd)).
    assert (Hcs1 : GridIn.chunk_size w1 = (Return C, w1)).
    { unfold GridIn.chunk_size, gets. destruct Hw1 as (_ & -> & _). reflexivity. }
    rewrite (bind_Return _ _ _ _ _ (liftW_run _ _ _ _ _ Hcs1)).
    rewrite (bind_Return _ _ _ _ _ (call_read_bytesio C b _ w1 (Z.lt_le_incl _ _ HC))).
    rewrite Heq in *.
    replace (Z.of_nat k * C + C) with (Z.of_nat (S k) * C) in Hw1 by lia.
    set (next := take C (drop (Z.of_nat k * C + C - len T) b)).
    assert (Hnext : next = chunk_of C U (Z.of_nat (S k))).
    { unfold next, U. symmetry. apply chunk_of_app_suffix; lia. }
    destruct (IH (S k) w1 next Hw1) as (k' & w' & s' & Hloop & Hw' & Hk'); [lia | exact Hnext | lia |].
    replace (Z.of_nat k * C + C - len T + len next)
      with (Z.of_nat (S k) * C + len next - len T) by lia.
    rewrite Hloop. exists k', w', s'. split; [reflexivity | split; assumption].
  - replace ((0 <? len to_write) && false) with false by (destruct (0 <? len to_write); reflexivity).
    assert (Hshort : len U - Z.of_nat k * C < C) by lia.
    exists k, w. eexists. split; [| split].
    + unfold ret. f_equal. f_equal. rewrite Htw. unfold chunk_of.
      apply take_all. rewrite len_drop. lia.
    + exact Hw.
    + assert (len T + len b = len U) by (unfold U; rewrite len_app; lia).
      apply Z.div_unique with (r := len U - Z.of_nat k * C); lia.
Qed.

Lemma take_app_r {A : Type} (k : Z) (l1 l2 : list A) :
  len l1 <= k -> take k (l1 ++ l2) = l1 ++ take (k - len l1) l2.
Proof.
  intros H. unfold take, len in *. rewrite firstn_app, firstn_all2 by lia.
  do 2 f_equal. lia.
Qed.

Lemma chunk_of_app_prefix (C : Z) (T b : bytes) (i : Z) :
  0 < C -> 0 <= i -> (i + 1) * C <= len T ->
  chunk_of C (T ++ b) i = chunk_of C T i.
Proof.
  intros HC Hi Hle. unfold chunk_of.
  rewrite drop_app_l by nia. apply take_app_l. rewrite len_drop. nia.
Qed.

Lemma chunk_docs_app fid (C : Z) (T b : bytes) (k : nat) :
  0 < C -> Z.of_nat k * C <= len T ->
  chunk_docs fid C (T ++ b) k = chunk_docs fid C T k.
Proof.
  intros HC Hk. unfold chunk_docs. apply map_ext_in. intros i Hi.
  apply in_seq in Hi. f_equal. apply chunk_of_app_prefix; nia.
Qed.

Lemma writer_at_app f0 coll0 T b k P buf w :
  0 < FileDoc.chunkSize f0 ->
  Z.of_nat k * FileDoc.chunkSize f0 <= len T -> P <= len T ->
  writer_at f0 coll0 T k P buf w ->
  writer_at f0 coll0 (T ++ b) k P buf w.
Proof.
  intros HC Hk HP (Hcl & Hfile & Hbuf & Hpos & Hnum & Hch & Hfl).
  unfold writer_at. rewrite chunk_docs_app, take_app_l by assumption.
  repeat split; assumption.
Qed.

Lemma writer_chunk_size f0 coll0 U k P buf w :
  writer_at f0 coll0 U k P buf w ->
  GridIn.chunk_size w = (Return (FileDoc.chunkSize f0), w).
Proof.
  intros (_ & Hfile & _). unfold GridIn.chunk_size, gets. rewrite Hfile. reflexivity.
Qed.

Lemma buffer_write_run {S : Type} f0 coll0 U k P buf tw (s : S) w :
  writer_at f0 coll0 U k P buf w ->
  exists w',
    GridIn.buffer_write tw (s, w) = (Return tt, (s, w'))
    /\ writer_at f0 coll0 U k P (buf ++ tw) w'.
Proof.
  intros Hw. unfold GridIn.buffer_write.
  exists (GridIn.on_self (GridIn.set_buffer (BytesIO.mk (buf ++ tw) (len (buf ++ tw)))) w).
  split.
  - apply liftW_run. unfold modify, GridIn.on_self.
    destruct Hw as (_ & _ & Hbuf & _). rewrite Hbuf.
    rewrite BytesIO_write_at_end by reflexivity. simpl. rewrite len_app. reflexivity.
  - apply writer_at_set_buffer with (buf := buf). exact Hw.
Qed.

Lemma div_mul_le (a c : Z) : 0 < c -> 0 <= a -> 0 <= a / c * c <= a /\ a - a / c * c < c.
Proof.
  intros Hc Ha. pose proof (Z.div_mod a c ltac:(lia)).
  pose proof (Z.mod_pos_bound a c Hc). pose proof (Z.div_pos a c Ha Hc). nia.
Qed.

Lemma write_topup_idle f0 coll0 U k P (s : BytesIO.t) w :
  writer_at f0 coll0 U k P [] w ->
  GridIn.write_topup bytesio_read (s, w) = (Return false, (s, w)).
Proof.
  intros Hw. unfold GridIn.write_topup.
  mcut (Return 0) (s, w).
  { apply liftW_run. unfold gets. destruct Hw as (_ & _ & -> & _). reflexivity. }
  reflexivity.
Qed.

Lemma write_topup_short f0 coll0 U k P buf b w :
  let C := FileDoc.chunkSize f0 in
  writer_at f0 coll0 U k P buf w ->
  0 < len buf -> len b < C - len buf ->
  exists w',
    GridIn.write_topup bytesio_read (BytesIO.of_bytes b, w)
    = (Return true, (BytesIO.mk b (len b), w'))
    /\ writer_at f0 coll0 U k P (buf ++ b) w'.
Proof.
  intros C Hw Hpos Hshort. unfold GridIn.write_topup.
  destruct (buffer_write_run f0 coll0 U k P buf b (BytesIO.mk b (len b)) w Hw)
    as (w' & Hbw & Hw').
  exists w'. split; [| exact Hw'].
  mcut (Return (len buf)) (BytesIO.of_bytes b, w).
  { apply liftW_run. unfold gets. destruct Hw as (_ & _ & -> & _). reflexivity. }
  replace (0 <? len buf) with true by (symmetry; apply Z.ltb_lt; exact Hpos).
  rewrite (bind_Return _ _ _ _ _ (liftW_run _ _ _ _ _ (writer_chunk_size _ _ _ _ _ _ _ Hw))).
  fold C. cbv zeta.
  replace (C - len buf =? 0) with false by (symmetry; apply Z.eqb_neq; pose proof (len_nonneg b); lia).
  assert (Htake : take (C - len buf) (drop 0 b) = b).
  { rewrite drop_nonpos by lia. apply take_all. lia. }
  mcut (Return b) (BytesIO.mk b (len b), w).
  { unfold try_except, BytesIO.of_bytes.
    rewrite call_read_bytesio by (pose proof (len_nonneg b); lia).
    rewrite Htake. reflexivity. }
  rewrite (bind_Return _ _ _ _ _ Hbw).
  replace (len b <? C - len buf) with true by (symmetry; apply Z.ltb_lt; exact Hshort).
  reflexivity.
Qed.

Lemma write_topup_full f0 coll0 U k P buf b w :
  let C := FileDoc.chunkSize f0 in
  writer_at f0 coll0 U k P buf w ->
  fresh_id coll0 (FileDoc._id f0) ->
  0 < C -> P = Z.of_nat k * C ->
  0 < len buf < C -> C - len buf <= len b ->
  chunk_of C U (Z.of_nat k) = buf ++ take (C - len buf) b ->
  exists w',
    GridIn.write_topup bytesio_read (BytesIO.of_bytes b, w)
    = (Return false, (BytesIO.mk b (C - len buf), w'))
    /\ writer_at f0 coll0 U (S k) (P + C) [] w'.
Proof.
  intros C Hw Hfresh HC HP Hbuf Hlong Hchunk. unfold GridIn.write_topup.
  set (tw := take (C - len buf) b).
  assert (Htw : len tw = C - len buf) by (unfold tw; rewrite len_take; lia).
  destruct (buffer_write_run f0 coll0 U k P buf tw (BytesIO.mk b (C - len buf)) w Hw)
    as (w1 & Hbw & Hw1).
  destruct (flush_buffer_chunk f0 coll0 U k P (buf ++ tw) w1 Hw1 Hfresh HC HP)
    as (w2 & Hfb & Hw2).
  { symmetry. exact Hchunk. }
  { intros Hnil. apply (f_equal len) in Hnil. rewrite len_app, len_nil in Hnil. lia. }
  exists w2. split.
  2:{ rewrite len_app, Htw in Hw2.
      replace (P + (len buf + (C - len buf))) with (P + C) in Hw2 by lia. exact Hw2. }
  mcut (Return (len buf)) (BytesIO.of_bytes b, w).
  { apply liftW_run. unfold gets. destruct Hw as (_ & _ & -> & _). reflexivity. }
  replace (0 <? len buf) with true by (symmetry; apply Z.ltb_lt; lia).
  rewrite (bind_Return _ _ _ _ _ (liftW_run _ _ _ _ _ (writer_chunk_size _ _ _ _ _ _ _ Hw))).
  fold C. cbv zeta.
  replace (C - len buf =? 0) with false by (symmetry; apply Z.eqb_neq; lia).
  mcut (Return tw) (BytesIO.mk b (C - len buf), w).
  { unfold try_except, BytesIO.of_bytes.
    rewrite call_read_bytesio by lia.
    rewrite drop_nonpos by lia. fold tw. rewrite Htw. reflexivity. }
  rewrite (bind_Return _ _ _ _ _ Hbw).
  replace (len tw <? C - len buf) with false by (symmetry; apply Z.ltb_ge; lia).
  rewrite (bind_Return _ _ _ _ _ (liftW_run _ _ _ _ _ Hfb)).
  reflexivity.
Qed.

Lemma write_stream_bytes f0 coll0 T b fuel w :
  let C := FileDoc.chunkSize f0 in
  fresh_id coll0 (FileDoc._id f0) ->
  0 < C ->
  writer_inv f0 coll0 T w ->
  len b < Z.of_nat fuel ->
  exists s' w',
    GridIn.write_stream bytesio_read fuel (BytesIO.of_bytes b, w) = (Return tt, (s', w'))
    /\ writer_inv f0 coll0 (T ++ b) w'.
Proof.
  intros C Hfresh HC Hinv Hfuel.
  unfold writer_inv in *. fold C in Hinv |- *.
  set (U := T ++ b).
  assert (HlenU : len U = len T + len b) by (unfold U; apply len_app).
  pose proof (len_nonneg T) as HT0. pose proof (len_nonneg b) as Hb0.
  destruct (div_mul_le (len T) C HC HT0) as [HP0 Hj].
  set (k0 := Z.to_nat (len T / C)) in *.
  assert (Hk0 : Z.of_nat k0 = len T / C).
  { unfold k0. apply Z2Nat.id. apply Z.div_pos; lia. }
  set (P0 := len T / C * C) in *.
  set (buf := drop P0 T) in *.
  assert (Hbuflen : len buf = len T - P0) by (unfold buf; rewrite len_drop; lia).
  assert (HwU : writer_at f0 coll0 U k0 P0 buf w).
  { apply writer_at_app; try assumption; fold C; lia. }
  assert (Hfinish : forall k' w1 (s1 : BytesIO.t),
             writer_at f0 coll0 U k' (Z.of_nat k' * C) [] w1 ->
             Z.of_nat k' = len U / C ->
             exists s' w',
               GridIn.buffer_write (drop (Z.of_nat k' * C) U) (s1, w1) = (Return tt, (s', w'))
               /\ writer_at f0 coll0 U (Z.to_nat (len U / C)) (len U / C * C)
                    (drop (len U / C * C) U) w').
  { intros k' w1 s1 Hw1 Hk'.
    destruct (buffer_write_run f0 coll0 U k' _ [] (drop (Z.of_nat k' * C) U) s1 w1 Hw1)
      as (w' & Hbw & Hw').
    exists s1, w'. split; [exact Hbw |].
    rewrite <- Hk', Nat2Z.id. exact Hw'. }
  assert (Hmain : forall k1 w1 s0,
             writer_at f0 coll0 U k1 (Z.of_nat k1 * C) [] w1 ->
             0 <= s0 <= len b -> Z.of_nat k1 * C = len T + s0 ->
             exists s' w',
               (cs <- GridIn.liftW GridIn.chunk_size ;;
                to_write <- GridIn.call_read bytesio_read cs ;;
                to_write' <- GridIn.write_loop bytesio_read fuel to_write ;;
                GridIn.buffer_write to_write') (BytesIO.mk b s0, w1)
               = (Return tt, (s', w'))
               /\ writer_at f0 coll0 U (Z.to_nat (len U / C)) (len U / C * C)
                    (drop (len U / C * C) U) w').
  { intros k1 w1 s0 Hw1 Hs0 Hk1.
    rewrite (bind_Return _ _ _ _ _ (liftW_run _ _ _ _ _ (writer_chunk_size _ _ _ _ _ _ _ Hw1))).
    fold C. rewrite (bind_Return _ _ _ _ _ (call_read_bytesio C b s0 w1 (Z.lt_le_incl _ _ HC))).
    set (tw := take C (drop s0 b)).
    assert (Htw : tw = chunk_of C U (Z.of_nat k1)).
    { unfold tw, U. symmetry. apply chunk_of_app_suffix; lia. }
    destruct (write_loop_spec f0 coll0 T b Hfresh HC fuel k1 w1 tw Hw1) as
      (k' & w2 & s2 & Hloop & Hw2 & Hk'); [fold U; lia | exact Htw | fold U; lia |].
    replace (s0 + len tw) with (Z.of_nat k1 * C + len tw - len T) by lia.
    fold C in Hloop. rewrite (bind_Return _ _ _ _ _ Hloop).
    apply Hfinish; assumption. }
  unfold GridIn.write_stream.
  destruct (Z.ltb_spec 0 (len buf)) as [Hpos | Hzero].
  - destruct (Z.ltb_spec (len b) (C - len buf)) as [Hshort | Hlong].
    + destruct (write_topup_short f0 coll0 U k0 P0 buf b w HwU Hpos Hshort) as (w1 & Htop & Hw1).
      rewrite (bind_Return _ _ _ _ _ Htop).
      exists (BytesIO.mk b (len b)), w1. split; [reflexivity |].
      assert (Hdiv : len U / C = len T / C).
      { symmetry. apply Z.div_unique with (r := len U - P0); unfold P0 in *; lia. }
      rewrite Hdiv. fold k0 P0.
      replace (drop P0 U) with (buf ++ b); [exact Hw1 |].
      unfold U, buf. rewrite drop_app_l by lia. reflexivity.
    + destruct (write_topup_full f0 coll0 U k0 P0 buf b w HwU Hfresh HC) as (w1 & Htop & Hw1);
        [unfold P0; lia | lia | exact Hlong | |].
      { unfold chunk_of. rewrite Hk0. fold P0. unfold U.
        rewrite drop_app_l by lia. fold buf. apply take_app_r. lia. }
      rewrite (bind_Return _ _ _ _ _ Htop). fold C in Hw1.
      replace (P0 + C) with (Z.of_nat (S k0) * C) in Hw1 by (unfold P0; lia).
      apply (Hmain (S k0) w1 (C - len buf) Hw1); unfold P0 in *; lia.
  - assert (Hnil : buf = []) by (apply len_zero_nil; pose proof (len_nonneg buf); lia).
    rewrite Hnil in HwU.
    rewrite (bind_Return _ _ _ _ _ (write_topup_idle f0 coll0 U k0 P0 _ w HwU)).
    replace P0 with (Z.of_nat k0 * C) in HwU by (unfold P0; lia).
    apply (Hmain k0 w (0) HwU); unfold P0 in *; lia.
Qed.

Lemma ceil_div_exact (a c : Z) : 0 < c -> a mod c = 0 -> ceil_div a c = a / c.
Proof. intros Hc Hm. unfold ceil_div. rewrite Z.div_opp_l_z by lia. lia. Qed.

Lemma ceil_div_inexact (a c : Z) : 0 < c -> a mod c <> 0 -> ceil_div a c = a / c + 1.
Proof. intros Hc Hm. unfold ceil_div. rewrite Z.div_opp_l_nz by lia. lia. Qed.

Lemma with_source_run {S A : Type} (c : M (S * GridIn.state) A) (s s' : S) w o w' :
  c (s, w) = (o, (s', w')) -> GridIn.with_source s c w = (o, w').
Proof. unfold GridIn.with_source. intros ->. reflexivity. Qed.

Lemma writer_open f0 coll0 U k P buf w :
  writer_at f0 coll0 U k P buf w -> GridIn.closed w = (Return false, w).
Proof. intros (Hcl & _). unfold GridIn.closed, gets. rewrite Hcl. reflexivity. Qed.

Lemma write_bytes_spec f0 coll0 T b fuel w :
  fresh_id coll0 (FileDoc._id f0) ->
  0 < FileDoc.chunkSize f0 ->
  writer_inv f0 coll0 T w ->
  len b < Z.of_nat fuel ->
  exists w',
    GridIn.write fuel (PyBytes b) w = (Return tt, w')
    /\ writer_inv f0 coll0 (T ++ b) w'.
Proof.
  intros Hfresh HC Hinv Hfuel.
  destruct (write_stream_bytes f0 coll0 T b fuel w Hfresh HC Hinv Hfuel) as (s' & w' & Hws & Hw').
  exists w'. split; [| exact Hw'].
  unfold GridIn.write.
  rewrite (bind_Return _ _ _ _ _ (writer_open _ _ _ _ _ _ _ Hinv)).
  apply with_source_run with (s' := s'). exact Hws.
Qed.

Lemma writelines_spec f0 coll0 fuel :
  fresh_id coll0 (FileDoc._id f0) ->
  0 < FileDoc.chunkSize f0 ->
  forall parts T w,
    writer_inv f0 coll0 T w ->
    len (List.concat parts) < Z.of_nat fuel ->
    exists w',
      GridIn.writelines fuel (write_calls parts) w = (Return tt, w')
      /\ writer_inv f0 coll0 (T ++ List.concat parts) w'.
Proof.
  intros Hfresh HC. induction parts as [| b parts IH]; intros T w Hinv Hfuel.
  - exists w. simpl. rewrite app_nil_r. split; [reflexivity | exact Hinv].
  - simpl in Hfuel. rewrite len_app in Hfuel.
    pose proof (len_nonneg b). pose proof (len_nonneg (List.concat parts)).
    destruct (write_bytes_spec f0 coll0 T b fuel w Hfresh HC Hinv) as (w1 & Hw & Hinv1); [lia |].
    destruct (IH (T ++ b) w1 Hinv1) as (w' & Hws & Hinv'); [lia |].
    exists w'. simpl. rewrite (bind_Return _ _ _ _ _ Hw).
    split; [exact Hws |]. rewrite app_assoc. exact Hinv'.
Qed.

Lemma writer_inv_init coll0 fid C fname ctype enc :
  0 < C ->
  writer_inv (FileDoc.mk fid C hashlib.md5 None None fname ctype enc) coll0 []
    (GridIn.mkState (GridIn.__init__ fid (Some C) fname ctype enc) coll0).
Proof.
  intros HC. unfold writer_inv, writer_at. simpl.
  rewrite app_nil_r. repeat split.
Qed.

Lemma flush_buffer_final f0 coll0 T w :
  let C := FileDoc.chunkSize f0 in
  fresh_id coll0 (FileDoc._id f0) ->
  0 < C ->
  writer_inv f0 coll0 T w ->
  exists w',
    GridIn.__flush_buffer w = (Return tt, w')
    /\ writer_at f0 coll0 T (Z.to_nat (ceil_div (len T) C)) (len T) [] w'.
Proof.
  intros C Hfresh HC Hinv. unfold writer_inv in Hinv. fold C in Hinv.
  pose proof (len_nonneg T) as HT0.
  destruct (div_mul_le (len T) C HC HT0) as [HP0 Hj].
  pose proof (Z.div_mod (len T) C ltac:(lia)) as Hdm.
  assert (Hk0 : Z.of_nat (Z.to_nat (len T / C)) = len T / C).
  { apply Z2Nat.id. apply Z.div_pos; lia. }
  destruct (Z.eq_dec (len T mod C) 0) as [Hz | Hnz].
  - rewrite ceil_div_exact by assumption.
    assert (HP : len T / C * C = len T) by lia.
    rewrite HP in Hinv. rewrite drop_all in Hinv by lia.
    apply flush_buffer_empty. exact Hinv.
  - rewrite ceil_div_inexact by assumption.
    destruct (flush_buffer_chunk f0 coll0 T _ _ _ w Hinv Hfresh HC) as (w' & Hfb & Hw').
    + lia.
    + unfold chunk_of. rewrite Hk0. symmetry. apply take_all. rewrite len_drop. fold C. lia.
    + intros Hnil. pose proof (f_equal len Hnil) as Hl. rewrite len_drop in Hl.
      change (len (@nil byte)) with 0 in Hl. fold C in Hl. lia.
    + exists w'. split; [exact Hfb |].
      replace (Z.to_nat (len T / C + 1)) with (S (Z.to_nat (len T / C)))
        by (pose proof (Z.div_pos (len T) C HT0 HC); lia).
      rewrite len_drop in Hw'.
      replace (len T / C * C + Z.max 0 (len T - Z.max 0 (len T / C * C))) with (len T) in Hw' by lia.
      exact Hw'.
Qed.

Lemma close_spec f0 coll0 T now w :
  let C := FileDoc.chunkSize f0 in
  fresh_id coll0 (FileDoc._id f0) ->
  0 < C ->
  writer_inv f0 coll0 T w ->
  exists w',
    GridIn.close now w = (Return tt, w')
    /\ GridIn._closed (GridIn.self w') = true
    /\ GridIn._file (GridIn.self w') = final_doc f0 T now
    /\ docs (chunks (GridIn.coll w'))
       = docs (chunks coll0)
         ++ chunk_docs (FileDoc._id f0) C T (Z.to_nat (ceil_div (len T) C))
    /\ docs (files (GridIn.coll w')) = docs (files coll0) ++ [final_doc f0 T now].
Proof.
  intros C Hfresh HC Hinv.
  destruct (flush_buffer_final f0 coll0 T w Hfresh HC Hinv) as (w1 & Hfb & Hw1).
  fold C in Hw1.
  unfold GridIn.close.
  rewrite (bind_Return _ _ _ _ _ (writer_open _ _ _ _ _ _ _ Hinv)). cbv iota.
  unfold GridIn.__flush.
  destruct Hw1 as (Hcl & Hfile & Hbuf & Hpos & Hnum & Hch & Hfl).
  destruct w1 as [[f b p kk c e] [[fd fi] [cd ci]]]. simpl in *. subst f b p kk c cd fd.
  eexists. split.
  - set (inner := bind GridIn.__flush_buffer _).
    mcut (@Return unit tt) (GridIn.mkState
             (GridIn.mk (final_doc f0 T now) BytesIO.empty (len T)
                (Z.of_nat (Z.to_nat (ceil_div (len T) C))) false e)
             (mkRoot (mkColl (docs (files coll0) ++ [final_doc f0 T now]) fi)
                     (mkColl (docs (chunks coll0)
                              ++ chunk_docs (FileDoc._id f0) C T (Z.to_nat (ceil_div (len T) C))) ci))).
    + unfold try_except, inner.
      rewrite (bind_Return _ _ _ _ _ Hfb).
      unfold GridIn.md5_finish, GridIn.on_md5, GridIn.files_insert_one, insert_one,
        bind, modify, gets. simpl.
      replace (existsb _ (docs (files coll0))) with false.
      * simpl. rewrite take_all by lia. reflexivity.
      * symmetry. apply existsb_false_iff. intros x Hx. unfold files_clash. simpl.
        apply Z.eqb_neq. intros Heq. destruct Hfresh as [_ Hff]. apply (Hff x Hx). congruence.
    + msimpl. reflexivity.
  - simpl. repeat split.
Qed.

(* ===================================================================== *)
(** ** Upload: write, close, read back *)
(* ===================================================================== *)

Lemma find_app_l {A : Type} (p : A -> bool) (l1 l2 : list A) x :
  List.find p l1 = Some x -> List.find p (l1 ++ l2) = Some x.
Proof.
  induction l1 as [| a l1 IH]; simpl; [discriminate |].
  destruct (p a); [trivial | exact IH].
Qed.

Lemma find_app_r {A : Type} (p : A -> bool) (l1 l2 : list A) :
  (forall x, In x l1 -> p x = false) -> List.find p (l1 ++ l2) = List.find p l2.
Proof.
  induction l1 as [| a l1 IH]; simpl; intros H; [reflexivity |].
  rewrite (H a) by now left. apply IH. intros x Hx. apply H. now right.
Qed.

Lemma find_none_all {A : Type} (p : A -> bool) (l : list A) :
  (forall x, In x l -> p x = false) -> List.find p l = None.
Proof.
  intros H. rewrite <- (app_nil_r l). rewrite find_app_r by exact H. reflexivity.
Qed.

Lemma find_chunk_docs fid C B (k : nat) (i : Z) :
  0 <= i < Z.of_nat k ->
  List.find (by_files_id_n fid i) (chunk_docs fid C B k)
  = Some (ChunkDoc.mk fid i (chunk_of C B i)).
Proof.
  induction k as [| k IH]; intros Hi; [lia |].
  rewrite chunk_docs_S.
  destruct (Z.eq_dec i (Z.of_nat k)) as [-> | Hne].
  - rewrite find_app_r.
    + simpl. unfold by_files_id_n. simpl. rewrite !Z.eqb_refl. reflexivity.
    + intros c Hc. apply in_chunk_docs in Hc. destruct Hc as (_ & Hn & _).
      unfold by_files_id_n.
      replace (ChunkDoc.n c =? Z.of_nat k) with false by (symmetry; apply Z.eqb_neq; lia).
      apply andb_false_r.
  - apply find_app_l. apply IH. lia.
Qed.

Lemma fresh_no_chunk coll fid (p : ChunkDoc.t -> bool) :
  fresh_id coll fid ->
  (forall c, p c = true -> ChunkDoc.files_id c = fid) ->
  forall c, In c (docs (chunks coll)) -> p c = false.
Proof.
  intros [Hfresh _] Hp c Hc. destruct (p c) eqn:E; [| reflexivity].
  exfalso. apply (Hfresh c Hc). apply Hp. exact E.
Qed.

Lemma by_files_id_n_id fid i c : by_files_id_n fid i c = true -> ChunkDoc.files_id c = fid.
Proof. unfold by_files_id_n. intros H. apply andb_prop in H. apply Z.eqb_eq. apply H. Qed.

Lemma by_files_id_n_gte_id fid i c :
  by_files_id_n_gte fid i c = true -> ChunkDoc.files_id c = fid.
Proof. unfold by_files_id_n_gte. intros H. apply andb_prop in H. apply Z.eqb_eq. apply H. Qed.

Lemma ceil_div_bounds (a c : Z) :
  0 < c -> 0 <= a ->
  0 <= ceil_div a c /\ a <= ceil_div a c * c /\ ceil_div a c * c < a + c.
Proof.
  intros Hc Ha.
  pose proof (Z.div_mod a c ltac:(lia)) as Hdm. pose proof (Z.mod_pos_bound a c Hc) as Hm.
  pose proof (Z.div_pos a c Ha Hc) as Hq.
  destruct (Z.eq_dec (a mod c) 0) as [Hz | Hnz].
  - rewrite ceil_div_exact by assumption. rewrite (Z.mul_comm (a / c) c).
    set (q := a / c) in *. set (r := a mod c) in *. clearbody q r. lia.
  - rewrite ceil_div_inexact by assumption.
    rewrite Z.mul_add_distr_r, (Z.mul_comm (a / c) c).
    set (q := a / c) in *. set (r := a mod c) in *. clearbody q r. lia.
Qed.

(** The store left by an upload holds the content. *)
Lemma uploaded_holds_content coll0 coll' f0 B now :
  let C := FileDoc.chunkSize f0 in
  let fid := FileDoc._id f0 in
  fresh_id coll0 fid -> 0 < C ->
  docs (chunks coll') = docs (chunks coll0) ++ chunk_docs fid C B (Z.to_nat (ceil_div (len B) C)) ->
  holds_content coll' (final_doc f0 B now) B.
Proof.
  intros C fid Hfresh HC Hch.
  pose proof (len_nonneg B) as HB.
  destruct (ceil_div_bounds (len B) C HC HB) as (Hc0 & Hc1 & Hc2).
  split; [split; [exact HC | split; [reflexivity |]] |].
  - intros i Hi HiB. simpl. fold C fid.
    exists (ChunkDoc.mk fid i (chunk_of C B i)). split; [| reflexivity].
    unfold find_one. rewrite Hch.
    rewrite find_app_r by (apply fresh_no_chunk with (fid := fid);
                           [exact Hfresh | apply by_files_id_n_id]).
    apply find_chunk_docs. rewrite Z2Nat.id by lia.
    change (i * C < len B) in HiB.
    split; [exact Hi |]. apply Z.mul_lt_mono_pos_r with (p := C); lia.
  - unfold no_extra_chunk, find_one. simpl. fold C fid. rewrite Hch.
    rewrite find_none_all; [exact I |].
    intros c Hc. apply in_app_or in Hc. destruct Hc as [Hc | Hc].
    + revert c Hc. apply fresh_no_chunk with (fid := fid);
        [exact Hfresh | apply by_files_id_n_gte_id].
    + apply in_chunk_docs in Hc. destruct Hc as (_ & Hn & _).
      unfold by_files_id_n_gte. rewrite Z2Nat.id in Hn by lia.
      replace (ceil_div (len B) C <=? ChunkDoc.n c) with false
        by (symmetry; apply Z.leb_gt; lia).
      apply andb_false_r.
Qed.

Lemma uploaded_file_found coll0 coll' f0 B now :
  fresh_id coll0 (FileDoc._id f0) ->
  docs (files coll') = docs (files coll0) ++ [final_doc f0 B now] ->
  find_one (by_id (FileDoc._id f0)) (files coll') = Some (final_doc f0 B now).
Proof.
  intros [_ Hfresh] Hfl. unfold find_one. rewrite Hfl.
  rewrite find_app_r.
  - simpl. unfold by_id. simpl. rewrite Z.eqb_refl. reflexivity.
  - intros x Hx. unfold by_id. apply Z.eqb_neq. apply Hfresh. exact Hx.
Qed.

Lemma upload_spec coll0 fid C fname ctype enc parts now fuel :
  let f0 := FileDoc.mk fid C hashlib.md5 None None fname ctype enc in
  let B := List.concat parts in
  0 < C -> fresh_id coll0 fid -> len B < Z.of_nat fuel ->
  exists w',
    upload fuel parts now (GridIn.mkState (GridIn.__init__ fid (Some C) fname ctype enc) coll0)
    = (Return tt, w')
    /\ GridIn._closed (GridIn.self w') = true
    /\ GridIn._file (GridIn.self w') = final_doc f0 B now
    /\ docs (chunks (GridIn.coll w'))
       = docs (chunks coll0) ++ chunk_docs fid C B (Z.to_nat (ceil_div (len B) C))
    /\ docs (files (GridIn.coll w')) = docs (files coll0) ++ [final_doc f0 B now].
Proof.
  intros f0 B HC Hfresh Hfuel.
  destruct (writelines_spec f0 coll0 fuel Hfresh HC parts [] _
              (writer_inv_init coll0 fid C fname ctype enc HC) Hfuel) as (w1 & Hw & Hinv).
  simpl in Hinv. fold B in Hinv.
  destruct (close_spec f0 coll0 B now w1 Hfresh HC Hinv) as (w' & Hcl & Hrest).
  exists w'. split; [| exact Hrest].
  unfold upload. rewrite (bind_Return _ _ _ _ _ Hw). exact Hcl.
Qed.

(** C1: for every byte sequence B and every positive chunk size C, writing
    B through a GridIn in any partition into [write] calls, calling [close],
    and reading the file back through a GridOut with [read(-1)] from position
    0 returns exactly B.  The identifier must be new to the store; any fuel
    above [len B] is enough for the loops. *)
Theorem write_close_read_roundtrip coll0 fid C fname ctype enc parts now fuel :
  0 < C -> fresh_id coll0 fid -> len (List.concat parts) < Z.of_nat fuel ->
  exists w' r',
    upload fuel parts now (GridIn.mkState (GridIn.__init__ fid (Some C) fname ctype enc) coll0)
    = (Return tt, w')
    /\ GridOut.read (GridIn.coll w') fuel (-1) (GridOut.__init__ (Some fid) None)
       = (Return (List.concat parts), r').
Proof.
  intros HC Hfresh Hfuel.
  destruct (upload_spec coll0 fid C fname ctype enc parts now fuel HC Hfresh Hfuel)
    as (w' & Hup & _ & _ & Hch & Hfl).
  set (f0 := FileDoc.mk fid C hashlib.md5 None None fname ctype enc) in *.
  set (B := List.concat parts) in *.
  pose proof (uploaded_holds_content coll0 (GridIn.coll w') f0 B now Hfresh HC Hch) as Hhold.
  pose proof (uploaded_file_found coll0 (GridIn.coll w') f0 B now Hfresh Hfl) as Hfound.
  destruct (read_spec (GridIn.coll w') (final_doc f0 B now) B
              (GridOut.__init__ (Some fid) None) (-1) fuel Hhold) as (r' & Hread & _).
  - right. split; [reflexivity |]. exists fid. split; [reflexivity | exact Hfound].
  - exists 0. reflexivity.
  - simpl. pose proof (len_nonneg B). lia.
  - lia.
  - simpl. rewrite Z.sub_0_r. exact Hfuel.
  - exists w', r'. split; [exact Hup |].
    rewrite Hread. simpl. rewrite Z.sub_0_r.
    rewrite drop_nonpos by lia. rewrite take_all by lia. reflexivity.
Qed.

Lemma filter_none {A : Type} (p : A -> bool) (l : list A) :
  (forall x, In x l -> p x = false) -> List.filter p l = [].
Proof.
  induction l as [| a l IH]; simpl; intros H; [reflexivity |].
  rewrite (H a) by now left. apply IH. intros x Hx. apply H. now right.
Qed.

Lemma filter_all {A : Type} (p : A -> bool) (l : list A) :
  (forall x, In x l -> p x = true) -> List.filter p l = l.
Proof.
  induction l as [| a l IH]; simpl; intros H; [reflexivity |].
  rewrite (H a) by now left. f_equal. apply IH. intros x Hx. apply H. now right.
Qed.

Lemma len_chunk_docs fid C B k : len (chunk_docs fid C B k) = Z.of_nat k.
Proof. unfold len, chunk_docs. rewrite length_map, length_seq. reflexivity. Qed.

Lemma chunk_docs_indices fid C B k :
  map ChunkDoc.n (chunk_docs fid C B k) = map Z.of_nat (seq 0 k).
Proof. unfold chunk_docs. rewrite map_map. reflexivity. Qed.

Lemma uploaded_chunks_of_file coll0 coll' fid C B k :
  fresh_id coll0 fid ->
  docs (chunks coll') = docs (chunks coll0) ++ chunk_docs fid C B k ->
  List.filter (by_files_id fid) (docs (chunks coll')) = chunk_docs fid C B k.
Proof.
  intros [Hfresh _] ->. rewrite filter_app.
  rewrite filter_none, filter_all; [reflexivity | |].
  - intros c Hc. apply in_chunk_docs in Hc. unfold by_files_id. apply Z.eqb_eq. apply Hc.
  - intros c Hc. unfold by_files_id. apply Z.eqb_neq. apply Hfresh. exact Hc.
Qed.

(** C2: after the writes of B and [close], the chunk store holds exactly
    [ceil(len B / C)] chunk records for the file id (none when B is empty);
    their indices are 0, 1, ..., count-1 in order; every chunk but the last
    carries exactly C bytes and the last carries between 1 and C bytes. *)
Theorem close_persists_contiguous_chunks coll0 fid C fname ctype enc parts now fuel :
  0 < C -> fresh_id coll0 fid -> len (List.concat parts) < Z.of_nat fuel ->
  exists w',
    upload fuel parts now (GridIn.mkState (GridIn.__init__ fid (Some C) fname ctype enc) coll0)
    = (Return tt, w')
    /\ let B := List.concat parts in
       let stored := List.filter (by_files_id fid) (docs (chunks (GridIn.coll w'))) in
       let count := ceil_div (len B) C in
       len stored = count
       /\ (B = [] -> stored = [])
       /\ map ChunkDoc.n stored = map Z.of_nat (seq 0 (Z.to_nat count))
       /\ (forall c, In c stored -> ChunkDoc.n c < count - 1 -> len (ChunkDoc.data c) = C)
       /\ (forall c, In c stored -> ChunkDoc.n c = count - 1 ->
             1 <= len (ChunkDoc.data c) <= C).
Proof.
  intros HC Hfresh Hfuel.
  destruct (upload_spec coll0 fid C fname ctype enc parts now fuel HC Hfresh Hfuel)
    as (w' & Hup & _ & _ & Hch & _).
  exists w'. split; [exact Hup |]. cbv zeta.
  set (B := List.concat parts) in *.
  rewrite (uploaded_chunks_of_file coll0 _ fid C B _ Hfresh Hch).
  pose proof (len_nonneg B) as HB.
  destruct (ceil_div_bounds (len B) C HC HB) as (Hc0 & Hc1 & Hc2).
  split; [| split; [| split; [| split]]].
  - rewrite len_chunk_docs. lia.
  - intros ->. reflexivity.
  - apply chunk_docs_indices.
  - intros c Hin Hlt. apply in_chunk_docs in Hin. destruct Hin as (_ & Hn & Hd).
    rewrite Hd. unfold chunk_of. rewrite len_take, len_drop.
    assert ((ChunkDoc.n c + 1) * C <= len B) by nia. nia.
  - intros c Hin Heq. apply in_chunk_docs in Hin. destruct Hin as (_ & Hn & Hd).
    rewrite Hd. unfold chunk_of. rewrite len_take, len_drop. rewrite Heq. nia.
Qed.

(** C3: however B is cut into [write] calls, the digest stored in the
    finalized file document (and readable on the writer) is the md5
    hexdigest of B taken in one pass. *)
Theorem digest_independent_of_write_partition coll0 fid C fname ctype enc parts now fuel :
  0 < C -> fresh_id coll0 fid -> len (List.concat parts) < Z.of_nat fuel ->
  exists w' f,
    upload fuel parts now (GridIn.mkState (GridIn.__init__ fid (Some C) fname ctype enc) coll0)
    = (Return tt, w')
    /\ find_one (by_id fid) (files (GridIn.coll w')) = Some f
    /\ md5_of (List.concat parts) = Return (FileDoc.md5 f)
    /\ FileDoc.md5 (GridIn._file (GridIn.self w')) = FileDoc.md5 f.
Proof.
  intros HC Hfresh Hfuel.
  destruct (upload_spec coll0 fid C fname ctype enc parts now fuel HC Hfresh Hfuel)
    as (w' & Hup & _ & Hfile & _ & Hfl).
  set (f0 := FileDoc.mk fid C hashlib.md5 None None fname ctype enc) in *.
  exists w', (final_doc f0 (List.concat parts) now).
  split; [exact Hup |]. split; [| split].
  - exact (uploaded_file_found coll0 _ f0 _ now Hfresh Hfl).
  - reflexivity.
  - rewrite Hfile. reflexivity.
Qed.

(* ===================================================================== *)
(** ** Well-formed files, seek and read *)
(* ===================================================================== *)

Lemma file_content_S coll fid k :
  file_content coll fid (S k)
  = file_content coll fid k ++ chunk_data_at coll fid (Z.of_nat k).
Proof.
  unfold file_content. rewrite seq_S, map_app, concat_app. simpl.
  rewrite app_nil_r. reflexivity.
Qed.

Lemma file_content_prefix coll fid k K :
  (k <= K)%nat ->
  exists rest, file_content coll fid K = file_content coll fid k ++ rest.
Proof.
  induction 1 as [| K _ (rest & IH)].
  - exists []. now rewrite app_nil_r.
  - rewrite file_content_S, IH, <- app_assoc. eexists. reflexivity.
Qed.

Section WellFormedContent.
Variables (coll : root_collection) (fid : ObjectId) (C L : Z).
Hypothesis HC : 0 < C.
Hypothesis HL : 0 <= L.
Hypothesis Hlens :
  forall i, 0 <= i < ceil_div L C ->
    len (chunk_data_at coll fid i) = Z.min C (L - i * C).

Lemma len_file_content_full k :
  Z.of_nat k < ceil_div L C ->
  len (file_content coll fid k) = Z.of_nat k * C.
Proof.
  destruct (ceil_div_bounds L C HC HL) as (Hc0 & Hc1 & Hc2).
  induction k as [| k IH]; intros Hk; [reflexivity |].
  rewrite file_content_S, len_app, IH, Hlens by lia.
  assert ((Z.of_nat k + 1) * C < L) by nia. nia.
Qed.

Lemma len_file_content_all :
  len (file_content coll fid (Z.to_nat (ceil_div L C))) = L.
Proof.
  destruct (ceil_div_bounds L C HC HL) as (Hc0 & Hc1 & Hc2).
  destruct (Z.to_nat (ceil_div L C)) as [| k] eqn:Ek.
  - change (len (file_content coll fid 0)) with 0. nia.
  - rewrite file_content_S, len_app, len_file_content_full, Hlens by lia.
    assert (Z.of_nat k = ceil_div L C - 1) by lia. nia.
Qed.

Lemma chunk_of_file_content i :
  0 <= i < ceil_div L C ->
  chunk_of C (file_content coll fid (Z.to_nat (ceil_div L C))) i = chunk_data_at coll fid i.
Proof.
  intros Hi.
  destruct (ceil_div_bounds L C HC HL) as (Hc0 & Hc1 & Hc2).
  destruct (file_content_prefix coll fid (S (Z.to_nat i)) (Z.to_nat (ceil_div L C)))
    as (rest & Hsplit); [lia |].
  pose proof len_file_content_all as Hall.
  rewrite Hsplit in Hall |- *. rewrite file_content_S, Z2Nat.id in * by lia.
  assert (Hpre : len (file_content coll fid (Z.to_nat i)) = i * C).
  { rewrite len_file_content_full; lia. }
  unfold chunk_of. rewrite <- app_assoc.
  rewrite drop_app_r by lia. rewrite Hpre, Z.sub_diag, drop_nonpos by lia.
  rewrite !len_app, Hpre, Hlens in Hall by lia.
  pose proof (len_nonneg rest) as Hrest.
  destruct (Z.eq_dec (len rest) 0) as [Hz | Hnz].
  - apply len_zero_nil in Hz. subst rest. rewrite app_nil_r.
    apply take_all. rewrite Hlens by lia. lia.
  - rewrite take_app_l by (rewrite Hlens; lia).
    apply take_all. rewrite Hlens by lia. lia.
Qed.

End WellFormedContent.

Lemma well_formed_holds_content coll f :
  well_formed coll f -> exists B, holds_content coll f B.
Proof.
  intros (L & HfL & HL & HC & Hchunks & Hextra).
  set (C := FileDoc.chunkSize f) in *. set (fid := FileDoc._id f) in *.
  assert (Hlens : forall i, 0 <= i < ceil_div L C ->
                    len (chunk_data_at coll fid i) = Z.min C (L - i * C)).
  { intros i Hi. destruct (Hchunks i Hi) as (c & Hfind & Hlen).
    unfold chunk_data_at. rewrite Hfind. exact Hlen. }
  exists (file_content coll fid (Z.to_nat (ceil_div L C))).
  pose proof (len_file_content_all coll fid C L HC HL Hlens) as Hall.
  destruct (ceil_div_bounds L C HC HL) as (Hc0 & Hc1 & Hc2).
  split; [split; [exact HC | split] |].
  - rewrite Hall. exact HfL.
  - fold C fid. rewrite Hall. intros i Hi HiL.
    assert (Hrange : 0 <= i < ceil_div L C).
    { split; [exact Hi |]. apply Z.mul_lt_mono_pos_r with (p := C); lia. }
    destruct (Hchunks i Hrange) as (c & Hfind & Hlen).
    exists c. split; [exact Hfind |].
    rewrite (chunk_of_file_content coll fid C L HC HL Hlens i Hrange).
    unfold chunk_data_at. rewrite Hfind. reflexivity.
  - rewrite Hall. exact Hextra.
Qed.

Lemma seek_set_run coll p r :
  0 <= p ->
  GridOut.seek coll p _SEEK_SET r
  = (Return tt, GridOut.set_buffer EMPTY (GridOut.set_position p r)).
Proof.
  intros Hp. unfold GridOut.seek. rewrite Z.eqb_refl. msimpl.
  replace (p <? 0) with false by (symmetry; apply Z.ltb_ge; exact Hp).
  msimpl. reflexivity.
Qed.

Lemma read_zero coll r f fuel :
  resolves coll r f ->
  GridOut.read coll fuel 0 r = (Return EMPTY, GridOut.set_file (Some f) r).
Proof.
  intros Hres. unfold GridOut.read.
  rewrite (bind_Return _ _ _ _ _ (ensure_file_resolves coll r f Hres)). reflexivity.
Qed.

Lemma clamp_le (size rem : Z) :
  0 <= size -> (if (size <? 0) || (rem <? size) then rem else size) <= size.
Proof.
  intros H. destruct (Z.ltb_spec size 0); [lia |].
  destruct (Z.ltb_spec rem size); simpl; lia.
Qed.

(** C6: for every well-formed finalized file of length L, every position p
    with 0 <= p <= L and every k >= 0, seeking a fresh reader to p from the
    start and reading k bytes returns what reading p+k bytes on a fresh
    reader returns once its first p bytes are dropped. *)
Theorem seek_then_read_is_read_then_drop coll f file_id file_document L p k fuel :
  let fresh := GridOut.__init__ file_id file_document in
  well_formed coll f ->
  resolves coll fresh f ->
  FileDoc.length f = Some L ->
  0 <= p <= L -> 0 <= k -> p + k < Z.of_nat fuel ->
  exists x y r1 r2,
    (GridOut.seek coll p _SEEK_SET ;;; GridOut.read coll fuel k) fresh = (Return x, r1)
    /\ GridOut.read coll fuel (p + k) fresh = (Return y, r2)
    /\ x = drop p y.
Proof.
  intros fresh Hwf Hres HL Hp Hk Hfuel.
  destruct (well_formed_holds_content coll f Hwf) as (B & Hhold).
  assert (HB : len B = L).
  { destruct Hhold as ((_ & HL' & _) & _). congruence. }
  subst L.
  rewrite (bind_Return _ _ _ _ _ (seek_set_run coll p fresh (proj1 Hp))).
  set (sought := GridOut.set_buffer EMPTY (GridOut.set_position p fresh)).
  assert (Hres' : resolves coll sought f).
  { destruct Hres as [H | H]; [left | right]; exact H. }
  destruct (Z.eq_dec k 0) as [-> | Hk0].
  - (* nothing is asked for after the seek *)
    rewrite (read_zero coll sought f fuel Hres').
    rewrite Z.add_0_r.
    destruct (Z.eq_dec p 0) as [-> | Hp0].
    + rewrite (read_zero coll fresh f fuel Hres).
      do 4 eexists. split; [reflexivity | split; [reflexivity |]]. reflexivity.
    + destruct (read_spec coll f B fresh p fuel Hhold Hres (ex_intro _ 0 eq_refl)) as (r2 & Hread & _);
        [simpl; lia | exact Hp0 | simpl; eapply Z.le_lt_trans; [apply clamp_le | ]; lia |].
      simpl in Hread. rewrite Z.sub_0_r in Hread.
      replace ((p <? 0) || (len B <? p)) with false in Hread
        by (symmetry; apply orb_false_iff; split; [apply Z.ltb_ge | apply Z.ltb_ge]; lia).
      rewrite Hread.
      do 4 eexists. split; [reflexivity | split; [reflexivity |]].
      rewrite (drop_nonpos 0) by lia. symmetry. apply drop_all. rewrite len_take. lia.
  - destruct (read_spec coll f B sought k fuel Hhold Hres' (ex_intro _ 0 eq_refl)) as (r1 & Hread1 & _);
      [simpl; lia | exact Hk0 | simpl; eapply Z.le_lt_trans; [apply clamp_le | ]; lia |].
    destruct (read_spec coll f B fresh (p + k) fuel Hhold Hres (ex_intro _ 0 eq_refl)) as (r2 & Hread2 & _);
      [simpl; lia | lia | simpl; eapply Z.le_lt_trans; [apply clamp_le | ]; lia |].
    simpl in Hread1, Hread2. rewrite Z.sub_0_r in Hread2.
    rewrite Hread1, Hread2.
    do 4 eexists. split; [reflexivity | split; [reflexivity |]].
    rewrite (drop_nonpos 0 B) by lia. rewrite drop_take by lia. f_equal.
    replace (k <? 0) with false by (symmetry; apply Z.ltb_ge; lia).
    replace (p + k <? 0) with false by (symmetry; apply Z.ltb_ge; lia).
    simpl. destruct (Z.ltb_spec (len B - p) k); destruct (Z.ltb_spec (len B) (p + k)); lia.
Qed.

(* ===================================================================== *)
(** ** Corruption: missing, truncated and extra chunks *)
(* ===================================================================== *)

(** [readchunk] with an empty look-ahead buffer, before the end of the file. *)
Lemma readchunk_fetching coll r f :
  let C := FileDoc.chunkSize f in
  let q := GridOut.__position r in
  GridOut._file r = Some f -> GridOut.__buffer r = [] ->
  q < declared_length f -> C <> 0 ->
  GridOut.readchunk coll r
  = match find_one (by_files_id_n (FileDoc._id f) (int_div q C)) (chunks coll) with
    | None => (Raise (CorruptGridFile (GridOut.no_chunk_message (int_div q C))), r)
    | Some chunk =>
        let chunk_data := slice_from (q mod C) (ChunkDoc.data chunk) in
        if truthy chunk_data
        then (Return chunk_data,
              GridOut.set_buffer EMPTY (GridOut.set_position (q + len chunk_data) r))
        else (Raise (CorruptGridFile "truncated chunk"), r)
    end.
Proof.
  intros C q Hf Hb Hq HC. unfold GridOut.readchunk. msimpl.
  rewrite (bind_Return _ _ _ _ _ (chunk_size_resolved coll r f Hf)).
  rewrite Hb. change (0 <? len []) with false. cbv iota. msimpl.
  fold C.
  match goal with
  | |- bind ?c ?k r = _ =>
      assert (Hinner : c r = match find_one (by_files_id_n (FileDoc._id f) (int_div q C)) (chunks coll) with
                   | None => (Raise (CorruptGridFile (GridOut.no_chunk_message (int_div q C))), r)
                   | Some chunk =>
                       if truthy (slice_from (q mod C) (ChunkDoc.data chunk))
                       then (Return (slice_from (q mod C) (ChunkDoc.data chunk)), r)
                       else (Raise (CorruptGridFile "truncated chunk"), r)
                   end)
  end.
  { msimpl. rewrite (bind_Return _ _ _ _ _ (length_resolved coll r f Hf)).
    fold q. replace (q <? declared_length f) with true by (symmetry; apply Z.ltb_lt; exact Hq).
    replace (C =? 0) with false by (symmetry; apply Z.eqb_neq; exact HC).
    msimpl. rewrite (bind_Return _ _ _ _ _ (id_resolved coll r f Hf)).
    rewrite Z.add_0_l.
    destruct (find_one _ _) as [chunk |]; [| reflexivity].
    destruct (truthy _); reflexivity. }
  unfold bind at 1. rewrite Hinner.
  destruct (find_one _ _) as [chunk |]; [| reflexivity].
  cbv zeta. destruct (truthy _); reflexivity.
Qed.





(** The loop of [read] runs into a missing or truncated chunk [j] after
    crossing full chunks. *)
Lemma read_loop_hits_bad_chunk coll f fid j at_j size stop :
  let C := FileDoc.chunkSize f in
  0 < C -> at_j < stop <= declared_length f ->
  forall (d : nat) q received data fuel,
    0 <= q -> q / C <= j -> Z.to_nat (j - q / C) = d ->
    (forall t, q / C <= t < j ->
       exists c, find_one (by_files_id_n (FileDoc._id f) t) (chunks coll) = Some c
                 /\ len (ChunkDoc.data c) = C) ->
    at_j = Z.max q (j * C) -> stop = q - received + size ->
    (d < fuel)%nat ->
    match find_one (by_files_id_n (FileDoc._id f) j) (chunks coll) with
    | None =>
        exists r', GridOut.read_loop coll fuel size received data (GridOut.mk fid [] q (Some f))
                   = (Raise (CorruptGridFile (GridOut.no_chunk_message j)), r')
    | Some c =>
        slice_from (at_j mod C) (ChunkDoc.data c) = [] ->
        exists r', GridOut.read_loop coll fuel size received data (GridOut.mk fid [] q (Some f))
                   = (Raise (CorruptGridFile "truncated chunk"), r')
    end.
Proof.
  intros C HC Hstop.
  induction d as [| d IH]; intros q received data fuel Hq Hj Hd Hfull Hat Hend Hfuel.
  - (* the reader stands in chunk j *)
    assert (Hjq : j = q / C) by lia.
    pose proof (Z.div_mod q C ltac:(lia)) as Hdm.
    pose proof (Z.mod_pos_bound q C HC) as Hm.
    assert (Hatq : at_j = q) by (subst j; nia).
    destruct fuel as [| fuel]; [lia |].
    assert (Hrc : GridOut.readchunk coll (GridOut.mk fid [] q (Some f))
                  = match find_one (by_files_id_n (FileDoc._id f) j) (chunks coll) with
                    | None => (Raise (CorruptGridFile (GridOut.no_chunk_message j)),
                               GridOut.mk fid [] q (Some f))
                    | Some c =>
                        if truthy (slice_from (at_j mod C) (ChunkDoc.data c))
                        then (Return (slice_from (at_j mod C) (ChunkDoc.data c)),
                              GridOut.mk fid []
                                (q + len (slice_from (at_j mod C) (ChunkDoc.data c))) (Some f))
                        else (Raise (CorruptGridFile "truncated chunk"),
                              GridOut.mk fid [] q (Some f))
                    end).
    { rewrite (readchunk_fetching coll (GridOut.mk fid [] q (Some f)) f eq_refl eq_refl)
        by (simpl; fold C; lia).
      simpl GridOut.__position. fold C. unfold int_div.
      rewrite Z.quot_div_nonneg by lia. rewrite <- Hjq, <- Hatq. reflexivity. }
    cbn [GridOut.read_loop].
    replace (received <? size) with true by (symmetry; apply Z.ltb_lt; lia).
    destruct (find_one _ _) as [c |].
    + intros Hslice. rewrite Hslice in Hrc. simpl in Hrc.
      rewrite (bind_Raise _ _ _ _ _ Hrc). eexists. reflexivity.
    + rewrite (bind_Raise _ _ _ _ _ Hrc). eexists. reflexivity.
  - (* a full chunk lies before chunk j: cross it *)
    assert (Hlt : q / C < j) by lia.
    pose proof (Z.div_mod q C ltac:(lia)) as Hdm.
    pose proof (Z.mod_pos_bound q C HC) as Hm.
    assert (Hnext : q + (C - q mod C) = (q / C + 1) * C) by lia.
    assert (Hatj : at_j = j * C) by nia.
    destruct (Hfull (q / C)) as (c & Hfind & Hlen); [lia |].
    destruct fuel as [| fuel]; [lia |].
    assert (Hslice : slice_from (q mod C) (ChunkDoc.data c) = drop (q mod C) (ChunkDoc.data c)).
    { unfold slice_from. replace (q mod C <? 0) with false by (symmetry; apply Z.ltb_ge; lia).
      reflexivity. }
    assert (Hslen : len (slice_from (q mod C) (ChunkDoc.data c)) = C - q mod C).
    { rewrite Hslice, len_drop. lia. }
    assert (Hrc : GridOut.readchunk coll (GridOut.mk fid [] q (Some f))
                  = (Return (slice_from (q mod C) (ChunkDoc.data c)),
                     GridOut.mk fid [] ((q / C + 1) * C) (Some f))).
    { rewrite (readchunk_fetching coll (GridOut.mk fid [] q (Some f)) f eq_refl eq_refl)
        by (simpl; fold C; nia).
      simpl GridOut.__position. fold C. unfold int_div.
      rewrite Z.quot_div_nonneg by lia. rewrite Hfind. cbv zeta.
      rewrite truthy_len, Hslen.
      replace (0 <? C - q mod C) with true by (symmetry; apply Z.ltb_lt; lia).
      unfold GridOut.set_buffer, GridOut.set_position. simpl. rewrite Hnext. reflexivity. }
    assert (Hdiv : (q / C + 1) * C / C = q / C + 1) by (apply Z.div_mul; lia).
    pose proof (Z.div_pos q C Hq ltac:(lia)) as Hq0.
    specialize (IH ((q / C + 1) * C) (received + len (slice_from (q mod C) (ChunkDoc.data c)))
                   (BytesIO.write (slice_from (q mod C) (ChunkDoc.data c)) data) fuel).
    cbn [GridOut.read_loop].
    replace (received <? size) with true by (symmetry; apply Z.ltb_lt; nia).
    rewrite (bind_Return _ _ _ _ _ Hrc).
    apply IH.
    + nia.
    + rewrite Hdiv. lia.
    + rewrite Hdiv. lia.
    + intros t Ht. apply Hfull. rewrite Hdiv in Ht. lia.
    + nia.
    + rewrite Hslen. lia.
    + lia.
Qed.

(** C4: a reader stands at p < L, its look-ahead buffer reaching up to
    [start]; the chunks from the one holding [start] up to j-1 are present
    and full.  A read that needs bytes of chunk j raises a corruption error:
    "no chunk #j" when the record of index j is absent, "truncated chunk"
    when the fetched chunk yields no byte at the position reached. *)
Theorem missing_or_truncated_chunk_raises coll r f j n fuel :
  let C := FileDoc.chunkSize f in
  let L := declared_length f in
  let p := GridOut.__position r in
  let start := p + len (GridOut.__buffer r) in
  let at_j := Z.max start (j * C) in
  let size := if (n <? 0) || (L - p <? n) then L - p else n in
  resolves coll r f -> 0 < C ->
  0 <= p < L -> n <> 0 ->
  start / C <= j ->
  (forall t, start / C <= t < j ->
     exists c, find_one (by_files_id_n (FileDoc._id f) t) (chunks coll) = Some c
               /\ len (ChunkDoc.data c) = C) ->
  at_j < p + size ->
  (S (Z.to_nat (j - start / C)) < fuel)%nat ->
  (find_one (by_files_id_n (FileDoc._id f) j) (chunks coll) = None ->
   exists r', GridOut.read coll fuel n r
              = (Raise (CorruptGridFile (GridOut.no_chunk_message j)), r'))
  /\ (forall c,
        find_one (by_files_id_n (FileDoc._id f) j) (chunks coll) = Some c ->
        slice_from (at_j mod C) (ChunkDoc.data c) = [] ->
        exists r', GridOut.read coll fuel n r
                   = (Raise (CorruptGridFile "truncated chunk"), r')).
Proof.
  intros C L p start at_j size Hres HC Hp Hn Hj Hfull Hneed Hfuel.
  pose proof (len_nonneg (GridOut.__buffer r)) as Hblen.
  assert (Hsize : p + size <= L).
  { unfold size. destruct (Z.ltb_spec n 0); simpl; [lia |].
    destruct (Z.ltb_spec (L - p) n); lia. }
  set (r1 := GridOut.set_file (Some f) r).
  assert (Hread : forall o r',
             GridOut.read_loop coll fuel size 0 BytesIO.empty r1 = (Raise o, r') ->
             GridOut.read coll fuel n r = (Raise o, r')).
  { intros o r' Hloop. unfold GridOut.read.
    rewrite (bind_Return _ _ _ _ _ (ensure_file_resolves coll r f Hres)).
    replace (n =? 0) with false by (symmetry; apply Z.eqb_neq; exact Hn). cbv iota.
    fold r1.
    rewrite (bind_Return _ _ _ _ _ (clamp_size_resolved coll r1 f n eq_refl)).
    change (GridOut.__position r1) with p. fold L size.
    rewrite (bind_Raise _ _ _ _ _ Hloop). reflexivity. }
  (* after the look-ahead buffer, if any, is handed out the loop stands at
     [start] with an empty buffer *)
  assert (Hloop : exists fuel' received data,
             (Z.to_nat (j - start / C) < fuel')%nat
             /\ start - received + size = p + size
             /\ forall o r',
                  GridOut.read_loop coll fuel' size received data
                    (GridOut.mk (GridOut.__file_id r) [] start (Some f)) = (Raise o, r') ->
                  GridOut.read_loop coll fuel size 0 BytesIO.empty r1 = (Raise o, r')).
  { destruct (GridOut.__buffer r) as [| x b] eqn:Hb.
    - assert (Hstart : start = p) by (unfold start; change (len (@nil byte)) with 0; lia).
      exists fuel, 0, BytesIO.empty. split; [lia |]. split; [lia |].
      intros o r' H. unfold r1, GridOut.set_file. rewrite Hb.
      rewrite Hstart in H. exact H.
    - destruct fuel as [| fuel]; [lia |].
      assert (Hstart : start = p + len (x :: b)) by reflexivity.
      exists fuel, (len (x :: b)), (BytesIO.write (x :: b) BytesIO.empty).
      split; [lia |]. split; [lia |].
      intros o r' H. cbn [GridOut.read_loop].
      replace (0 <? size) with true by (symmetry; apply Z.ltb_lt; lia).
      rewrite (bind_Return _ _ _ _ _
                 (readchunk_buffered coll r1 f eq_refl
                    ltac:(unfold r1; simpl; rewrite Hb; discriminate))).
      unfold r1. simpl. rewrite Hb. rewrite Hstart in H. exact H. }
  destruct Hloop as (fuel' & received & data & Hfuel' & Hstop & Hlift).
  pose proof (read_loop_hits_bad_chunk coll f (GridOut.__file_id r) j at_j size (p + size)
                HC ltac:(fold L; lia) (Z.to_nat (j - start / C)) start received data fuel'
                ltac:(lia) Hj eq_refl Hfull eq_refl ltac:(lia) Hfuel') as Hbad.
  fold C in Hbad.
  split.
  - intros Hnone. rewrite Hnone in Hbad.
    destruct Hbad as (r' & Hbad). exists r'. apply Hread, Hlift. exact Hbad.
  - intros c Hsome Hslice. rewrite Hsome in Hbad.
    destruct (Hbad Hslice) as (r' & Hl). exists r'. apply Hread, Hlift. exact Hl.
Qed.

(* ===================================================================== *)
(** ** What the writer never takes away; failures of the source and of close *)
(* ===================================================================== *)

Section Always.
Context {St : Type}.
Variable R : St -> St -> Prop.
Hypothesis R_refl : forall s, R s s.
Hypothesis R_trans : forall s1 s2 s3, R s1 s2 -> R s2 s3 -> R s1 s3.

Lemma always_ret {A : Type} (a : A) : always R (ret a).
Proof. intros s o s' H. inversion H. apply R_refl. Qed.

Lemma always_raise {A : Type} (e : exn) : always R (@raise St A e).
Proof. intros s o s' H. inversion H. apply R_refl. Qed.

Lemma always_out_of_fuel {A : Type} : always R (@out_of_fuel St A).
Proof. intros s o s' H. inversion H. apply R_refl. Qed.

Lemma always_gets {A : Type} (f : St -> A) : always R (gets f).
Proof. intros s o s' H. inversion H. apply R_refl. Qed.

Lemma always_modify (f : St -> St) : (forall s, R s (f s)) -> always R (modify f).
Proof. intros Hf s o s' H. inversion H. apply Hf. Qed.

Lemma always_bind {A B : Type} (c : M St A) (k : A -> M St B) :
  always R c -> (forall a, always R (k a)) -> always R (bind c k).
Proof.
  intros Hc Hk s o s' H. unfold bind in H.
  destruct (c s) as [[a | e |] s1] eqn:E.
  - eapply R_trans; [eapply Hc; exact E | eapply Hk; exact H].
  - inversion H; subst. eapply Hc; exact E.
  - inversion H; subst. eapply Hc; exact E.
Qed.

Lemma always_try_except {A : Type} (c : M St A) (h : exn -> M St A) :
  always R c -> (forall e, always R (h e)) -> always R (try_except c h).
Proof.
  intros Hc Hh s o s' H. unfold try_except in H.
  destruct (c s) as [[a | e |] s1] eqn:E.
  - inversion H; subst. eapply Hc; exact E.
  - eapply R_trans; [eapply Hc; exact E | eapply Hh; exact H].
  - inversion H; subst. eapply Hc; exact E.
Qed.


End Always.

Lemma keeps_records_refl w : keeps_records w w.
Proof. unfold keeps_records. repeat split; try reflexivity; [apply incl_refl | trivial]. Qed.

Lemma keeps_records_trans w1 w2 w3 :
  keeps_records w1 w2 -> keeps_records w2 w3 -> keeps_records w1 w3.
Proof.
  intros (A1 & A2 & A3 & A4 & A5 & A6) (B1 & B2 & B3 & B4 & B5 & B6).
  unfold keeps_records. repeat split; try congruence; [eapply incl_tran; eassumption | auto].
Qed.

Ltac keeps_step :=
  first
    [ apply (always_bind keeps_records keeps_records_trans); [| intros ? ]
    | apply (always_try_except keeps_records keeps_records_trans); [| intros ? ]
    | apply (always_ret keeps_records keeps_records_refl)
    | apply (always_raise keeps_records keeps_records_refl)
    | apply (always_gets keeps_records keeps_records_refl)
    | apply (always_out_of_fuel keeps_records keeps_records_refl) ].

Lemma ensure_indexes_keeps : always keeps_records GridIn.__ensure_indexes.
Proof.
  intros w o w' H. destruct (ensure_indexes_run w) as (i1 & i2 & Hrun).
  rewrite Hrun in H. inversion H; subst. unfold keeps_records. simpl.
  repeat split; try reflexivity; [apply incl_refl | trivial].
Qed.

Lemma md5_update_keeps data : always keeps_records (GridIn.md5_update data).
Proof.
  intros w o w' H. unfold GridIn.md5_update, GridIn.on_md5 in H.
  destruct (FileDoc.md5 (GridIn._file (GridIn.self w))) as [fed | d] eqn:E; simpl in H;
    inversion H; subst; try apply keeps_records_refl.
  unfold keeps_records. simpl. repeat split; try reflexivity; [apply incl_refl |].
  intros _. eexists. reflexivity.
Qed.

Lemma chunks_insert_one_keeps chunk : always keeps_records (GridIn.chunks_insert_one chunk).
Proof.
  intros w o w' H. unfold GridIn.chunks_insert_one, insert_one in H.
  destruct (existsb _ _); inversion H; subst; unfold keeps_records; simpl;
    repeat split; try reflexivity; trivial.
  - apply incl_refl.
  - apply incl_appl. apply incl_refl.
Qed.

Lemma on_self_keeps (f : GridIn.t -> GridIn.t) :
  (forall g, GridIn._closed (f g) = GridIn._closed g
             /\ FileDoc._id (GridIn._file (f g)) = FileDoc._id (GridIn._file g)
             /\ FileDoc.chunkSize (GridIn._file (f g)) = FileDoc.chunkSize (GridIn._file g)
             /\ FileDoc.md5 (GridIn._file (f g)) = FileDoc.md5 (GridIn._file g)) ->
  always keeps_records (modify (GridIn.on_self f)).
Proof.
  intros Hf. apply always_modify. intros w. destruct (Hf (GridIn.self w)) as (A & B & C & D).
  unfold keeps_records, live_md5. simpl. repeat split; try assumption; [apply incl_refl |].
  rewrite D. trivial.
Qed.

Lemma on_duplicate_key_keeps {A : Type} i e :
  always keeps_records (@GridIn.on_duplicate_key A i e).
Proof.
  unfold GridIn.on_duplicate_key, GridIn._raise_file_exists. destruct e; keeps_step.
Qed.

Lemma flush_data_keeps data : always keeps_records (GridIn.__flush_data data).
Proof.
  unfold GridIn.__flush_data.
  keeps_step; [apply ensure_indexes_keeps |].
  keeps_step; [apply md5_update_keeps |].
  destruct (negb (truthy data)); [keeps_step |].
  keeps_step; [keeps_step |].
  keeps_step; [destruct (_ <=? _); keeps_step |].
  keeps_step; [keeps_step |].
  keeps_step; [keeps_step |].
  keeps_step.
  { keeps_step; [apply chunks_insert_one_keeps | apply on_duplicate_key_keeps]. }
  keeps_step; apply on_self_keeps; intros g; repeat split.
Qed.

Lemma flush_buffer_keeps : always keeps_records GridIn.__flush_buffer.
Proof.
  unfold GridIn.__flush_buffer.
  keeps_step; [keeps_step |].
  keeps_step; [apply flush_data_keeps |].
  apply on_self_keeps; intros g; repeat split.
Qed.









Lemma abort_run w :
  GridIn.abort w
  = (Return tt,
     GridIn.mkState (GridIn.set_closed true (GridIn.self w))
       (mkRoot (delete_one (by_id (FileDoc._id (GridIn._file (GridIn.self w))))
                  (files (GridIn.coll w)))
               (delete_many (by_files_id (FileDoc._id (GridIn._file (GridIn.self w))))
                  (chunks (GridIn.coll w))))).
Proof. reflexivity. Qed.

Lemma closed_run w : GridIn.closed w = (Return (GridIn._closed (GridIn.self w)), w).
Proof. reflexivity. Qed.

Lemma chunk_size_run {S : Type} (s : S) w :
  GridIn.liftW GridIn.chunk_size (s, w)
  = (Return (FileDoc.chunkSize (GridIn._file (GridIn.self w))), (s, w)).
Proof. reflexivity. Qed.

Lemma tell_run {S : Type} (s : S) w :
  GridIn.liftW (gets (fun w => BytesIO.tell (GridIn._buffer (GridIn.self w)))) (s, w)
  = (Return (BytesIO.tell (GridIn._buffer (GridIn.self w))), (s, w)).
Proof. reflexivity. Qed.

Lemma call_read_run {S : Type} (read : Z -> M S bytes) size s w o s' :
  read size s = (o, s') -> GridIn.call_read read size (s, w) = (o, (s', w)).
Proof. unfold GridIn.call_read. simpl. intros ->. reflexivity. Qed.

Lemma write_file_run {S : Type} (read : Z -> M S bytes) fuel s w o s' w' :
  GridIn._closed (GridIn.self w) = false ->
  GridIn.write_stream read fuel (s, w) = (o, (s', w')) ->
  GridIn.write fuel (PyFile read s) w = (o, w').
Proof.
  intros Hcl Hws. unfold GridIn.write.
  rewrite (bind_Return _ _ _ _ _ (closed_run w)). rewrite Hcl.
  unfold GridIn.with_source. rewrite Hws. reflexivity.
Qed.

Lemma write_topup_idle_any {S : Type} (read : Z -> M S bytes) s w :
  BytesIO.tell (GridIn._buffer (GridIn.self w)) = 0 ->
  GridIn.write_topup read (s, w) = (Return false, (s, w)).
Proof.
  intros Htell. unfold GridIn.write_topup.
  rewrite (bind_Return _ _ _ _ _ (tell_run s w)). rewrite Htell. reflexivity.
Qed.



Lemma ensure_indexes_run_nonempty (w : GridIn.state) :
  docs (chunks (GridIn.coll w)) <> [] ->
  exists i1,
    GridIn.__ensure_indexes w
    = (Return tt,
       GridIn.mkState (GridIn.set_ensured_index true (GridIn.self w))
         (mkRoot (mkColl (docs (files (GridIn.coll w))) i1) (chunks (GridIn.coll w)))).
Proof.
  destruct w as [[f b p k c e] [[fd fi] [cd ci]]]. simpl. intros Hne.
  unfold GridIn.__ensure_indexes. msimpl. simpl.
  destruct e.
  - exists fi. reflexivity.
  - msimpl. unfold GridIn.__create_index, find_one. simpl.
    destruct cd as [| c0 cd]; [congruence |].
    destruct fd; simpl; eexists; reflexivity.
Qed.

Lemma existsb_nonempty {A : Type} (p : A -> bool) (l : list A) :
  existsb p l = true -> l <> [].
Proof. destruct l; simpl; [discriminate | discriminate]. Qed.

(** C7, amended: when, during [close], the insert of the last chunk or the
    insert of the file document hits a duplicate key, [close] raises
    [FileExists] for the file id, and the writer's closed flag stays false:
    the assignment that marks it closed is never reached. *)
Theorem close_duplicate_key_raises_file_exists (w : GridIn.state) (now : Z) :
  let g := GridIn.self w in
  let fid := FileDoc._id (GridIn._file g) in
  GridIn._closed g = false ->
  live_md5 (GridIn._file g) ->
  (* the insert of the last chunk collides under the unique index *)
  (let buf := BytesIO.getvalue (GridIn._buffer g) in
   buf <> [] -> len buf <= FileDoc.chunkSize (GridIn._file g) ->
   existsb (chunks_clash (chunks (GridIn.coll w))
              (ChunkDoc.mk fid (GridIn._chunk_number g) buf))
           (docs (chunks (GridIn.coll w))) = true ->
   exists w', GridIn.close now w = (Raise (FileExists fid), w')
              /\ GridIn._closed (GridIn.self w') = false)
  (* the chunks went through and the insert of the file document collides *)
  /\ (forall w1,
        GridIn.__flush_buffer w = (Return tt, w1) ->
        (exists d, In d (docs (files (GridIn.coll w))) /\ FileDoc._id d = fid) ->
        exists w', GridIn.close now w = (Raise (FileExists fid), w')
                   /\ GridIn._closed (GridIn.self w') = false).
Proof.
  intros g fid Hcl Hlive. split.
  - intros buf Hne Hle Hclash.
    destruct (ensure_indexes_run_nonempty w (existsb_nonempty _ _ Hclash)) as (i1 & Hens).
    destruct Hlive as (fed & Hmd5).
    assert (Hfd : exists w2, GridIn.__flush_data buf w = (Raise (FileExists fid), w2)
                             /\ GridIn._closed (GridIn.self w2) = false
                             /\ FileDoc._id (GridIn._file (GridIn.self w2)) = fid).
    { unfold GridIn.__flush_data.
      rewrite (bind_Return _ _ _ _ _ Hens). clear Hens.
      subst g buf fid.
      destruct w as [[f b p k c e] [[fd fi] [cd ci]]]. simpl in *. subst c.
      unfold GridIn.md5_update, GridIn.on_md5, GridIn.chunk_size, GridIn.file_id,
        try_except, GridIn.chunks_insert_one, insert_one, bind, gets, modify, ret.
      simpl. rewrite Hmd5. simpl.
      replace (truthy (BytesIO.getvalue b)) with true
        by (destruct (BytesIO.getvalue b); [congruence | reflexivity]).
      simpl. apply Z.leb_le in Hle. rewrite Hle. simpl. rewrite Hclash. simpl.
      eexists. split; [reflexivity | split; reflexivity]. }
    destruct Hfd as (w2 & Hfd & Hcl2 & Hid2).
    assert (Hfb : GridIn.__flush_buffer w = (Raise (FileExists fid), w2)).
    { unfold GridIn.__flush_buffer. msimpl. fold g buf.
      rewrite (bind_Raise _ _ _ _ _ Hfd). reflexivity. }
    exists w2. split; [| exact Hcl2].
    unfold GridIn.close. rewrite (bind_Return _ _ _ _ _ (closed_run w)). fold g. rewrite Hcl.
    erewrite bind_Raise; [reflexivity |].
    unfold GridIn.__flush, try_except.
    rewrite (bind_Raise _ _ _ _ _ Hfb).
    unfold GridIn.file_id. msimpl. rewrite Hid2. reflexivity.
  - intros w1 Hfb (d & Hd & Hdid).
    pose proof (flush_buffer_keeps w _ w1 Hfb) as (Hcl1 & Hid1 & _ & _ & Hfl1 & Hlive1).
    destruct (Hlive1 Hlive) as (fed1 & Hmd5).
    fold g in Hcl1. rewrite Hcl in Hcl1. fold g fid in Hid1.
    assert (Hbody : exists w2,
               (GridIn.md5_finish ;;;
                modify (GridIn.on_self (fun g => GridIn.set_file
                          (FileDoc.set_length (GridIn._position g) (GridIn._file g)) g)) ;;;
                modify (GridIn.on_self (fun g => GridIn.set_file
                          (FileDoc.set_uploadDate now (GridIn._file g)) g)) ;;;
                doc <- gets (fun w => GridIn._file (GridIn.self w)) ;;
                GridIn.files_insert_one doc) w1 = (Raise DuplicateKeyError, w2)
               /\ GridIn._closed (GridIn.self w2) = false
               /\ FileDoc._id (GridIn._file (GridIn.self w2)) = fid).
    { destruct w1 as [[f b p k c e] [[fd fi] [cd ci]]]. simpl in *. subst c fd.
      unfold GridIn.md5_finish, GridIn.on_md5, GridIn.files_insert_one, insert_one,
        bind, gets, modify. simpl. rewrite Hmd5. simpl.
      replace (existsb _ (docs (files (GridIn.coll w)))) with true.
      - eexists. split; [reflexivity | split; [reflexivity | exact Hid1]].
      - symmetry. apply existsb_exists. exists d. split; [exact Hd |].
        unfold files_clash. simpl. apply Z.eqb_eq. congruence. }
    destruct Hbody as (w2 & Hbody & Hcl2 & Hid2).
    exists w2. split; [| exact Hcl2].
    unfold GridIn.close. rewrite (bind_Return _ _ _ _ _ (closed_run w)). fold g. rewrite Hcl.
    erewrite bind_Raise; [reflexivity |].
    unfold GridIn.__flush, try_except.
    rewrite (bind_Return _ _ _ _ _ Hfb). rewrite Hbody.
    unfold GridIn.file_id. msimpl. rewrite Hid2. reflexivity.
Qed.

(* ===================================================================== *)
(** ** The statements at concrete inputs *)
(* ===================================================================== *)

Lemma fresh_id_empty_store fid : fresh_id empty_store fid.
Proof. split; intros x []. Qed.

Lemma write_close_read_roundtrip_witness :
  exists w' r',
    upload 20 hello_parts 99
      (GridIn.mkState (GridIn.__init__ 7 (Some 4) None None None) empty_store)
    = (Return tt, w')
    /\ GridOut.read (GridIn.coll w') 20 (-1) (GridOut.__init__ (Some 7) None)
       = (Return (List.concat hello_parts), r').
Proof.
  apply (write_close_read_roundtrip empty_store 7 4 None None None hello_parts 99 20).
  - lia.
  - apply fresh_id_empty_store.
  - vm_compute. reflexivity.
Defined.

Lemma close_persists_contiguous_chunks_witness :
  exists w',
    upload 20 hello_parts 99
      (GridIn.mkState (GridIn.__init__ 7 (Some 4) None None None) empty_store)
    = (Return tt, w')
    /\ let B := List.concat hello_parts in
       let stored := List.filter (by_files_id 7) (docs (chunks (GridIn.coll w'))) in
       let count := ceil_div (len B) 4 in
       len stored = count
       /\ (B = [] -> stored = [])
       /\ map ChunkDoc.n stored = map Z.of_nat (seq 0 (Z.to_nat count))
       /\ (forall c, In c stored -> ChunkDoc.n c < count - 1 -> len (ChunkDoc.data c) = 4)
       /\ (forall c, In c stored -> ChunkDoc.n c = count - 1 ->
             1 <= len (ChunkDoc.data c) <= 4).
Proof.
  apply (close_persists_contiguous_chunks empty_store 7 4 None None None hello_parts 99 20).
  - lia.
  - apply fresh_id_empty_store.
  - vm_compute. reflexivity.
Defined.

Lemma digest_independent_of_write_partition_witness :
  exists w' f,
    upload 20 hello_parts 99
      (GridIn.mkState (GridIn.__init__ 7 (Some 4) None None None) empty_store)
    = (Return tt, w')
    /\ find_one (by_id 7) (files (GridIn.coll w')) = Some f
    /\ md5_of (List.concat hello_parts) = Return (FileDoc.md5 f)
    /\ FileDoc.md5 (GridIn._file (GridIn.self w')) = FileDoc.md5 f.
Proof.
  apply (digest_independent_of_write_partition empty_store 7 4 None None None hello_parts 99 20).
  - lia.
  - apply fresh_id_empty_store.
  - vm_compute. reflexivity.
Defined.

Lemma reader7_resolves content chunk_list :
  resolves (store7 content chunk_list) reader7 (file7 (bytes_of content)).
Proof. right. split; [reflexivity |]. exists 7. split; reflexivity. Qed.

Lemma missing_or_truncated_chunk_raises_witness :
  exists r',
    GridOut.read hello_store_without_chunk_1 5 (-1) reader7
    = (Raise (CorruptGridFile (GridOut.no_chunk_message 1)), r').
Proof.
  apply (proj1 (missing_or_truncated_chunk_raises hello_store_without_chunk_1 reader7
                  (file7 (bytes_of "hello world")) 1 (-1) 5
                  (reader7_resolves _ _) ltac:(simpl; lia)
                  ltac:(vm_compute; split; [discriminate | reflexivity])
                  ltac:(lia) ltac:(vm_compute; discriminate)
                  ltac:(intros t Ht; assert (t = 0) as -> by (cbn in Ht; lia);
                        eexists; split; reflexivity)
                  ltac:(vm_compute; reflexivity) ltac:(vm_compute; lia))).
  reflexivity.
Defined.

Lemma well_formed_hello_store : well_formed hello_store (file7 (bytes_of "hello world")).
Proof.
  exists 11. split; [reflexivity |]. split; [lia |]. split; [simpl; lia |]. split.
  - intros i Hi. change (ceil_div 11 (FileDoc.chunkSize (file7 (bytes_of "hello world")))) with 3 in Hi.
    assert (i = 0 \/ i = 1 \/ i = 2) as [-> | [-> | ->]] by lia;
      eexists; (split; [reflexivity | reflexivity]).
  - exact I.
Qed.

Lemma seek_then_read_is_read_then_drop_witness :
  exists x y r1 r2,
    (GridOut.seek hello_store 3 _SEEK_SET ;;; GridOut.read hello_store 20 5) reader7
    = (Return x, r1)
    /\ GridOut.read hello_store 20 (3 + 5) reader7 = (Return y, r2)
    /\ x = drop 3 y.
Proof.
  apply (seek_then_read_is_read_then_drop hello_store (file7 (bytes_of "hello world"))
           (Some 7) None 11 3 5 20 well_formed_hello_store (reader7_resolves _ _) eq_refl);
    [lia | lia | vm_compute; reflexivity].
Defined.






Lemma close_duplicate_key_raises_file_exists_witness :
  exists w', GridIn.close 99 writer7_on_taken_store = (Raise (FileExists 7), w')
             /\ GridIn._closed (GridIn.self w') = false.
Proof.
  eapply (proj2 (close_duplicate_key_raises_file_exists writer7_on_taken_store 99
                   eq_refl (ex_intro _ [] eq_refl))).
  - reflexivity.
  - exists (file7 (bytes_of "old")). split; [left; reflexivity | reflexivity].
Defined.

(** C7, as stated, fails: the identifier is taken, [close] raises
    [FileExists], the closed flag of the writer is still false and a later
    [write] is accepted. *)
Lemma close_file_exists_leaves_writer_open :
  fst (GridIn.close 99 writer7_on_taken_store) = Raise (FileExists 7)
  /\ GridIn._closed (GridIn.self (snd (GridIn.close 99 writer7_on_taken_store))) = false
  /\ fst (GridIn.write 5 (PyBytes (bytes_of "ab"))
            (snd (GridIn.close 99 writer7_on_taken_store))) = Return tt.
Proof. vm_compute. repeat split. Qed.


(** C8: [readline(5)] on the file "abcdefg\n" stored in 4-byte chunks.  No
    line feed lies within the first five bytes, [read(5)] returns those five
    bytes, and [readline(5)] returns all eight: the search for the line feed
    in the second chunk is bounded by [size], not by what is left of it. *)
Theorem readline_returns_more_than_size :
  index_of NEWLN (take 5 line_content) = None
  /\ fst (GridOut.read line_store 9 5 reader7) = Return (bytes_of "abcde")
  /\ fst (GridOut.readline line_store 9 5 reader7) = Return line_content
  /\ len line_content = 8.
Proof. vm_compute. repeat split. Qed.

(* ===================================================================== *)
(** ** Reads in a row, seeks, and readers of files that do not exist *)
(* ===================================================================== *)

Lemma return_and_store_run size received v k r :
  0 <= size ->
  GridOut.return_and_store size received (BytesIO.mk v k) r
  = (Return (take size v),
     GridOut.set_buffer (drop size v)
       (GridOut.set_position (GridOut.__position r - (received - size)) r)).
Proof.
  intros Hs. unfold GridOut.return_and_store. msimpl.
  unfold BytesIO.seek. replace (size <? 0) with false by (symmetry; apply Z.ltb_ge; lia).
  unfold BytesIO.read. cbn [BytesIO.value BytesIO.pos fst Z.ltb Z.compare].
  replace (size <? 0) with false by (symmetry; apply Z.ltb_ge; lia).
  msimpl. rewrite (drop_nonpos 0) by lia. reflexivity.
Qed.

(** [read] on a file whose chunks hold its content, from a reader whose
    look-ahead buffer is consistent: the answer and the reader afterwards. *)
Lemma read_run coll f B r size fuel :
  holds_content coll f B ->
  resolves coll r f ->
  lookahead_of B r ->
  0 <= GridOut.__position r <= len B ->
  size <> 0 ->
  let p := GridOut.__position r in
  let n := if (size <? 0) || (len B - p <? size) then len B - p else size in
  n < Z.of_nat fuel ->
  exists k,
    GridOut.read coll fuel size r
    = (Return (take n (drop p B)),
       GridOut.mk (GridOut.__file_id r) (take k (drop (p + n) B)) (p + n) (Some f)).
Proof.
  intros Hc Hres Hb Hp Hsz p n Hfuel.
  assert (Hn : 0 <= n /\ p + n <= len B /\ (n = 0 -> p = len B)).
  { unfold n. destruct (Z.ltb_spec size 0); simpl; [lia |].
    destruct (Z.ltb_spec (len B - p) size); lia. }
  destruct Hn as (Hn0 & Hn1 & Hn2).
  set (r1 := GridOut.set_file (Some f) r).
  destruct (read_loop_from_reader coll f B r1 n fuel (proj1 Hc) eq_refl Hb (proj1 Hp)
              Hn0 Hn1) as (q' & Hloop & Hq' & Hnq).
  { intros Hz. destruct Hb as (k & Hk). simpl. rewrite Hk. fold p.
    rewrite (drop_all p B) by (specialize (Hn2 Hz); lia).
    unfold take. apply firstn_nil. }
  { exact Hfuel. }
  change (GridOut.__position r1) with p in Hloop, Hq', Hnq.
  change (GridOut.__file_id r1) with (GridOut.__file_id r) in Hloop.
  exists (q' - p - n).
  unfold GridOut.read.
  rewrite (bind_Return _ _ _ _ _ (ensure_file_resolves coll r f Hres)).
  replace (size =? 0) with false by (symmetry; apply Z.eqb_neq; exact Hsz).
  cbv iota. fold r1.
  pose proof (holds_chunks_length coll f B (proj1 Hc)) as HL.
  destruct Hc as ((HC & _ & Hchunks) & Hextra).
  rewrite (bind_Return _ _ _ _ _ (clamp_size_resolved coll r1 f size eq_refl)).
  rewrite HL. change (GridOut.__position r1) with p. fold n.
  rewrite (bind_Return _ _ _ _ _ Hloop).
  set (r2 := GridOut.mk (GridOut.__file_id r) [] q' (Some f)).
  mcut (Return tt) r2.
  { unfold GridOut.detect_extra_chunks.
    rewrite (bind_Return _ _ _ _ _ (length_resolved coll r2 f eq_refl)).
    rewrite (bind_Return _ _ _ _ _ (chunk_size_resolved coll r2 f eq_refl)).
    replace (FileDoc.chunkSize f =? 0) with false by (symmetry; apply Z.eqb_neq; lia).
    msimpl.
    rewrite (bind_Return _ _ _ _ _ (id_resolved coll r2 f eq_refl)).
    rewrite HL. unfold no_extra_chunk in Hextra.
    destruct (find_one _ _) as [c |]; [| reflexivity].
    rewrite Hextra. reflexivity. }
  rewrite return_and_store_run by exact Hn0.
  rewrite take_take, Z.min_l by lia.
  unfold GridOut.set_buffer, GridOut.set_position, r2. simpl.
  rewrite drop_take by lia. rewrite drop_drop by lia.
  replace (q' - (q' - p - n)) with (p + n) by lia.
  reflexivity.
Qed.

Lemma clamp_positive (a R : Z) :
  0 < a -> 0 <= R ->
  (if (a <? 0) || (R <? a) then R else a) = Z.min a R.
Proof.
  intros Ha HR. destruct (Z.ltb_spec a 0); [lia |]. simpl.
  destruct (Z.ltb_spec R a); lia.
Qed.

(** X1: two reads in a row continue each other.  On a file whose chunks
    hold its content, [read(a)] followed by [read(b)], [a, b > 0], answer the
    next [a] bytes and then the next [b] bytes (fewer at the end of the
    file); put together they are what one [read(a + b)] answers, and each
    read moves the cursor by the number of bytes it answered. *)
Theorem consecutive_reads_continue coll f B r a b fuel :
  let p := GridOut.__position r in
  holds_content coll f B ->
  resolves coll r f ->
  lookahead_of B r ->
  0 <= p <= len B ->
  0 < a -> 0 < b ->
  len B - p < Z.of_nat fuel ->
  exists x y r1 r2 r3,
    GridOut.read coll fuel a r = (Return x, r1)
    /\ GridOut.read coll fuel b r1 = (Return y, r2)
    /\ GridOut.read coll fuel (a + b) r = (Return (x ++ y), r3)
    /\ x = take a (drop p B)
    /\ y = take b (drop (p + len x) B)
    /\ GridOut.__position r1 = p + len x
    /\ GridOut.__position r2 = p + len x + len y
    /\ GridOut.__position r3 = p + len x + len y.
Proof.
  intros p Hc Hres Hb Hp Ha Hb0 Hfuel.
  pose proof (len_nonneg B) as HB.
  destruct (read_run coll f B r a fuel Hc Hres Hb Hp ltac:(lia)) as (k1 & H1).
  { fold p. rewrite clamp_positive by lia. lia. }
  fold p in H1. rewrite clamp_positive in H1 by lia.
  set (na := Z.min a (len B - p)) in *.
  set (r1 := GridOut.mk (GridOut.__file_id r) (take k1 (drop (p + na) B)) (p + na) (Some f)) in *.
  destruct (read_run coll f B r1 b fuel Hc ltac:(left; reflexivity)
              ltac:(exists k1; reflexivity) ltac:(simpl; lia) ltac:(lia)) as (k2 & H2).
  { simpl. rewrite clamp_positive by lia. lia. }
  simpl in H2. rewrite clamp_positive in H2 by lia.
  set (nb := Z.min b (len B - (p + na))) in *.
  destruct (read_run coll f B r (a + b) fuel Hc Hres Hb Hp ltac:(lia)) as (k3 & H3).
  { fold p. rewrite clamp_positive by lia. lia. }
  fold p in H3. rewrite clamp_positive in H3 by lia.
  assert (Hsum : Z.min (a + b) (len B - p) = na + nb) by (unfold na, nb; lia).
  assert (Hlx : len (take na (drop p B)) = na).
  { rewrite len_take, len_drop. unfold na. lia. }
  assert (Hly : len (take nb (drop (p + na) B)) = nb).
  { rewrite len_take, len_drop. unfold nb, na. lia. }
  assert (Hx : take na (drop p B) = take a (drop p B)).
  { unfold na. rewrite <- (take_min_len a (drop p B)). f_equal.
    rewrite len_drop. lia. }
  assert (Hy : take nb (drop (p + na) B) = take b (drop (p + na) B)).
  { unfold nb. rewrite <- (take_min_len b (drop (p + na) B)). f_equal.
    rewrite len_drop. lia. }
  eexists _, _, _, _, _.
  split; [exact H1 |]. split; [exact H2 |]. split.
  { rewrite H3. do 2 f_equal. rewrite Hsum.
    rewrite <- take_app_drop by (unfold na, nb; lia).
    rewrite drop_drop by (unfold na; lia). reflexivity. }
  rewrite Hlx, Hly. repeat split; try reflexivity.
  - exact Hx.
  - exact Hy.
  - simpl. rewrite Hsum. lia.
Qed.

Lemma resolves_set_file coll r f : resolves coll r f -> resolves coll (GridOut.set_file (Some f) r) f.
Proof. intros _. left. reflexivity. Qed.

Lemma property_resolves {A : Type} coll (field : FileDoc.t -> A) r f :
  resolves coll r f ->
  GridOut.property coll field r = (Return (field f), GridOut.set_file (Some f) r).
Proof.
  intros Hres. unfold GridOut.property.
  rewrite (bind_Return _ _ _ _ _ (ensure_file_resolves coll r f Hres)). reflexivity.
Qed.

Lemma seek_run coll r f pos whence :
  resolves coll r f ->
  whence = _SEEK_SET \/ whence = _SEEK_CUR \/ whence = _SEEK_END ->
  0 <= seek_target r (declared_length f) pos whence ->
  exists r',
    GridOut.seek coll pos whence r = (Return tt, r')
    /\ GridOut.__position r' = seek_target r (declared_length f) pos whence
    /\ GridOut.__buffer r' = []
    /\ GridOut.__file_id r' = GridOut.__file_id r
    /\ resolves coll r' f.
Proof.
  intros Hres Hw Ht. unfold seek_target in *. unfold GridOut.seek.
  destruct Hw as [-> | [-> | ->]]; cbn [Z.eqb _SEEK_SET _SEEK_CUR _SEEK_END Pos.eqb] in *.
  - msimpl. replace (pos <? 0) with false by (symmetry; apply Z.ltb_ge; lia).
    msimpl. eexists. split; [reflexivity |]. repeat split.
    destruct Hres as [H | H]; [left | right]; exact H.
  - eexists. split.
    { mcut (Return (GridOut.__position r + pos)) r.
      { msimpl. reflexivity. }
      replace (GridOut.__position r + pos <? 0) with false
        by (symmetry; apply Z.ltb_ge; lia).
      msimpl. reflexivity. }
    repeat split.
    destruct Hres as [H | H]; [left | right]; exact H.
  - eexists. split.
    { mcut (Return (declared_length f + pos)) (GridOut.set_file (Some f) r).
      { unfold GridOut.length.
        rewrite (bind_Return _ _ _ _ _ (property_resolves coll _ r f Hres)).
        reflexivity. }
      replace (declared_length f + pos <? 0) with false by (symmetry; apply Z.ltb_ge; lia).
      msimpl. reflexivity. }
    repeat split. left. reflexivity.
Qed.

(** X2: every way of placing the cursor inside the file.  [seek(pos,
    whence)] counts [pos] from the start, from the cursor or from the
    declared length; when the target lies inside the file, a read to the end
    answers the content from the target on, whatever look-ahead buffer the
    reader held before. *)
Theorem seek_then_read_gives_content_from_target coll f B r pos whence fuel :
  let target := seek_target r (len B) pos whence in
  holds_content coll f B ->
  resolves coll r f ->
  whence = _SEEK_SET \/ whence = _SEEK_CUR \/ whence = _SEEK_END ->
  0 <= target <= len B ->
  len B < Z.of_nat fuel ->
  exists r',
    (GridOut.seek coll pos whence ;;; GridOut.read coll fuel (-1)) r
    = (Return (drop target B), r')
    /\ GridOut.__position r' = len B.
Proof.
  intros target Hc Hres Hw Ht Hfuel.
  pose proof (holds_chunks_length coll f B (proj1 Hc)) as HL.
  destruct (seek_run coll r f pos whence Hres Hw) as (r1 & Hseek & Hp1 & Hb1 & _ & Hres1).
  { rewrite HL. apply Ht. }
  rewrite HL in Hp1. fold target in Hp1.
  rewrite (bind_Return _ _ _ _ _ Hseek).
  destruct (read_run coll f B r1 (-1) fuel Hc Hres1) as (k & Hread).
  { exists 0. rewrite Hb1. reflexivity. }
  { rewrite Hp1. exact Ht. }
  { discriminate. }
  { rewrite Hp1. simpl. lia. }
  rewrite Hp1 in Hread. simpl in Hread.
  eexists. split.
  - rewrite Hread. do 2 f_equal. apply take_all. rewrite len_drop. lia.
  - simpl. lia.
Qed.

(** X3: a [seek] that is refused moves nothing.  With a [whence] other
    than 0, 1, 2, or with a negative target, [seek] raises [IOError] with
    errno 22, and the cursor and the look-ahead buffer are what they were. *)
Theorem refused_seek_keeps_cursor_and_buffer coll r f pos whence :
  resolves coll r f ->
  (whence <> _SEEK_SET /\ whence <> _SEEK_CUR /\ whence <> _SEEK_END)
  \/ ((whence = _SEEK_SET \/ whence = _SEEK_CUR \/ whence = _SEEK_END)
      /\ seek_target r (declared_length f) pos whence < 0) ->
  exists msg r',
    GridOut.seek coll pos whence r = (Raise (IOError 22 msg), r')
    /\ GridOut.__position r' = GridOut.__position r
    /\ GridOut.__buffer r' = GridOut.__buffer r.
Proof.
  intros Hres [(H0 & H1 & H2) | (Hw & Ht)]; unfold GridOut.seek.
  - apply Z.eqb_neq in H0, H1, H2. rewrite H0, H1, H2. msimpl.
    eexists _, _. split; [reflexivity |]. split; reflexivity.
  - unfold seek_target in Ht.
    destruct Hw as [-> | [-> | ->]]; cbn [Z.eqb _SEEK_SET _SEEK_CUR _SEEK_END Pos.eqb] in *.
    + msimpl. replace (pos <? 0) with true by (symmetry; apply Z.ltb_lt; lia).
      msimpl. eexists _, _. split; [reflexivity |]. split; reflexivity.
    + eexists _, _. split.
      { mcut (Return (GridOut.__position r + pos)) r.
        { msimpl. reflexivity. }
        replace (GridOut.__position r + pos <? 0) with true by (symmetry; apply Z.ltb_lt; lia).
        msimpl. reflexivity. }
      split; reflexivity.
    + eexists _, _. split.
      { mcut (Return (declared_length f + pos)) (GridOut.set_file (Some f) r).
        { unfold GridOut.length.
          rewrite (bind_Return _ _ _ _ _ (property_resolves coll _ r f Hres)).
          reflexivity. }
        replace (declared_length f + pos <? 0) with true by (symmetry; apply Z.ltb_lt; lia).
        msimpl. reflexivity. }
      split; reflexivity.
Qed.




Lemma ensure_file_unknown coll r :
  unknown_file coll r ->
  GridOut._ensure_file coll r = (Raise (NoFile (GridOut.__file_id r)), r).
Proof.
  intros (Hf & Hid). unfold GridOut._ensure_file. rewrite Hf.
  destruct (GridOut.__file_id r) as [i |]; [rewrite Hid |]; reflexivity.
Qed.

Lemma property_unknown {A : Type} coll (field : FileDoc.t -> A) r :
  unknown_file coll r ->
  GridOut.property coll field r = (Raise (NoFile (GridOut.__file_id r)), r).
Proof.
  intros H. unfold GridOut.property.
  rewrite (bind_Raise _ _ _ _ _ (ensure_file_unknown coll r H)). reflexivity.
Qed.

(** X5: lazy resolution.  On a reader whose identifier the files
    collection does not know, whatever needs the file document ([read], even
    of size 0, [readline] of a size other than 0, [readchunk], a [seek] from
    the end, the properties, [iter]) raises [NoFile] for that identifier and
    leaves the reader as it was; [readline(0)], [tell] and a [seek] from the
    start do not need it and go through. *)
Theorem unknown_file_raises_no_file coll r fuel n pos :
  unknown_file coll r ->
  GridOut.read coll fuel n r = (Raise (NoFile (GridOut.__file_id r)), r)
  /\ (n <> 0 -> GridOut.readline coll fuel n r = (Raise (NoFile (GridOut.__file_id r)), r))
  /\ GridOut.readchunk coll r = (Raise (NoFile (GridOut.__file_id r)), r)
  /\ GridOut.seek coll pos _SEEK_END r = (Raise (NoFile (GridOut.__file_id r)), r)
  /\ GridOut._id coll r = (Raise (NoFile (GridOut.__file_id r)), r)
  /\ GridOut.length coll r = (Raise (NoFile (GridOut.__file_id r)), r)
  /\ GridOut.chunk_size coll r = (Raise (NoFile (GridOut.__file_id r)), r)
  /\ GridOutIterator.__init__ coll r = (Raise (NoFile (GridOut.__file_id r)), r)
  /\ GridOut.readline coll fuel 0 r = (Return EMPTY, r)
  /\ GridOut.tell r = (Return (GridOut.__position r), r)
  /\ (0 <= pos ->
      GridOut.seek coll pos _SEEK_SET r
      = (Return tt, GridOut.set_buffer EMPTY (GridOut.set_position pos r))).
Proof.
  intros H.
  pose proof (ensure_file_unknown coll r H) as He.
  assert (Hprop : forall A (field : FileDoc.t -> A),
             GridOut.property coll field r = (Raise (NoFile (GridOut.__file_id r)), r))
    by (intros; apply property_unknown; exact H).
  split; [| split; [| split; [| split; [| split; [| split; [| split; [| split;
    [| split; [| split]]]]]]]]].
  - unfold GridOut.read. rewrite (bind_Raise _ _ _ _ _ He). reflexivity.
  - intros Hn. unfold GridOut.readline.
    replace (n =? 0) with false by (symmetry; apply Z.eqb_neq; exact Hn). cbv iota.
    unfold GridOut.clamp_size, GridOut.length.
    erewrite bind_Raise; [reflexivity |].
    rewrite (bind_Raise _ _ _ _ _ (Hprop _ _)). reflexivity.
  - unfold GridOut.readchunk. msimpl. unfold GridOut.chunk_size.
    rewrite (bind_Raise _ _ _ _ _ (Hprop _ _)). reflexivity.
  - unfold GridOut.seek. cbn [Z.eqb _SEEK_SET _SEEK_CUR _SEEK_END Pos.eqb].
    erewrite bind_Raise; [reflexivity |].
    unfold GridOut.length. rewrite (bind_Raise _ _ _ _ _ (Hprop _ _)). reflexivity.
  - apply Hprop.
  - apply Hprop.
  - apply Hprop.
  - unfold GridOutIterator.__init__, GridOut._id.
    rewrite (bind_Raise _ _ _ _ _ (Hprop _ _)). reflexivity.
  - reflexivity.
  - reflexivity.
  - intros Hp. apply seek_set_run. exact Hp.
Qed.

(* ===================================================================== *)
(** ** readline *)
(* ===================================================================== *)

Lemma index_of_app (x : byte) (a b : bytes) :
  index_of x (a ++ b)
  = match index_of x a with
    | Some i => Some i
    | None => match index_of x b with
              | Some j => Some (List.length a + j)%nat
              | None => None
              end
    end.
Proof.
  induction a as [| y a IH]; simpl.
  - destruct (index_of x b); reflexivity.
  - destruct (Byte.eqb x y); [reflexivity |].
    rewrite IH. destruct (index_of x a); [reflexivity |].
    destruct (index_of x b); reflexivity.
Qed.

Lemma index_of_lt (x : byte) (b : bytes) i :
  index_of x b = Some i -> (i < List.length b)%nat.
Proof.
  revert i. induction b as [| y b IH]; simpl; intros i H; [discriminate |].
  destruct (Byte.eqb x y).
  - inversion H. lia.
  - destruct (index_of x b) as [j |]; [| discriminate].
    inversion H. specialize (IH j eq_refl). lia.
Qed.

Lemma index_of_take_some (x : byte) (k : Z) (d : bytes) j :
  index_of x (take k d) = Some j -> index_of x d = Some j.
Proof.
  intros H. rewrite <- (take_drop_id k d), index_of_app, H. reflexivity.
Qed.

Lemma index_of_prefix_none (x : byte) (a b : bytes) :
  index_of x (a ++ b) = None -> index_of x a = None.
Proof.
  rewrite index_of_app. destruct (index_of x a); [discriminate | reflexivity].
Qed.

Lemma index_of_take_none (x : byte) (k k' : Z) (d : bytes) :
  index_of x (take k d) = None -> k' <= k -> index_of x (take k' d) = None.
Proof.
  intros H Hk. apply index_of_prefix_none with (b := drop k' (take k d)).
  replace (take k' d) with (take k' (take k d)).
  - rewrite take_drop_id. exact H.
  - rewrite take_take. f_equal. lia.
Qed.

Lemma find_from_start (x : byte) (n : Z) (d : bytes) :
  0 < n ->
  find x 0 n d = match index_of x (take n d) with
                 | Some i => Z.of_nat i
                 | None => -1
                 end.
Proof.
  intros Hn. unfold find. pose proof (len_nonneg d) as Hd.
  replace (0 <? 0) with false by reflexivity.
  replace (n <? 0) with false by (symmetry; apply Z.ltb_ge; lia).
  rewrite (Z.min_l 0 (len d)) by lia. rewrite Z.sub_0_r. rewrite drop_nonpos by lia.
  rewrite take_min_len. destruct (index_of x (take n d)); reflexivity.
Qed.

(** One call of [readchunk] on a reader that is not at the end: a
    non-empty piece of the content at the cursor. *)
Lemma readchunk_piece coll f B r :
  let q := GridOut.__position r in
  holds_chunks coll f B ->
  GridOut._file r = Some f ->
  lookahead_of B r ->
  0 <= q ->
  (GridOut.__buffer r = [] -> q < len B) ->
  exists d,
    GridOut.readchunk coll r
    = (Return d, GridOut.mk (GridOut.__file_id r) [] (q + len d) (Some f))
    /\ 0 < len d /\ q + len d <= len B
    /\ d = take (len d) (drop q B).
Proof.
  intros q Hc Hf (k & Hk) Hq Hend. fold q in Hk.
  destruct (GridOut.__buffer r) as [| x b] eqn:Hb.
  - specialize (Hend eq_refl).
    destruct (readchunk_fetch coll f B r Hc Hf Hb) as [Hrc Hpos]; [fold q; lia |].
    fold q in Hrc, Hpos. cbv zeta in Hrc, Hpos.
    set (d := take (FileDoc.chunkSize f - q mod FileDoc.chunkSize f) (drop q B)) in *.
    exists d. split; [exact Hrc |]. split; [exact Hpos |].
    assert (Hle : len d <= len B - q).
    { unfold d. rewrite len_take, len_drop. lia. }
    split; [lia |].
    symmetry. unfold d. rewrite len_take. apply take_min_len_max.
  - exists (x :: b).
    assert (Hlen : 0 < len (x :: b) <= len B - q).
    { assert (H0 : 0 < len (x :: b)) by (unfold len; simpl; lia).
      assert (H1 : len (x :: b) = Z.min (Z.max 0 k) (Z.max 0 (len B - Z.max 0 q)))
        by (rewrite Hk at 1; rewrite len_take, len_drop; reflexivity).
      lia. }
    split.
    { rewrite (readchunk_buffered coll r f Hf) by (rewrite Hb; discriminate).
      rewrite Hb. unfold GridOut.set_buffer, GridOut.set_position. simpl.
      rewrite Hf. reflexivity. }
    split; [lia |]. split; [lia |].
    rewrite Hk at 1. rewrite Hk, len_take. symmetry. apply take_min_len_max.
Qed.

Lemma take_app_piece (B d : bytes) (p q : Z) :
  0 <= p <= q ->
  d = take (len d) (drop q B) ->
  take (q - p) (drop p B) ++ d = take (q + len d - p) (drop p B).
Proof.
  intros Hpq Hd. rewrite Hd at 1.
  replace (drop q B) with (drop (q - p) (drop p B))
    by (rewrite drop_drop by lia; f_equal; lia).
  rewrite take_app_drop by (pose proof (len_nonneg d); lia).
  f_equal. lia.
Qed.

Lemma len_take_exact {A : Type} (k : Z) (l : list A) : 0 <= k <= len l -> len (take k l) = k.
Proof. intros H. rewrite len_take. lia. Qed.

(** The loop of [readline] over a file whose chunks hold its content: it
    stops behind the first line feed of what is left, or, having met none in
    what it searched, with the size it was given. *)
Lemma readline_loop_spec coll f B p n :
  holds_chunks coll f B -> 0 <= p -> 0 <= n -> p + n <= len B ->
  forall fuel r,
    let q := GridOut.__position r in
    GridOut._file r = Some f ->
    lookahead_of B r ->
    p <= q <= len B ->
    index_of NEWLN (take (Z.min (q - p) n) (drop p B)) = None ->
    Z.max 0 (n - (q - p)) < Z.of_nat fuel ->
    exists s q' r',
      GridOut.readline_loop coll fuel n (q - p)
        (BytesIO.mk (take (q - p) (drop p B)) (q - p)) r
      = (Return (s, q' - p, BytesIO.mk (take (q' - p) (drop p B)) (q' - p)), r')
      /\ GridOut.__file_id r' = GridOut.__file_id r
      /\ GridOut.__position r' = q'
      /\ GridOut._file r' = Some f
      /\ q <= q' <= len B /\ 0 <= s <= q' - p
      /\ ((exists i, index_of NEWLN (drop p B) = Some i /\ s = Z.of_nat i + 1)
          \/ (s = n /\ index_of NEWLN (take n (drop p B)) = None)).
Proof.
  intros Hc Hp Hn Hsize. induction fuel as [| fuel IH]; intros r q Hf Hb Hq Hinv Hfuel; [lia |].
  cbn [GridOut.readline_loop].
  destruct (Z.ltb_spec (q - p) n) as [Hlt | Hge].
  - destruct (readchunk_piece coll f B r Hc Hf Hb) as (d & Hrc & Hd0 & Hdle & Hd);
      [fold q; lia | fold q; lia |].
    fold q in Hrc, Hdle, Hd.
    rewrite (bind_Return _ _ _ _ _ Hrc).
    rewrite find_from_start by lia.
    rewrite BytesIO_write_at_end
      by (simpl; rewrite len_take_exact; [reflexivity | rewrite len_drop; lia]).
    cbn [BytesIO.value BytesIO.pos].
    rewrite (take_app_piece B d p q) by (try exact Hd; lia).
    replace (q - p + len d) with (q + len d - p) by lia.
    rewrite Z.min_l in Hinv by lia.
    assert (Hrest : drop p B = take (q - p) (drop p B) ++ d ++ drop (len d) (drop q B)).
    { rewrite <- (take_drop_id (q - p) (drop p B)) at 1. f_equal.
      rewrite drop_drop by lia. replace (p + (q - p)) with q by lia.
      rewrite <- (take_drop_id (len d) (drop q B)) at 1. rewrite <- Hd. reflexivity. }
    destruct (index_of NEWLN (take n d)) as [j |] eqn:Hfind.
    + (* the line feed is in this piece *)
      replace (negb (Z.of_nat j =? -1)) with true
        by (symmetry; apply negb_true_iff, Z.eqb_neq; lia).
      msimpl.
      pose proof (index_of_lt _ _ _ Hfind) as Hj.
      assert (Hjd : Z.of_nat j < len d).
      { assert (len (take n d) <= len d) by (rewrite len_take; lia).
        unfold len in *. lia. }
      eexists _, (q + len d), _. split; [reflexivity |].
      split; [reflexivity |]. split; [reflexivity |]. split; [reflexivity |].
      split; [lia |]. split; [lia |].
      left. exists (Z.to_nat (q - p) + j)%nat. split; [| lia].
      rewrite Hrest, index_of_app, Hinv, index_of_app.
      rewrite (index_of_take_some _ _ _ _ Hfind).
      do 2 f_equal.
      assert (Hl : len (take (q - p) (drop p B)) = q - p)
        by (apply len_take_exact; rewrite len_drop; lia).
      unfold len in Hl. lia.
    + (* no line feed in what was searched of this piece *)
      replace (negb (-1 =? -1)) with false by reflexivity.
      cbv iota.
      set (r1 := GridOut.mk (GridOut.__file_id r) [] (q + len d) (Some f)).
      destruct (IH r1 eq_refl ltac:(exists 0; reflexivity)) as (s & q' & r' & Hloop & H1 & H2 & H3 & H4 & H5 & H6).
      { simpl. lia. }
      { simpl.
        apply index_of_take_none with (k := (q - p) + Z.min n (len d)); [| lia].
        replace (take (q - p + Z.min n (len d)) (drop p B))
          with (take (q - p) (drop p B) ++ take n d).
        - rewrite index_of_app, Hinv, Hfind. reflexivity.
        - assert (Hnd : take n d = take (Z.min n (len d)) (drop q B)).
          { transitivity (take (Z.min n (len d)) (take (len d) (drop q B))).
            - rewrite <- Hd. symmetry. apply take_min_len.
            - rewrite take_take. f_equal. lia. }
          rewrite Hnd.
          replace (drop q B) with (drop (q - p) (drop p B))
            by (rewrite drop_drop by lia; f_equal; lia).
          rewrite take_app_drop by lia. reflexivity. }
      { simpl. lia. }
      simpl in Hloop, H4, H1.
      exists s, q', r'. split; [exact Hloop |].
      split; [exact H1 |]. split; [exact H2 |]. split; [exact H3 |].
      split; [lia |]. split; [exact H5 | exact H6].
  - msimpl. exists n, q, r. split; [reflexivity |].
    split; [reflexivity |]. split; [reflexivity |]. split; [exact Hf |].
    split; [lia |]. split; [lia |].
    right. split; [reflexivity |]. rewrite Z.min_r in Hinv by lia. exact Hinv.
Qed.

Lemma clamp_size_resolves coll r f size :
  resolves coll r f ->
  GridOut.clamp_size coll size r
  = (Return (if (size <? 0) || (declared_length f - GridOut.__position r <? size)
             then declared_length f - GridOut.__position r else size),
     GridOut.set_file (Some f) r).
Proof.
  intros Hres. unfold GridOut.clamp_size, GridOut.length.
  rewrite (bind_Return _ _ _ _ _ (property_resolves coll _ r f Hres)).
  msimpl. reflexivity.
Qed.

(** [readline] on a file whose chunks hold its content: the answer and the
    reader afterwards. *)
Lemma readline_run coll f B r n fuel :
  let p := GridOut.__position r in
  let rest := drop p B in
  let m := if (n <? 0) || (len B - p <? n) then len B - p else n in
  holds_chunks coll f B ->
  resolves coll r f ->
  lookahead_of B r ->
  0 <= p <= len B ->
  n <> 0 ->
  m < Z.of_nat fuel ->
  exists s k,
    GridOut.readline coll fuel n r
    = (Return (take s rest),
       GridOut.mk (GridOut.__file_id r) (take k (drop (p + s) B)) (p + s) (Some f))
    /\ 0 <= s <= len rest
    /\ ((exists i, index_of NEWLN rest = Some i /\ s = Z.of_nat i + 1)
        \/ (s = m /\ index_of NEWLN (take m rest) = None)).
Proof.
  intros p rest m Hc Hres Hb Hp Hn Hfuel.
  pose proof (holds_chunks_length coll f B Hc) as HL.
  assert (Hm : 0 <= m /\ p + m <= len B).
  { unfold m. destruct (Z.ltb_spec n 0); simpl; [lia |].
    destruct (Z.ltb_spec (len B - p) n); lia. }
  set (r1 := GridOut.set_file (Some f) r).
  destruct (readline_loop_spec coll f B p m Hc (proj1 Hp) (proj1 Hm) (proj2 Hm) fuel r1
              eq_refl Hb) as (s & q' & r' & Hloop & Hid & Hpos & Hfile & Hq' & Hs & Hcase).
  { simpl. fold p. lia. }
  { simpl. fold p. rewrite Z.sub_diag. rewrite take_nonpos by lia. reflexivity. }
  { simpl. fold p. lia. }
  change (GridOut.__position r1) with p in Hloop.
  rewrite Z.sub_diag in Hloop. rewrite (take_nonpos 0) in Hloop by lia.
  assert (Hlr : len rest = len B - p) by (unfold rest; rewrite len_drop; lia).
  exists s, (q' - p - s).
  split; [| split; [lia | exact Hcase]].
  unfold GridOut.readline.
  replace (n =? 0) with false by (symmetry; apply Z.eqb_neq; exact Hn).
  cbv iota.
  rewrite (bind_Return _ _ _ _ _ (clamp_size_resolves coll r f n Hres)).
  rewrite HL. fold p m r1.
  change (BytesIO.mk [] 0) with BytesIO.empty in Hloop.
  rewrite (bind_Return _ _ _ _ _ Hloop).
  rewrite return_and_store_run by lia.
  rewrite take_take, Z.min_l by lia.
  destruct r' as [fid' buf' pos' file']. simpl in Hid, Hpos, Hfile. subst fid' pos' file'.
  unfold GridOut.set_buffer, GridOut.set_position. simpl.
  fold rest. rewrite drop_take by lia. unfold rest. rewrite drop_drop by lia.
  replace (q' - (q' - p - s)) with (p + s) by lia.
  reflexivity.
Qed.


Lemma first_line_prefix (b : bytes) : first_line b = take (len (first_line b)) b.
Proof.
  unfold first_line. destruct (index_of NEWLN b) as [i |] eqn:Hi.
  - pose proof (index_of_lt _ _ _ Hi) as Hlt.
    rewrite len_take_exact; [reflexivity |]. unfold len. lia.
  - symmetry. apply take_all. lia.
Qed.

Lemma first_line_nonempty (b : bytes) : b <> [] -> 0 < len (first_line b).
Proof.
  intros Hb. unfold first_line. destruct (index_of NEWLN b) as [i |] eqn:Hi.
  - pose proof (index_of_lt _ _ _ Hi) as Hlt.
    rewrite len_take_exact; unfold len; lia.
  - destruct b; [congruence |]. unfold len. simpl. lia.
Qed.

Lemma len_first_line_le (b : bytes) : len (first_line b) <= len b.
Proof. rewrite first_line_prefix, len_take. lia. Qed.

Lemma concat_lines_of_all (count : nat) :
  forall b, len b <= Z.of_nat count -> List.concat (lines_of count b) = b.
Proof.
  induction count as [| count IH]; intros b Hb.
  - simpl. symmetry. apply len_zero_nil. pose proof (len_nonneg b). lia.
  - cbn [lines_of List.concat]. rewrite IH.
    + rewrite first_line_prefix at 1. apply take_drop_id.
    + destruct b as [| x b]; [rewrite drop_all; unfold len; simpl; lia |].
      pose proof (first_line_nonempty (x :: b) ltac:(discriminate)).
      pose proof (len_first_line_le (x :: b)).
      rewrite len_drop. lia.
Qed.

(** X7: reading line by line.  [count] calls of [readline()] in a row
    answer the first [count] lines of what is left of the file, and enough
    calls answer all of it. *)
Theorem readline_calls_answer_the_lines coll f B count :
  holds_chunks coll f B ->
  forall r fuel,
    let p := GridOut.__position r in
    resolves coll r f ->
    lookahead_of B r ->
    0 <= p <= len B ->
    len B - p < Z.of_nat fuel ->
    exists r',
      readline_calls coll fuel count r = (Return (lines_of count (drop p B)), r')
      /\ (len B - p <= Z.of_nat count ->
          List.concat (lines_of count (drop p B)) = drop p B).
Proof.
  intros Hc. induction count as [| count IH]; intros r fuel p Hres Hb Hp Hfuel.
  - exists r. split; [reflexivity |]. intros H.
    simpl. symmetry. apply drop_all. lia.
  - assert (Hlr : len (drop p B) = len B - p) by (rewrite len_drop; lia).
    destruct (readline_run coll f B r (-1) fuel Hc Hres Hb Hp ltac:(discriminate))
      as (s & k & Hrun & Hs & Hcase).
    { fold p. simpl. exact Hfuel. }
    fold p in Hrun, Hs, Hcase. simpl in Hcase.
    assert (Hline : take s (drop p B) = first_line (drop p B)).
    { destruct Hcase as [(i & Hi & ->) | (-> & Hnone)].
      - unfold first_line. rewrite Hi. reflexivity.
      - rewrite <- Hlr in Hnone |- *. rewrite take_all in Hnone |- * by lia.
        unfold first_line. rewrite Hnone. reflexivity. }
    assert (Hlen : len (first_line (drop p B)) = s).
    { rewrite <- Hline. apply len_take_exact. lia. }
    set (r1 := GridOut.mk (GridOut.__file_id r) (take k (drop (p + s) B)) (p + s) (Some f))
      in *.
    destruct (IH r1 fuel ltac:(left; reflexivity) ltac:(exists k; reflexivity))
      as (r' & Hcalls & _).
    { simpl. lia. }
    { simpl. lia. }
    simpl in Hcalls.
    exists r'. split.
    + cbn [readline_calls lines_of].
      rewrite (bind_Return _ _ _ _ _ Hrun).
      rewrite (bind_Return _ _ _ _ _ Hcalls).
      msimpl. rewrite Hline, Hlen.
      rewrite drop_drop by lia. reflexivity.
    + intros H. apply concat_lines_of_all. lia.
Qed.

(* ===================================================================== *)
(** ** GridOutIterator and download_to_stream *)
(* ===================================================================== *)

Lemma bind_unit_ret {St : Type} (c : M St unit) s : (c ;;; ret tt) s = c s.
Proof.
  unfold bind. destruct (c s) as [[[] | e |] s']; reflexivity.
Qed.

Lemma bind_assoc {St A B C : Type} (c : M St A) (k : A -> M St B) (h : B -> M St C) s :
  bind (bind c k) h s = bind c (fun a => bind (k a) h) s.
Proof.
  unfold bind. destruct (c s) as [[a | e |] s']; reflexivity.
Qed.

Lemma bind_ext {St A B : Type} (c : M St A) (k1 k2 : A -> M St B) s :
  (forall a s', k1 a s' = k2 a s') -> bind c k1 s = bind c k2 s.
Proof.
  intros H. unfold bind. destruct (c s) as [[a | e |] s']; [apply H | reflexivity | reflexivity].
Qed.

Lemma next_found coll fid cur mx c :
  cur < mx ->
  find_one (by_files_id_n fid cur) (chunks coll) = Some c ->
  GridOutIterator.next coll (GridOutIterator.mk fid cur mx)
  = (Return (Yield (ChunkDoc.data c)), GridOutIterator.mk fid (cur + 1) mx).
Proof.
  intros Hlt Hfind. unfold GridOutIterator.next. msimpl.
  cbn [GridOutIterator.__current_chunk GridOutIterator.__max_chunk GridOutIterator.__id].
  replace (mx <=? cur) with false by (symmetry; apply Z.leb_gt; lia).
  msimpl. cbn [GridOutIterator.__id]. rewrite Hfind. msimpl. reflexivity.
Qed.

Lemma next_missing coll fid cur mx :
  cur < mx ->
  find_one (by_files_id_n fid cur) (chunks coll) = None ->
  GridOutIterator.next coll (GridOutIterator.mk fid cur mx)
  = (Raise (CorruptGridFile (GridOut.no_chunk_message cur)), GridOutIterator.mk fid cur mx).
Proof.
  intros Hlt Hfind. unfold GridOutIterator.next. msimpl.
  cbn [GridOutIterator.__current_chunk GridOutIterator.__max_chunk GridOutIterator.__id].
  replace (mx <=? cur) with false by (symmetry; apply Z.leb_gt; lia).
  msimpl. cbn [GridOutIterator.__id]. rewrite Hfind. reflexivity.
Qed.

Lemma next_exhausted coll fid cur mx :
  mx <= cur ->
  GridOutIterator.next coll (GridOutIterator.mk fid cur mx)
  = (Return StopIteration, GridOutIterator.mk fid cur mx).
Proof.
  intros Hle. unfold GridOutIterator.next. msimpl.
  cbn [GridOutIterator.__current_chunk GridOutIterator.__max_chunk].
  replace (mx <=? cur) with true by (symmetry; apply Z.leb_le; lia).
  reflexivity.
Qed.

(** The [for] loop over the iterator, as long as the chunks are found. *)
Lemma for_each_found {D : Type} (write : bytes -> M D unit) coll fid mx (n : nat) :
  forall (c : nat) (fuel : nat) (d : D),
    Z.of_nat (c + n) <= mx ->
    (forall i, (c <= i < c + n)%nat ->
       find_one (by_files_id_n fid (Z.of_nat i)) (chunks coll) <> None) ->
    GridOutIterator.for_each coll write (n + fuel) (GridOutIterator.mk fid (Z.of_nat c) mx) d
    = (write_all write (stored_chunks coll fid c n) ;;;
       GridOutIterator.for_each coll write fuel
         (GridOutIterator.mk fid (Z.of_nat (c + n)) mx)) d.
Proof.
  induction n as [| n IH]; intros c fuel d Hmx Hfound.
  - cbn [stored_chunks seq map write_all]. msimpl.
    replace (c + 0)%nat with c by lia. reflexivity.
  - cbn [Nat.add GridOutIterator.for_each].
    destruct (find_one (by_files_id_n fid (Z.of_nat c)) (chunks coll)) as [ch |] eqn:Hc.
    2:{ exfalso. apply (Hfound c); [lia | exact Hc]. }
    rewrite (next_found coll fid (Z.of_nat c) mx ch) by (try exact Hc; lia).
    unfold stored_chunks. cbn [seq map write_all].
    unfold chunk_data_at at 1. rewrite Hc.
    rewrite bind_assoc. apply bind_ext. intros _ d'.
    replace (Z.of_nat c + 1) with (Z.of_nat (S c)) by lia.
    rewrite IH; [| lia | intros i Hi; apply Hfound; lia].
    replace (S c + n)%nat with (c + S n)%nat by lia. reflexivity.
Qed.

Lemma iterator_init_found coll fid f :
  find_one (by_id fid) (files coll) = Some f ->
  FileDoc.chunkSize f <> 0 ->
  GridFSBucket.open_download_stream fid coll
  = (Return (GridOut.mk (Some fid) [] 0 (Some f)), coll)
  /\ GridOutIterator.__init__ coll (GridOut.mk (Some fid) [] 0 (Some f))
     = (Return (GridOutIterator.mk (FileDoc._id f) 0
                  (ceil_div (declared_length f) (FileDoc.chunkSize f))),
        GridOut.mk (Some fid) [] 0 (Some f)).
Proof.
  intros Hfind HC. split.
  - unfold GridFSBucket.open_download_stream, GridOut._ensure_file, GridOut.__init__.
    simpl. rewrite Hfind. reflexivity.
  - set (g := GridOut.mk (Some fid) [] 0 (Some f)).
    unfold GridOutIterator.__init__.
    rewrite (bind_Return _ _ _ _ _ (id_resolved coll g f eq_refl)).
    rewrite (bind_Return _ _ _ _ _ (length_resolved coll g f eq_refl)).
    rewrite (bind_Return _ _ _ _ _ (chunk_size_resolved coll g f eq_refl)).
    replace (FileDoc.chunkSize f =? 0) with false by (symmetry; apply Z.eqb_neq; exact HC).
    msimpl. reflexivity.
Qed.

(** The download, as long as the chunk records are found. *)
Lemma download_to_stream_run {D : Type} (write : bytes -> M D unit)
    coll fid f (fuel : nat) (d : D) :
  let count := Z.to_nat (ceil_div (declared_length f) (FileDoc.chunkSize f)) in
  find_one (by_id fid) (files coll) = Some f ->
  FileDoc.chunkSize f <> 0 ->
  (forall i, (i < count)%nat ->
     find_one (by_files_id_n (FileDoc._id f) (Z.of_nat i)) (chunks coll) <> None) ->
  (count < fuel)%nat ->
  GridFSBucket.download_to_stream write coll fuel fid d
  = write_all write (stored_chunks coll (FileDoc._id f) 0 count) d.
Proof.
  intros count Hfind HC Hfound Hfuel.
  destruct (iterator_init_found coll fid f Hfind HC) as [Hopen Hinit].
  unfold GridFSBucket.download_to_stream. rewrite Hopen, Hinit.
  set (mx := ceil_div (declared_length f) (FileDoc.chunkSize f)) in *.
  replace fuel with (count + (fuel - count))%nat by lia.
  change 0 with (Z.of_nat 0).
  destruct (Z_le_gt_dec 0 mx) as [Hmx | Hmx].
  - rewrite for_each_found; [| unfold count; lia | intros i Hi; apply Hfound; lia].
    destruct (fuel - count)%nat as [| fuel'] eqn:Hf; [lia |].
    cbn [GridOutIterator.for_each].
    rewrite next_exhausted by (unfold count; lia).
    change ((fun d0 : D => (Return tt, d0))) with (@ret D unit tt).
    apply bind_unit_ret.
  - assert (count = 0%nat) as -> by (unfold count; lia).
    destruct fuel as [| fuel']; [lia |].
    cbn [Nat.add Nat.sub GridOutIterator.for_each].
    rewrite next_exhausted by (simpl; lia). reflexivity.
Qed.

Lemma write_all_bytesio (pieces : list bytes) :
  forall v, write_all bytesio_write pieces (BytesIO.mk v (len v))
            = (Return tt, BytesIO.mk (v ++ List.concat pieces) (len (v ++ List.concat pieces))).
Proof.
  induction pieces as [| piece more IH]; intros v.
  - simpl. rewrite app_nil_r. reflexivity.
  - cbn [write_all List.concat]. unfold bind, bytesio_write at 1.
    rewrite BytesIO_write_at_end by reflexivity. cbn [BytesIO.value BytesIO.pos].
    rewrite <- len_app. rewrite IH. rewrite app_assoc. reflexivity.
Qed.

(** X8: [download_to_stream] hands the destination the payload of each
    chunk record 0 .. ceil(length / chunkSize) - 1, in one [write] call each,
    in that order, whatever the sizes of the payloads and whatever lies
    further out in the chunks collection.  A [BytesIO] destination that
    stands at its end is longer afterwards by these payloads, end to end. *)
Theorem download_writes_each_stored_chunk {D : Type} (write : bytes -> M D unit)
    coll fid f (fuel : nat) (d : D) :
  let count := Z.to_nat (ceil_div (declared_length f) (FileDoc.chunkSize f)) in
  find_one (by_id fid) (files coll) = Some f ->
  FileDoc.chunkSize f <> 0 ->
  (forall i, (i < count)%nat ->
     find_one (by_files_id_n (FileDoc._id f) (Z.of_nat i)) (chunks coll) <> None) ->
  (count < fuel)%nat ->
  GridFSBucket.download_to_stream write coll fuel fid d
  = write_all write (stored_chunks coll (FileDoc._id f) 0 count) d
  /\ forall v,
       GridFSBucket.download_to_stream bytesio_write coll fuel fid (BytesIO.mk v (len v))
       = (Return tt,
          BytesIO.mk (v ++ file_content coll (FileDoc._id f) count)
            (len (v ++ file_content coll (FileDoc._id f) count))).
Proof.
  intros count Hfind HC Hfound Hfuel. split.
  - apply download_to_stream_run; assumption.
  - intros v.
    rewrite (download_to_stream_run bytesio_write coll fid f fuel _ Hfind HC Hfound Hfuel).
    apply write_all_bytesio.
Qed.

(** X9: a missing chunk record stops the download with the corruption
    error "no chunk #j", after the chunks before it have been written to the
    destination. *)
Theorem download_stops_at_missing_chunk {D : Type} (write : bytes -> M D unit)
    coll fid f (j fuel : nat) (d : D) :
  find_one (by_id fid) (files coll) = Some f ->
  FileDoc.chunkSize f <> 0 ->
  Z.of_nat j < ceil_div (declared_length f) (FileDoc.chunkSize f) ->
  (forall i, (i < j)%nat ->
     find_one (by_files_id_n (FileDoc._id f) (Z.of_nat i)) (chunks coll) <> None) ->
  find_one (by_files_id_n (FileDoc._id f) (Z.of_nat j)) (chunks coll) = None ->
  (j < fuel)%nat ->
  GridFSBucket.download_to_stream write coll fuel fid d
  = (write_all write (stored_chunks coll (FileDoc._id f) 0 j) ;;;
     raise (CorruptGridFile (GridOut.no_chunk_message (Z.of_nat j)))) d.
Proof.
  intros Hfind HC Hj Hfound Hmiss Hfuel.
  destruct (iterator_init_found coll fid f Hfind HC) as [Hopen Hinit].
  unfold GridFSBucket.download_to_stream. rewrite Hopen, Hinit.
  set (mx := ceil_div (declared_length f) (FileDoc.chunkSize f)) in *.
  replace fuel with (j + (fuel - j))%nat by lia.
  change 0 with (Z.of_nat 0).
  rewrite for_each_found; [| lia | intros i Hi; apply Hfound; lia].
  destruct (fuel - j)%nat as [| fuel'] eqn:Hf; [lia |].
  cbn [GridOutIterator.for_each Nat.add].
  rewrite next_missing by (try exact Hmiss; lia).
  reflexivity.
Qed.

(* ===================================================================== *)
(** ** The front ends: uploads *)
(* ===================================================================== *)

Lemma init_chunk_size fid chunk_size fname ctype enc :
  GridIn.__init__ fid chunk_size fname ctype enc
  = GridIn.__init__ fid (Some (chunk_size_or_default chunk_size)) fname ctype enc.
Proof. destruct chunk_size; reflexivity. Qed.

Lemma try_finally_run {St A : Type} (c : M St A) (cleanup : M St unit) s o s1 s2 :
  c s = (o, s1) -> o <> OutOfFuel -> cleanup s1 = (Return tt, s2) ->
  try_finally c cleanup s = (o, s2).
Proof.
  intros Hc Ho Hf. unfold try_finally. rewrite Hc.
  destruct o; [| | congruence]; rewrite Hf; reflexivity.
Qed.

Lemma with_statement_run {St : Type} (body : M St unit) (exit : M St bool) s o s1 s2 :
  body s = (o, s1) -> o <> OutOfFuel -> exit s1 = (Return false, s2) ->
  with_statement body exit s = (o, s2).
Proof.
  intros Hc Ho Hf. unfold with_statement. rewrite Hc.
  destruct o as [[] | e |]; [| | congruence].
  - unfold bind. rewrite Hf. reflexivity.
  - rewrite Hf. reflexivity.
Qed.

Lemma exit_run now w w' :
  GridIn.close now w = (Return tt, w') -> GridIn.__exit__ now w = (Return false, w').
Proof.
  intros H. unfold GridIn.__exit__. rewrite (bind_Return _ _ _ _ _ H). reflexivity.
Qed.

Lemma getter_run {A : Type} name closed_only (field : FileDoc.t -> A) w :
  closed_only = false \/ GridIn._closed (GridIn.self w) = true ->
  GridIn.getter name closed_only field w = (Return (field (GridIn._file (GridIn.self w))), w).
Proof.
  intros H. unfold GridIn.getter.
  rewrite (bind_Return _ _ _ _ _ (closed_run w)).
  destruct H as [-> | ->]; [reflexivity |]. rewrite andb_false_r. reflexivity.
Qed.


Lemma on_writer_run {A : Type} g (c : M GridIn.state A) coll o w :
  c (GridIn.mkState g coll) = (o, w) -> on_writer g c coll = (o, GridIn.coll w).
Proof. intros H. unfold on_writer. rewrite H. reflexivity. Qed.

Lemma write_then_close coll0 fid C fname ctype enc B now fuel :
  let f0 := new_doc fid C fname ctype enc in
  let w0 := GridIn.mkState (GridIn.__init__ fid (Some C) fname ctype enc) coll0 in
  0 < C -> fresh_id coll0 fid -> len B < Z.of_nat fuel ->
  exists w1 w2,
    GridIn.write fuel (PyBytes B) w0 = (Return tt, w1)
    /\ writer_inv f0 coll0 B w1
    /\ GridIn.close now w1 = (Return tt, w2)
    /\ GridIn._closed (GridIn.self w2) = true
    /\ GridIn._file (GridIn.self w2) = final_doc f0 B now
    /\ docs (chunks (GridIn.coll w2))
       = docs (chunks coll0) ++ chunk_docs fid C B (Z.to_nat (ceil_div (len B) C))
    /\ docs (files (GridIn.coll w2)) = docs (files coll0) ++ [final_doc f0 B now].
Proof.
  intros f0 w0 HC Hfresh Hfuel.
  destruct (write_bytes_spec f0 coll0 [] B fuel w0 Hfresh HC
              (writer_inv_init coll0 fid C fname ctype enc HC) Hfuel) as (w1 & Hw & Hinv).
  simpl in Hinv.
  destruct (close_spec f0 coll0 B now w1 Hfresh HC Hinv) as (w2 & Hcl & Hrest).
  exists w1, w2. split; [exact Hw |]. split; [exact Hinv |]. split; [exact Hcl | exact Hrest].
Qed.

Lemma read_all_uploaded coll0 coll' f0 B now fuel gout :
  fresh_id coll0 (FileDoc._id f0) -> 0 < FileDoc.chunkSize f0 ->
  docs (chunks coll')
  = docs (chunks coll0)
    ++ chunk_docs (FileDoc._id f0) (FileDoc.chunkSize f0) B
         (Z.to_nat (ceil_div (len B) (FileDoc.chunkSize f0))) ->
  resolves coll' gout (final_doc f0 B now) ->
  GridOut.__position gout = 0 -> GridOut.__buffer gout = [] ->
  len B < Z.of_nat fuel ->
  exists r', GridOut.read coll' fuel (-1) gout = (Return B, r').
Proof.
  intros Hfresh HC Hch Hres Hpos Hbuf Hfuel.
  pose proof (uploaded_holds_content coll0 coll' f0 B now Hfresh HC Hch) as Hhold.
  pose proof (len_nonneg B) as HB.
  destruct (read_spec coll' (final_doc f0 B now) B gout (-1) fuel Hhold Hres)
    as (r' & Hread & _).
  - exists 0. rewrite Hbuf. reflexivity.
  - rewrite Hpos. lia.
  - lia.
  - rewrite Hpos. simpl. rewrite Z.sub_0_r. exact Hfuel.
  - exists r'. rewrite Hread, Hpos. simpl. rewrite Z.sub_0_r.
    rewrite drop_nonpos by lia. rewrite take_all by lia. reflexivity.
Qed.

Lemma get_found coll fid f :
  find_one (by_id fid) (files coll) = Some f ->
  MockGridFS.get fid coll = (Return (GridOut.mk (Some fid) [] 0 (Some f)), coll).
Proof.
  intros H. unfold MockGridFS.get, GridOut._ensure_file, GridOut.__init__. simpl.
  rewrite H. reflexivity.
Qed.

Lemma get_missing coll fid :
  find_one (by_id fid) (files coll) = None ->
  MockGridFS.get fid coll = (Raise (NoFile (Some fid)), coll).
Proof.
  intros H. unfold MockGridFS.get, GridOut._ensure_file, GridOut.__init__. simpl.
  rewrite H. reflexivity.
Qed.

(** X10: [put] followed by [get] and a read to the end gives the bytes
    back; [put] answers the identifier of the file. *)
Theorem put_then_get_reads_back coll0 fid chunk_size fname ctype enc B now fuel :
  0 < chunk_size_or_default chunk_size ->
  fresh_id coll0 fid ->
  len B < Z.of_nat fuel ->
  exists coll' gout r',
    MockGridFS.put fuel now (PyBytes B) fid chunk_size fname ctype enc coll0
    = (Return fid, coll')
    /\ MockGridFS.get fid coll' = (Return gout, coll')
    /\ GridOut.read coll' fuel (-1) gout = (Return B, r').
Proof.
  intros HC Hfresh Hfuel.
  set (C := chunk_size_or_default chunk_size) in *.
  destruct (write_then_close coll0 fid C fname ctype enc B now fuel HC Hfresh Hfuel)
    as (w1 & w2 & Hw & _ & Hcl & Hclosed & Hfile & Hch & Hfl).
  set (f0 := new_doc fid C fname ctype enc) in *.
  pose proof (uploaded_file_found coll0 (GridIn.coll w2) f0 B now Hfresh Hfl) as Hfound.
  destruct (read_all_uploaded coll0 (GridIn.coll w2) f0 B now fuel
              (GridOut.mk (Some fid) [] 0 (Some (final_doc f0 B now))) Hfresh HC Hch)
    as (r' & Hread); [left; reflexivity | reflexivity | reflexivity | exact Hfuel |].
  exists (GridIn.coll w2), (GridOut.mk (Some fid) [] 0 (Some (final_doc f0 B now))), r'.
  split; [| split; [apply get_found; exact Hfound | exact Hread]].
  unfold MockGridFS.put. rewrite init_chunk_size. fold C.
  apply on_writer_run.
  rewrite (bind_Return _ _ _ _ _
             (try_finally_run _ _ _ _ _ _ Hw ltac:(discriminate) Hcl)).
  unfold GridIn._id. rewrite getter_run by (left; reflexivity).
  rewrite Hfile. reflexivity.
Qed.

Lemma write_first_read_fails {S : Type} (read : Z -> M S bytes) (s s' : S) w e fuel :
  GridIn._closed (GridIn.self w) = false ->
  BytesIO.tell (GridIn._buffer (GridIn.self w)) = 0 ->
  read (FileDoc.chunkSize (GridIn._file (GridIn.self w))) s = (Raise e, s') ->
  GridIn.write fuel (PyFile read s) w = (Raise e, w).
Proof.
  intros Hcl Hpos Hread.
  apply write_file_run with (s' := s'); [exact Hcl |].
  unfold GridIn.write_stream.
  rewrite (bind_Return _ _ _ _ _ (write_topup_idle_any read s w Hpos)).
  rewrite (bind_Return _ _ _ _ _ (chunk_size_run s w)).
  rewrite (bind_Raise _ _ _ _ _ (call_read_run read _ s w _ s' Hread)). reflexivity.
Qed.

Lemma ceil_div_zero (c : Z) : 0 < c -> ceil_div 0 c = 0.
Proof. intros H. unfold ceil_div. change (- 0) with 0. rewrite Z.div_0_l by lia. reflexivity. Qed.

Lemma close_new_writer coll0 fid C fname ctype enc now :
  let f0 := new_doc fid C fname ctype enc in
  0 < C -> fresh_id coll0 fid ->
  exists w2,
    GridIn.close now (GridIn.mkState (GridIn.__init__ fid (Some C) fname ctype enc) coll0)
    = (Return tt, w2)
    /\ GridIn._file (GridIn.self w2) = final_doc f0 [] now
    /\ docs (chunks (GridIn.coll w2)) = docs (chunks coll0)
    /\ docs (files (GridIn.coll w2)) = docs (files coll0) ++ [final_doc f0 [] now].
Proof.
  intros f0 HC Hfresh.
  destruct (close_spec f0 coll0 [] now _ Hfresh HC
              (writer_inv_init coll0 fid C fname ctype enc HC))
    as (w2 & Hcl & _ & Hfile & Hch & Hfl).
  exists w2. split; [exact Hcl |]. split; [exact Hfile |]. split; [| exact Hfl].
  rewrite Hch. change (len (@nil byte)) with 0. simpl FileDoc.chunkSize.
  rewrite ceil_div_zero by exact HC. simpl. apply app_nil_r.
Qed.

(** X11: a source that fails on its first read.  [put] and
    [upload_from_stream] raise the error of the source, and the [close] that
    runs on the way out ([finally], [__exit__]) has stored an empty file
    under the identifier all the same: the record is found, it has no
    chunks, and it reads as the empty string. *)
Theorem failed_upload_leaves_an_empty_file {S : Type} (read : Z -> M S bytes) (s s' : S)
    (e : exn) bucket coll0 fid chunk_size fname ctype enc name now fuel :
  let C := chunk_size_or_default chunk_size in
  let Cb := match chunk_size with Some c => c | None => GridFSBucket._chunk_size_bytes bucket end in
  fresh_id coll0 fid ->
  (0 < C -> read C s = (Raise e, s') ->
   exists coll' r',
     MockGridFS.put fuel now (PyFile read s) fid chunk_size fname ctype enc coll0
     = (Raise e, coll')
     /\ find_one (by_id fid) (files coll')
        = Some (final_doc (new_doc fid C fname ctype enc) [] now)
     /\ docs (chunks coll') = docs (chunks coll0)
     /\ GridOut.read coll' (Datatypes.S fuel) (-1) (GridOut.__init__ (Some fid) None)
        = (Return [], r'))
  /\ (0 < Cb -> read Cb s = (Raise e, s') ->
      exists coll' r',
        GridFSBucket.upload_from_stream bucket fuel now fid (PyStr name) (PyFile read s)
          chunk_size coll0
        = (Raise e, coll')
        /\ find_one (by_id fid) (files coll')
           = Some (final_doc (new_doc fid Cb (Some name) None None) [] now)
        /\ docs (chunks coll') = docs (chunks coll0)
        /\ GridOut.read coll' (Datatypes.S fuel) (-1) (GridOut.__init__ (Some fid) None)
           = (Return [], r')).
Proof.
  intros C Cb Hfresh. split.
  - intros HC Hread.
    destruct (close_new_writer coll0 fid C fname ctype enc now HC Hfresh)
      as (w2 & Hcl & Hfile & Hch & Hfl).
    set (f0 := new_doc fid C fname ctype enc) in *.
    pose proof (uploaded_file_found coll0 (GridIn.coll w2) f0 [] now Hfresh Hfl) as Hfound.
    destruct (read_all_uploaded coll0 (GridIn.coll w2) f0 [] now (Datatypes.S fuel)
                (GridOut.__init__ (Some fid) None) Hfresh HC) as (r' & Hrd).
    { rewrite Hch. change (len (@nil byte)) with 0. simpl FileDoc.chunkSize.
      rewrite ceil_div_zero by exact HC. simpl. symmetry. apply app_nil_r. }
    { right. split; [reflexivity |]. exists fid. split; [reflexivity | exact Hfound]. }
    { reflexivity. } { reflexivity. } { change (len (@nil byte)) with 0. lia. }
    exists (GridIn.coll w2), r'.
    split; [| split; [exact Hfound | split; [exact Hch | exact Hrd]]].
    unfold MockGridFS.put. rewrite init_chunk_size. fold C.
    apply on_writer_run.
    erewrite bind_Raise; [reflexivity |].
    eapply try_finally_run; [| discriminate | exact Hcl].
    apply write_first_read_fails with (s' := s'); [reflexivity | reflexivity | exact Hread].
  - intros HC Hread.
    destruct (close_new_writer coll0 fid Cb (Some name) None None now HC Hfresh)
      as (w2 & Hcl & Hfile & Hch & Hfl).
    set (f0 := new_doc fid Cb (Some name) None None) in *.
    pose proof (uploaded_file_found coll0 (GridIn.coll w2) f0 [] now Hfresh Hfl) as Hfound.
    destruct (read_all_uploaded coll0 (GridIn.coll w2) f0 [] now (Datatypes.S fuel)
                (GridOut.__init__ (Some fid) None) Hfresh HC) as (r' & Hrd).
    { rewrite Hch. change (len (@nil byte)) with 0. simpl FileDoc.chunkSize.
      rewrite ceil_div_zero by exact HC. simpl. symmetry. apply app_nil_r. }
    { right. split; [reflexivity |]. exists fid. split; [reflexivity | exact Hfound]. }
    { reflexivity. } { reflexivity. } { change (len (@nil byte)) with 0. lia. }
    exists (GridIn.coll w2), r'.
    split; [| split; [exact Hfound | split; [exact Hch | exact Hrd]]].
    unfold GridFSBucket.upload_from_stream, GridFSBucket.open_upload_stream, validate_string.
    msimpl. fold Cb.
    apply on_writer_run.
    erewrite bind_Raise; [reflexivity |].
    eapply with_statement_run; [| discriminate | apply exit_run; exact Hcl].
    apply write_first_read_fails with (s' := s'); [reflexivity | reflexivity | exact Hread].
Qed.

Lemma ceil_div_le (a c : Z) : 0 < c -> 0 <= a -> ceil_div a c <= a.
Proof.
  intros Hc Ha. destruct (ceil_div_bounds a c Hc Ha) as (H0 & H1 & H2). nia.
Qed.

Lemma concat_chunks_prefix (C : Z) (B : bytes) (k : nat) :
  0 < C ->
  List.concat (map (fun i => chunk_of C B (Z.of_nat i)) (seq 0 k)) = take (Z.of_nat k * C) B.
Proof.
  intros HC. induction k as [| k IH].
  - simpl. rewrite take_nonpos by lia. reflexivity.
  - rewrite seq_S, map_app, concat_app, IH. cbn [map List.concat Nat.add].
    rewrite app_nil_r. unfold chunk_of.
    rewrite take_app_drop by nia. f_equal. lia.
Qed.

Lemma stored_chunks_holds coll f B (k : nat) :
  holds_chunks coll f B ->
  Z.of_nat k <= ceil_div (len B) (FileDoc.chunkSize f) ->
  stored_chunks coll (FileDoc._id f) 0 k
  = map (fun i => chunk_of (FileDoc.chunkSize f) B (Z.of_nat i)) (seq 0 k)
  /\ forall i, (i < k)%nat ->
       find_one (by_files_id_n (FileDoc._id f) (Z.of_nat i)) (chunks coll) <> None.
Proof.
  intros (HC & HL & Hchunks) Hk.
  pose proof (len_nonneg B) as HB.
  destruct (ceil_div_bounds (len B) _ HC HB) as (H0 & H1 & H2).
  assert (Hin : forall i, (i < k)%nat ->
            exists c, find_one (by_files_id_n (FileDoc._id f) (Z.of_nat i)) (chunks coll) = Some c
                      /\ ChunkDoc.data c = chunk_of (FileDoc.chunkSize f) B (Z.of_nat i)).
  { intros i Hi. apply Hchunks; [lia | nia]. }
  split.
  - unfold stored_chunks. apply map_ext_in. intros i Hi. apply in_seq in Hi.
    destruct (Hin i ltac:(lia)) as (c & Hc & Hd).
    unfold chunk_data_at. rewrite Hc. exact Hd.
  - intros i Hi. destruct (Hin i Hi) as (c & Hc & _). rewrite Hc. discriminate.
Qed.

(** X12: what [upload_from_stream] stores, [download_to_stream] gives
    back. *)
Theorem upload_then_download_gives_the_bytes_back bucket coll0 fid name B chunk_size now fuel :
  let C := match chunk_size with
           | Some c => c
           | None => GridFSBucket._chunk_size_bytes bucket
           end in
  0 < C -> fresh_id coll0 fid -> len B < Z.of_nat fuel ->
  exists coll',
    GridFSBucket.upload_from_stream bucket fuel now fid (PyStr name) (PyBytes B)
      chunk_size coll0
    = (Return fid, coll')
    /\ GridFSBucket.download_to_stream bytesio_write coll' fuel fid BytesIO.empty
       = (Return tt, BytesIO.mk B (len B)).
Proof.
  intros C HC Hfresh Hfuel.
  destruct (write_then_close coll0 fid C (Some name) None None B now fuel HC Hfresh Hfuel)
    as (w1 & w2 & Hw & _ & Hcl & Hclosed & Hfile & Hch & Hfl).
  set (f0 := new_doc fid C (Some name) None None) in *.
  set (f := final_doc f0 B now) in *.
  pose proof (uploaded_file_found coll0 (GridIn.coll w2) f0 B now Hfresh Hfl) as Hfound.
  pose proof (uploaded_holds_content coll0 (GridIn.coll w2) f0 B now Hfresh HC Hch)
    as [Hhold _].
  fold f in Hfound, Hhold.
  pose proof (len_nonneg B) as HB.
  pose proof (holds_chunks_length _ _ _ Hhold) as HL.
  change (FileDoc.chunkSize f0) with C in *.
  assert (HCf : FileDoc.chunkSize f = C) by reflexivity.
  assert (Hidf : FileDoc._id f = fid) by reflexivity.
  destruct (ceil_div_bounds (len B) C HC HB) as (H0 & H1 & H2).
  pose proof (ceil_div_le (len B) C HC HB) as Hle.
  set (count := Z.to_nat (ceil_div (len B) C)).
  destruct (stored_chunks_holds (GridIn.coll w2) f B count Hhold) as [Hstored Hall].
  { rewrite HCf. unfold count. lia. }
  exists (GridIn.coll w2). split.
  - unfold GridFSBucket.upload_from_stream, GridFSBucket.open_upload_stream, validate_string.
    msimpl. fold C.
    apply on_writer_run.
    rewrite (bind_Return _ _ _ _ _
               (with_statement_run _ _ _ _ _ _ Hw ltac:(discriminate) (exit_run _ _ _ Hcl))).
    unfold GridIn._id. rewrite getter_run by (left; reflexivity).
    rewrite Hfile. reflexivity.
  - rewrite (download_to_stream_run bytesio_write (GridIn.coll w2) fid f fuel
               BytesIO.empty Hfound).
    + rewrite HL, HCf. fold count. rewrite Hstored, HCf.
      change BytesIO.empty with (BytesIO.mk [] (len (@nil byte))).
      rewrite write_all_bytesio. cbn [app].
      rewrite concat_chunks_prefix by exact HC.
      rewrite take_all by (unfold count; lia). reflexivity.
    + rewrite HCf. lia.
    + rewrite HL, HCf. exact Hall.
    + rewrite HL, HCf. fold count. unfold count. lia.
Qed.

(* ===================================================================== *)
(** ** abort, the properties of the writer, delete and rename *)
(* ===================================================================== *)

Lemma remove_first_none {D : Type} (p : D -> bool) (l : list D) :
  (forall x, In x l -> p x = false) -> remove_first p l = l.
Proof.
  induction l as [| d l IH]; intros H; [reflexivity |].
  simpl. rewrite (H d (or_introl eq_refl)). f_equal. apply IH.
  intros x Hx. apply H. right. exact Hx.
Qed.

Lemma remove_first_app_last {D : Type} (p : D -> bool) (l : list D) (d : D) :
  (forall x, In x l -> p x = false) -> p d = true -> remove_first p (l ++ [d]) = l.
Proof.
  induction l as [| y l IH]; intros H Hd; simpl.
  - rewrite Hd. reflexivity.
  - rewrite (H y (or_introl eq_refl)). f_equal. apply IH; [| exact Hd].
    intros x Hx. apply H. right. exact Hx.
Qed.

Lemma update_first_app_last {D : Type} (p : D -> bool) (g : D -> D) (l : list D) (d : D) :
  (forall x, In x l -> p x = false) -> p d = true ->
  update_first p g (l ++ [d]) = l ++ [g d].
Proof.
  induction l as [| y l IH]; intros H Hd; simpl.
  - rewrite Hd. reflexivity.
  - rewrite (H y (or_introl eq_refl)). f_equal. apply IH; [| exact Hd].
    intros x Hx. apply H. right. exact Hx.
Qed.


Lemma fresh_files coll fid :
  fresh_id coll fid -> forall x, In x (docs (files coll)) -> by_id fid x = false.
Proof.
  intros [_ H] x Hx. unfold by_id. apply Z.eqb_neq. apply H. exact Hx.
Qed.

Lemma fresh_chunks coll fid :
  fresh_id coll fid -> forall x, In x (docs (chunks coll)) -> by_files_id fid x = false.
Proof.
  intros [H _] x Hx. unfold by_files_id. apply Z.eqb_neq. apply H. exact Hx.
Qed.

Lemma chunk_docs_by_files_id fid C B k :
  forall x, In x (chunk_docs fid C B k) -> by_files_id fid x = true.
Proof.
  intros x Hx. destruct (in_chunk_docs fid C B k x Hx) as (H & _).
  unfold by_files_id. rewrite H. apply Z.eqb_refl.
Qed.

(** Deleting the chunks of [fid] from a store that had none before the
    upload leaves the chunks it had. *)
Lemma delete_uploaded_chunks coll0 fid C B k (l : list ChunkDoc.t) :
  fresh_id coll0 fid ->
  l = docs (chunks coll0) ++ chunk_docs fid C B k ->
  List.filter (fun d => negb (by_files_id fid d)) l = docs (chunks coll0).
Proof.
  intros Hfresh ->. rewrite filter_app.
  rewrite (filter_all _ (docs (chunks coll0))).
  - rewrite filter_none; [apply app_nil_r |].
    intros x Hx. rewrite (chunk_docs_by_files_id _ _ _ _ x Hx). reflexivity.
  - intros x Hx. rewrite (fresh_chunks _ _ Hfresh x Hx). reflexivity.
Qed.

Lemma find_fresh_files coll0 fid (l : list FileDoc.t) :
  fresh_id coll0 fid -> l = docs (files coll0) -> List.find (by_id fid) l = None.
Proof.
  intros Hfresh ->. apply find_none_all. apply fresh_files. exact Hfresh.
Qed.

Lemma write_closed fuel data w :
  GridIn._closed (GridIn.self w) = true ->
  GridIn.write fuel data w = (Raise (ValueError "cannot write to a closed file"), w).
Proof.
  intros H. unfold GridIn.write. rewrite (bind_Return _ _ _ _ _ (closed_run w)).
  rewrite H. reflexivity.
Qed.

Lemma close_closed now w :
  GridIn._closed (GridIn.self w) = true -> GridIn.close now w = (Return tt, w).
Proof.
  intros H. unfold GridIn.close. rewrite (bind_Return _ _ _ _ _ (closed_run w)).
  rewrite H. reflexivity.
Qed.

Lemma writes_run coll0 fid C fname ctype enc parts fuel :
  let f0 := new_doc fid C fname ctype enc in
  let w0 := GridIn.mkState (GridIn.__init__ fid (Some C) fname ctype enc) coll0 in
  0 < C -> fresh_id coll0 fid -> len (List.concat parts) < Z.of_nat fuel ->
  exists w1,
    GridIn.writelines fuel (write_calls parts) w0 = (Return tt, w1)
    /\ writer_inv f0 coll0 (List.concat parts) w1.
Proof.
  intros f0 w0 HC Hfresh Hfuel.
  destruct (writelines_spec f0 coll0 fuel Hfresh HC parts [] w0
              (writer_inv_init coll0 fid C fname ctype enc HC) Hfuel) as (w1 & Hw & Hinv).
  exists w1. split; [exact Hw | exact Hinv].
Qed.

(** X13: [abort] after any number of writes.  The documents of both
    collections are those from before the upload, a later [write] raises
    [ValueError] and a later [close] does nothing. *)
Theorem abort_undoes_the_upload coll0 fid C fname ctype enc parts data now fuel :
  let w0 := GridIn.mkState (GridIn.__init__ fid (Some C) fname ctype enc) coll0 in
  0 < C -> fresh_id coll0 fid -> len (List.concat parts) < Z.of_nat fuel ->
  exists w1 w2,
    GridIn.writelines fuel (write_calls parts) w0 = (Return tt, w1)
    /\ GridIn.abort w1 = (Return tt, w2)
    /\ docs (chunks (GridIn.coll w2)) = docs (chunks coll0)
    /\ docs (files (GridIn.coll w2)) = docs (files coll0)
    /\ GridIn.write fuel data w2
       = (Raise (ValueError "cannot write to a closed file"), w2)
    /\ GridIn.close now w2 = (Return tt, w2).
Proof.
  intros w0 HC Hfresh Hfuel.
  destruct (writes_run coll0 fid C fname ctype enc parts fuel HC Hfresh Hfuel)
    as (w1 & Hw & Hinv).
  destruct Hinv as (Hcl & Hfile & Hbuf & Hpos & Hnum & Hch & Hfl).
  exists w1. eexists. split; [exact Hw |]. split; [apply abort_run |].
  rewrite Hfile. cbn [GridIn.coll chunks files delete_many delete_one docs
                      FileDoc._id FileDoc.set_md5 new_doc].
  split; [| split; [| split]].
  - eapply delete_uploaded_chunks; [exact Hfresh | exact Hch].
  - rewrite Hfl. apply remove_first_none. apply fresh_files. exact Hfresh.
  - apply write_closed. reflexivity.
  - apply close_closed. reflexivity.
Qed.



Lemma setter_open assign w :
  GridIn._closed (GridIn.self w) = false ->
  GridIn.setter assign w
  = (Return tt, GridIn.on_self (fun g => GridIn.set_file (assign (GridIn._file g)) g) w).
Proof.
  intros H. unfold GridIn.setter.
  rewrite (bind_Return _ _ _ _ _ (closed_run w)). rewrite H. msimpl. reflexivity.
Qed.

Lemma setter_closed assign w :
  GridIn._closed (GridIn.self w) = true ->
  GridIn.setter assign w
  = (Return tt,
     GridIn.on_self (fun g => GridIn.set_file (assign (GridIn._file g)) g)
       (GridIn.on_coll
          (fun r => set_files (update_one (by_id (FileDoc._id (GridIn._file (GridIn.self w))))
                                 assign (files r)) r) w)).
Proof.
  intros H. unfold GridIn.setter.
  rewrite (bind_Return _ _ _ _ _ (closed_run w)). rewrite H.
  unfold GridIn.file_id. rewrite bind_assoc. msimpl. reflexivity.
Qed.

Lemma writer_inv_set_filename f0 coll0 T w name :
  writer_inv f0 coll0 T w ->
  writer_inv (FileDoc.set_filename name f0) coll0 T
    (GridIn.on_self (fun g => GridIn.set_file (FileDoc.set_filename name (GridIn._file g)) g) w).
Proof.
  unfold writer_inv, writer_at.
  intros (Hcl & Hfile & Hbuf & Hpos & Hnum & Hch & Hfl).
  cbn [GridIn.on_self GridIn.self GridIn.coll GridIn.set_file GridIn._closed GridIn._file
       GridIn._buffer GridIn._position GridIn._chunk_number
       FileDoc.set_filename FileDoc.chunkSize FileDoc._id].
  rewrite Hfile.
  split; [exact Hcl |]. split; [reflexivity |]. split; [exact Hbuf |].
  split; [exact Hpos |]. split; [exact Hnum |]. split; [exact Hch | exact Hfl].
Qed.

(** X16: naming the file before closing it or afterwards comes to the same
    stored record, and to the same document on the writer: before, the name
    goes into the document that [close] inserts; afterwards, it is written
    through to the stored record. *)
Theorem filename_may_be_assigned_before_or_after_close
    coll0 fid C fname ctype enc B name now fuel :
  let w0 := GridIn.mkState (GridIn.__init__ fid (Some C) fname ctype enc) coll0 in
  let stored := final_doc (new_doc fid C (Some name) ctype enc) B now in
  0 < C -> fresh_id coll0 fid -> len B < Z.of_nat fuel ->
  exists w1 wa wb,
    GridIn.write fuel (PyBytes B) w0 = (Return tt, w1)
    /\ (GridIn.assign_filename name ;;; GridIn.close now) w1 = (Return tt, wa)
    /\ (GridIn.close now ;;; GridIn.assign_filename name) w1 = (Return tt, wb)
    /\ docs (files (GridIn.coll wa)) = docs (files coll0) ++ [stored]
    /\ docs (files (GridIn.coll wb)) = docs (files coll0) ++ [stored]
    /\ GridIn._file (GridIn.self wa) = stored
    /\ GridIn._file (GridIn.self wb) = stored
    /\ docs (chunks (GridIn.coll wa)) = docs (chunks (GridIn.coll wb)).
Proof.
  intros w0 stored HC Hfresh Hfuel.
  destruct (write_then_close coll0 fid C fname ctype enc B now fuel HC Hfresh Hfuel)
    as (w1 & w2 & Hw & Hinv & Hcl & Hclosed & Hfile & Hch & Hfl).
  set (f0 := new_doc fid C fname ctype enc) in *.
  pose proof (writer_inv_set_filename f0 coll0 B w1 name Hinv) as Hinv'.
  destruct (close_spec (FileDoc.set_filename name f0) coll0 B now _ Hfresh HC Hinv')
    as (wa & Hcla & _ & Hfilea & Hcha & Hfla).
  exists w1, wa. eexists.
  split; [exact Hw |]. split; [| split].
  - unfold GridIn.assign_filename.
    rewrite (bind_Return _ _ _ _ _ (setter_open _ w1 (proj1 Hinv))). exact Hcla.
  - rewrite (bind_Return _ _ _ _ _ Hcl). unfold GridIn.assign_filename.
    apply setter_closed. exact Hclosed.
  - cbn [GridIn.on_self GridIn.on_coll GridIn.self GridIn.coll GridIn.set_file GridIn._file
         files chunks set_files update_one docs].
    rewrite Hfile, Hfl, Hfla, Hfilea, Hcha, Hch.
    split; [reflexivity |]. split; [| split; [reflexivity | split; reflexivity]].
    rewrite update_first_app_last.
    + reflexivity.
    + apply fresh_files. exact Hfresh.
    + unfold by_id. apply Z.eqb_refl.
Qed.

(** X17: deleting a file that was just put.  Both [delete] methods leave
    the two collections with the documents they held before the [put], and
    [get] raises [NoFile]; deleting once more does nothing in [MockGridFS]
    and raises [NoFile] in [GridFSBucket]. *)
Theorem delete_undoes_put coll0 fid chunk_size fname ctype enc B now fuel :
  0 < chunk_size_or_default chunk_size ->
  fresh_id coll0 fid ->
  len B < Z.of_nat fuel ->
  exists coll1 coll2 coll3,
    MockGridFS.put fuel now (PyBytes B) fid chunk_size fname ctype enc coll0
    = (Return fid, coll1)
    /\ MockGridFS.delete fid coll1 = (Return tt, coll2)
    /\ GridFSBucket.delete fid coll1 = (Return tt, coll2)
    /\ docs (files coll2) = docs (files coll0)
    /\ docs (chunks coll2) = docs (chunks coll0)
    /\ MockGridFS.get fid coll2 = (Raise (NoFile (Some fid)), coll2)
    /\ MockGridFS.delete fid coll2 = (Return tt, coll3)
    /\ GridFSBucket.delete fid coll2 = (Raise (NoFile (Some fid)), coll3)
    /\ docs (files coll3) = docs (files coll0)
    /\ docs (chunks coll3) = docs (chunks coll0).
Proof.
  intros HC Hfresh Hfuel.
  set (C := chunk_size_or_default chunk_size) in *.
  destruct (write_then_close coll0 fid C fname ctype enc B now fuel HC Hfresh Hfuel)
    as (w1 & w2 & Hw & _ & Hcl & Hclosed & Hfile & Hch & Hfl).
  set (f0 := new_doc fid C fname ctype enc) in *.
  pose proof (uploaded_file_found coll0 (GridIn.coll w2) f0 B now Hfresh Hfl) as Hfound.
  change (FileDoc._id f0) with fid in Hfound.
  set (coll1 := GridIn.coll w2) in *.
  set (coll2 := mkRoot (delete_one (by_id fid) (files coll1))
                       (delete_many (by_files_id fid) (chunks coll1))).
  set (coll3 := mkRoot (delete_one (by_id fid) (files coll2))
                       (delete_many (by_files_id fid) (chunks coll2))).
  assert (Hf2 : docs (files coll2) = docs (files coll0)).
  { unfold coll2. cbn [files delete_one docs]. rewrite Hfl.
    apply remove_first_app_last; [apply fresh_files; exact Hfresh |].
    unfold by_id. apply Z.eqb_refl. }
  assert (Hc2 : docs (chunks coll2) = docs (chunks coll0)).
  { unfold coll2. cbn [chunks delete_many docs].
    eapply delete_uploaded_chunks; [exact Hfresh | exact Hch]. }
  assert (Hnone : find_one (by_id fid) (files coll2) = None).
  { unfold find_one. eapply find_fresh_files; [exact Hfresh | exact Hf2]. }
  exists coll1, coll2, coll3.
  split; [| split; [| split; [| split; [| split; [| split; [| split; [| split; [| split]]]]]]]].
  - unfold MockGridFS.put. rewrite init_chunk_size. fold C.
    apply on_writer_run.
    rewrite (bind_Return _ _ _ _ _
               (try_finally_run _ _ _ _ _ _ Hw ltac:(discriminate) Hcl)).
    unfold GridIn._id. rewrite getter_run by (left; reflexivity).
    rewrite Hfile. reflexivity.
  - reflexivity.
  - unfold GridFSBucket.delete. msimpl. unfold deleted_count. rewrite Hfound. reflexivity.
  - exact Hf2.
  - exact Hc2.
  - apply get_missing. exact Hnone.
  - reflexivity.
  - unfold GridFSBucket.delete. msimpl. unfold deleted_count. rewrite Hnone. reflexivity.
  - unfold coll3. cbn [files delete_one docs]. rewrite Hf2.
    apply remove_first_none. apply fresh_files. exact Hfresh.
  - unfold coll3. cbn [chunks delete_many docs]. rewrite Hc2.
    apply filter_all. intros x Hx. rewrite (fresh_chunks _ _ Hfresh x Hx). reflexivity.
Qed.


(* ===================================================================== *)
(** ** readchunk, and downloads against reads *)
(* ===================================================================== *)

(** X19: [readchunk] hands out the content piece by piece: the look-ahead
    buffer if there is one, else what is left of the chunk under the cursor;
    the cursor moves behind the piece; at the end of the file the piece is
    empty. *)
Theorem readchunk_walks_the_content coll f B r :
  let q := GridOut.__position r in
  holds_chunks coll f B ->
  GridOut._file r = Some f ->
  lookahead_of B r ->
  0 <= q ->
  exists d,
    GridOut.readchunk coll r
    = (Return d, GridOut.mk (GridOut.__file_id r) [] (q + len d) (Some f))
    /\ d = take (len d) (drop q B)
    /\ (GridOut.__buffer r <> [] -> d = GridOut.__buffer r)
    /\ (GridOut.__buffer r = [] -> q < len B ->
        d = drop (q mod FileDoc.chunkSize f)
              (chunk_of (FileDoc.chunkSize f) B (q / FileDoc.chunkSize f))
        /\ 0 < len d)
    /\ (GridOut.__buffer r = [] -> len B <= q -> d = []).
Proof.
  intros q Hc Hf Hb Hq.
  destruct (GridOut.__buffer r) as [| x b] eqn:Hbuf.
  - destruct (Z_lt_ge_dec q (len B)) as [Hlt | Hge].
    + destruct (readchunk_fetch coll f B r Hc Hf Hbuf) as [Hrc Hpos]; [fold q; lia |].
      fold q in Hrc, Hpos. cbv zeta in Hrc, Hpos.
      set (d := take (FileDoc.chunkSize f - q mod FileDoc.chunkSize f) (drop q B)) in *.
      exists d. split; [exact Hrc |]. split; [| split; [| split]].
      * symmetry. unfold d. rewrite len_take. apply take_min_len_max.
      * intros H. congruence.
      * intros _ _. split; [| exact Hpos].
        unfold d. symmetry. apply chunk_of_tail; [apply Hc | exact Hq].
      * intros _ H. lia.
    + exists []. split; [| split; [| split; [| split]]].
      * unfold GridOut.readchunk. rewrite bind_gets. rewrite Hbuf.
        rewrite (bind_Return _ _ _ _ _ (chunk_size_resolved coll r f Hf)).
        change (0 <? len (@nil byte)) with false. cbv iota.
        mcut (Return (@nil byte)) r.
        { rewrite bind_gets.
          rewrite (bind_Return _ _ _ _ _ (length_resolved coll r f Hf)).
          rewrite (holds_chunks_length coll f B Hc). fold q.
          replace (q <? len B) with false by (symmetry; apply Z.ltb_ge; lia).
          reflexivity. }
        msimpl. unfold GridOut.set_buffer, GridOut.set_position. simpl.
        rewrite Hf. fold q. reflexivity.
      * reflexivity.
      * intros H. congruence.
      * intros _ H. lia.
      * reflexivity.
  - destruct (readchunk_piece coll f B r Hc Hf Hb Hq) as (d & Hrc & Hd0 & Hdle & Hd).
    { rewrite Hbuf. discriminate. }
    fold q in Hrc, Hd.
    assert (Hdb : d = x :: b).
    { rewrite (readchunk_buffered coll r f Hf) in Hrc by (rewrite Hbuf; discriminate).
      rewrite Hbuf in Hrc. inversion Hrc. reflexivity. }
    exists d. split; [exact Hrc |]. split; [exact Hd |].
    split; [intros _; exact Hdb |]. split; intros H; discriminate.
Qed.

(** X20: on a file whose chunks hold its content, a download and a read to
    the end give the same bytes. *)
Theorem download_agrees_with_read coll f B fid fuel :
  holds_content coll f B ->
  find_one (by_id fid) (files coll) = Some f ->
  len B < Z.of_nat fuel ->
  exists r',
    GridFSBucket.download_to_stream bytesio_write coll fuel fid BytesIO.empty
    = (Return tt, BytesIO.mk B (len B))
    /\ GridOut.read coll fuel (-1) (GridOut.__init__ (Some fid) None) = (Return B, r').
Proof.
  intros Hc Hfind Hfuel.
  pose proof (len_nonneg B) as HB.
  pose proof (holds_chunks_length _ _ _ (proj1 Hc)) as HL.
  pose proof (proj1 (proj1 Hc)) as HC.
  destruct (ceil_div_bounds (len B) _ HC HB) as (H0 & H1 & H2).
  pose proof (ceil_div_le (len B) _ HC HB) as Hle.
  set (count := Z.to_nat (ceil_div (len B) (FileDoc.chunkSize f))).
  destruct (stored_chunks_holds coll f B count (proj1 Hc)) as [Hstored Hall].
  { unfold count. lia. }
  destruct (read_spec coll f B (GridOut.__init__ (Some fid) None) (-1) fuel Hc)
    as (r' & Hread & _).
  { right. split; [reflexivity |]. exists fid. split; [reflexivity | exact Hfind]. }
  { exists 0. reflexivity. }
  { simpl. lia. }
  { lia. }
  { simpl. rewrite Z.sub_0_r. exact Hfuel. }
  exists r'. split.
  - rewrite (download_to_stream_run bytesio_write coll fid f fuel
               BytesIO.empty Hfind).
    + rewrite HL. fold count. rewrite Hstored.
      change BytesIO.empty with (BytesIO.mk [] (len (@nil byte))).
      rewrite write_all_bytesio. cbn [app].
      rewrite concat_chunks_prefix by exact HC.
      rewrite take_all by (unfold count; lia). reflexivity.
    + lia.
    + rewrite HL. exact Hall.
    + rewrite HL. fold count. unfold count. lia.
  - rewrite Hread. simpl. rewrite Z.sub_0_r.
    rewrite drop_nonpos by lia. rewrite take_all by lia. reflexivity.
Qed.

(* ===================================================================== *)
(** ** Binary *)
(* ===================================================================== *)

Lemma bytes_eqb_eq (a b : bytes) : bytes_eqb a b = true <-> a = b.
Proof.
  revert b. induction a as [| x a IH]; destruct b as [| y b]; simpl;
    try (split; [discriminate | congruence]); [tauto |].
  rewrite andb_true_iff, IH. split.
  - intros [H ->]. apply Byte.byte_dec_bl in H. congruence.
  - intros H. inversion H. split; [apply Byte.byte_dec_lb |]; reflexivity.
Qed.

(** X21: a [Binary] that was built has its subtype in [0, 256); built
    again from its [__getnewargs__] it is the same value and equal to the
    first; it is never equal to the plain [bytes] object it wraps; [__ne__]
    is the negation of [__eq__]; equal ones hash alike. *)
Theorem binary_round_trip_and_equality (d s : Binary.pyobject) (b : Binary.t) :
  Binary.__new__ d s = Return b ->
  0 <= Binary.subtype b < 256
  /\ Binary.__new__ (fst (Binary.__getnewargs__ b)) (snd (Binary.__getnewargs__ b)) = Return b
  /\ Binary.__eq__ b (Binary.Bin b) = true
  /\ Binary.__eq__ b (Binary.Bytes (Binary.data b)) = false
  /\ (forall o, Binary.__ne__ b o = negb (Binary.__eq__ b o))
  /\ (forall c hash_bytes,
        Binary.__eq__ b (Binary.Bin c) = true ->
        b = c /\ Binary.__hash__ hash_bytes b = Binary.__hash__ hash_bytes c).
Proof.
  intros Hnew. unfold Binary.__new__ in Hnew.
  destruct (Binary.as_bytes d) as [bs |]; [| discriminate].
  destruct s as [| z | |]; try discriminate.
  destruct ((256 <=? z) || (z <? 0)) eqn:Hr; [discriminate |].
  inversion Hnew; subst b. clear Hnew.
  apply orb_false_iff in Hr. destruct Hr as [H1 H2].
  apply Z.leb_gt in H1. apply Z.ltb_ge in H2.
  split; [simpl; lia |]. split; [| split; [| split; [| split]]].
  - unfold Binary.__new__. simpl.
    replace (256 <=? z) with false by (symmetry; apply Z.leb_gt; lia).
    replace (z <? 0) with false by (symmetry; apply Z.ltb_ge; lia).
    reflexivity.
  - unfold Binary.__eq__, Binary.subtype. simpl. rewrite Z.eqb_refl.
    apply bytes_eqb_eq. reflexivity.
  - reflexivity.
  - reflexivity.
  - intros [cd cs] hash_bytes Heq. unfold Binary.__eq__, Binary.subtype in Heq.
    simpl in Heq. apply andb_true_iff in Heq. destruct Heq as [Hs Hd].
    apply Z.eqb_eq in Hs. apply bytes_eqb_eq in Hd. subst. split; reflexivity.
Qed.

(* ===================================================================== *)
(** ** A failed close, and sources that answer short *)
(* ===================================================================== *)

Lemma flush_buffer_empties w w1 :
  GridIn.__flush_buffer w = (Return tt, w1) ->
  GridIn._buffer (GridIn.self w1) = BytesIO.empty.
Proof.
  unfold GridIn.__flush_buffer. rewrite bind_gets.
  unfold bind at 1.
  destruct (GridIn.__flush_data _ w) as [[[] | e |] w0]; intros H; inversion H.
  reflexivity.
Qed.

(** X22: [close] cannot be retried after it failed on the file record.
    When the chunks went through and the insert of the file document hits a
    duplicate key, [close] raises [FileExists] and leaves the writer open
    with its digest already turned into the hexadecimal string; a second
    [close] then fails on that string with [AttributeError], and the writer
    is still not closed. *)
Theorem close_cannot_be_retried_after_file_exists (w w1 : GridIn.state) (now later : Z) :
  let g := GridIn.self w in
  let fid := FileDoc._id (GridIn._file g) in
  GridIn._closed g = false ->
  live_md5 (GridIn._file g) ->
  GridIn.__flush_buffer w = (Return tt, w1) ->
  (exists d, In d (docs (files (GridIn.coll w))) /\ FileDoc._id d = fid) ->
  exists w' msg w'',
    GridIn.close now w = (Raise (FileExists fid), w')
    /\ (exists digest_of,
          FileDoc.md5 (GridIn._file (GridIn.self w')) = hex_string digest_of)
    /\ GridIn.close later w' = (Raise (AttributeError msg), w'')
    /\ GridIn._closed (GridIn.self w'') = false.
Proof.
  intros g fid Hcl Hlive Hfb (d & Hd & Hdid).
  pose proof (flush_buffer_keeps w _ w1 Hfb) as (Hcl1 & Hid1 & _ & _ & Hfl1 & Hlive1).
  pose proof (flush_buffer_empties w w1 Hfb) as Hbuf1.
  destruct (Hlive1 Hlive) as (fed1 & Hmd5).
  fold g in Hcl1. rewrite Hcl in Hcl1. fold g fid in Hid1.
  destruct w1 as [[f b p k c e] [[fd fi] [cd ci]]]. simpl in *. subst c fd b.
  set (f' := FileDoc.set_uploadDate now
               (FileDoc.set_length p (FileDoc.set_md5 (hex_string fed1) f))).
  set (w' := GridIn.mkState (GridIn.mk f' BytesIO.empty p k false e)
               (mkRoot (mkColl (docs (files (GridIn.coll w))) fi) (mkColl cd ci))).
  assert (Hclose1 : GridIn.close now w = (Raise (FileExists fid), w')).
  { unfold GridIn.close. rewrite (bind_Return _ _ _ _ _ (closed_run w)). fold g. rewrite Hcl.
    erewrite bind_Raise; [reflexivity |].
    unfold GridIn.__flush, try_except.
    rewrite (bind_Return _ _ _ _ _ Hfb).
    unfold GridIn.md5_finish, GridIn.on_md5, GridIn.files_insert_one, insert_one,
      bind, gets, modify. simpl. rewrite Hmd5. simpl.
    replace (existsb _ (docs (files (GridIn.coll w)))) with true.
    - unfold GridIn.file_id, GridIn._raise_file_exists, gets, raise. simpl.
      rewrite Hid1. reflexivity.
    - symmetry. apply existsb_exists. exists d. split; [exact Hd |].
      unfold files_clash. simpl. apply Z.eqb_eq. congruence. }
  destruct (ensure_indexes_run w') as (i1 & i2 & Hens).
  exists w'. eexists. eexists.
  split; [exact Hclose1 |]. split; [exists fed1; reflexivity |]. split.
  - unfold GridIn.close. rewrite (bind_Return _ _ _ _ _ (closed_run w')).
    change (GridIn._closed (GridIn.self w')) with false. cbv iota.
    erewrite bind_Raise; [reflexivity |].
    unfold GridIn.__flush, try_except.
    erewrite bind_Raise.
    2:{ unfold GridIn.__flush_buffer. rewrite bind_gets.
        erewrite bind_Raise; [reflexivity |].
        change (BytesIO.getvalue (GridIn._buffer (GridIn.self w'))) with (@nil byte).
        unfold GridIn.__flush_data.
        rewrite (bind_Return _ _ _ _ _ Hens).
        erewrite bind_Raise; [reflexivity |].
        unfold GridIn.md5_update, GridIn.on_md5. simpl. reflexivity. }
    unfold GridIn.file_id. rewrite bind_gets. reflexivity.
  - reflexivity.
Qed.

(** X23: a read of the source that answers fewer bytes than it was asked
    for ends the [write]: the bytes go to the buffer, nothing is flushed,
    and the source is not read again, whatever it still holds. *)
Theorem write_stops_at_the_first_short_read {S : Type} (read : Z -> M S bytes)
    (s s1 : S) (w : GridIn.state) (d : bytes) (fuel : nat) :
  let g := GridIn.self w in
  let pos := BytesIO.tell (GridIn._buffer g) in
  let C := FileDoc.chunkSize (GridIn._file g) in
  let w' := GridIn.on_self
              (fun g => GridIn.set_buffer (BytesIO.write d (GridIn._buffer g)) g) w in
  GridIn._closed g = false ->
  0 <= pos < C ->
  read (C - pos) s = (Return d, s1) ->
  len d < C - pos ->
  (0 < fuel)%nat ->
  GridIn.write_stream read fuel (s, w) = (Return tt, (s1, w'))
  /\ GridIn.write fuel (PyFile read s) w = (Return tt, w').
Proof.
  intros g pos C w' Hcl Hpos Hread Hshort Hfuel.
  assert (Hstream : GridIn.write_stream read fuel (s, w) = (Return tt, (s1, w'))).
  { unfold GridIn.write_stream.
    destruct (Z.eq_dec pos 0) as [H0 | Hn0].
    - rewrite (bind_Return _ _ _ _ _ (write_topup_idle_any read s w H0)).
      rewrite (bind_Return _ _ _ _ _ (chunk_size_run s w)). fold g C.
      replace C with (C - pos) by lia.
      rewrite (bind_Return _ _ _ _ _ (call_read_run read _ s w _ s1 Hread)).
      destruct fuel as [| fuel]; [lia |]. cbn [GridIn.write_loop].
      rewrite bind_assoc.
      rewrite (bind_Return _ _ _ _ _ (chunk_size_run s1 w)). fold g C.
      replace (len d =? C) with false by (symmetry; apply Z.eqb_neq; lia).
      rewrite andb_false_r. msimpl.
      unfold GridIn.buffer_write. apply liftW_run. reflexivity.
    - erewrite bind_Return.
      2:{ unfold GridIn.write_topup.
          rewrite (bind_Return _ _ _ _ _ (tell_run s w)). fold g pos.
          replace (0 <? pos) with true by (symmetry; apply Z.ltb_lt; lia).
          rewrite (bind_Return _ _ _ _ _ (chunk_size_run s w)). fold g C. cbv zeta.
          replace (C - pos =? 0) with false by (symmetry; apply Z.eqb_neq; lia).
          erewrite bind_Return.
          2:{ unfold try_except. rewrite (call_read_run read _ s w _ s1 Hread). reflexivity. }
          erewrite bind_Return.
          2:{ unfold GridIn.buffer_write. apply liftW_run. reflexivity. }
          replace (len d <? C - pos) with true by (symmetry; apply Z.ltb_lt; lia).
          reflexivity. }
      reflexivity. }
  split; [exact Hstream |].
  apply write_file_run with (s' := s1); [exact Hcl | exact Hstream].
Qed.

(** What [close] on the way out leaves when the [write] of a new writer
    raised without touching anything. *)
Lemma close_after_failed_write coll0 fid C fname ctype enc data e now fuel :
  let w0 := GridIn.mkState (GridIn.__init__ fid (Some C) fname ctype enc) coll0 in
  0 < C -> fresh_id coll0 fid ->
  GridIn.write fuel data w0 = (Raise e, w0) ->
  exists w2 r',
    try_finally (GridIn.write fuel data) (GridIn.close now) w0 = (Raise e, w2)
    /\ with_statement (GridIn.write fuel data) (GridIn.__exit__ now) w0 = (Raise e, w2)
    /\ find_one (by_id fid) (files (GridIn.coll w2))
       = Some (final_doc (new_doc fid C fname ctype enc) [] now)
    /\ docs (chunks (GridIn.coll w2)) = docs (chunks coll0)
    /\ GridOut.read (GridIn.coll w2) (S fuel) (-1) (GridOut.__init__ (Some fid) None)
       = (Return [], r').
Proof.
  intros w0 HC Hfresh Hwrite.
  destruct (close_new_writer coll0 fid C fname ctype enc now HC Hfresh)
    as (w2 & Hcl & Hfile & Hch & Hfl).
  set (f0 := new_doc fid C fname ctype enc) in *.
  pose proof (uploaded_file_found coll0 (GridIn.coll w2) f0 [] now Hfresh Hfl) as Hfound.
  destruct (read_all_uploaded coll0 (GridIn.coll w2) f0 [] now (S fuel)
              (GridOut.__init__ (Some fid) None) Hfresh HC) as (r' & Hrd).
  { rewrite Hch. change (len (@nil byte)) with 0. simpl FileDoc.chunkSize.
    rewrite ceil_div_zero by exact HC. simpl. symmetry. apply app_nil_r. }
  { right. split; [reflexivity |]. exists fid. split; [reflexivity | exact Hfound]. }
  { reflexivity. } { reflexivity. } { change (len (@nil byte)) with 0. lia. }
  exists w2, r'.
  split; [| split; [| split; [exact Hfound | split; [exact Hch | exact Hrd]]]].
  - eapply try_finally_run; [exact Hwrite | discriminate | exact Hcl].
  - eapply with_statement_run; [exact Hwrite | discriminate | apply exit_run; exact Hcl].
Qed.

Lemma write_rejects_other fuel w :
  GridIn._closed (GridIn.self w) = false ->
  GridIn.write fuel PyOther w
  = (Raise (TypeError "can only write strings or file-like objects"), w).
Proof.
  intros H. unfold GridIn.write. rewrite (bind_Return _ _ _ _ _ (closed_run w)).
  rewrite H. reflexivity.
Qed.

Lemma write_rejects_text_without_encoding fuel encode w :
  GridIn._closed (GridIn.self w) = false ->
  FileDoc.encoding (GridIn._file (GridIn.self w)) = None ->
  GridIn.write fuel (PyText encode) w
  = (Raise (TypeError "must specify an encoding for file in order to write str"), w).
Proof.
  intros H He. unfold GridIn.write. rewrite (bind_Return _ _ _ _ _ (closed_run w)).
  rewrite H. cbv iota. rewrite bind_gets. rewrite He. reflexivity.
Qed.

(** X24: data that [write] refuses.  For data that is neither a string nor
    file-like, and for text when the file has no encoding, [put] raises the
    [TypeError] of [write], and the [close] on the way out has created an
    empty file all the same.  A bucket never gives its writer an encoding:
    [upload_from_stream] of a text raises that [TypeError] whatever the
    text, and leaves an empty file too. *)
Theorem refused_data_still_creates_a_file bucket coll0 fid chunk_size fname ctype enc
    name encode now fuel :
  let C := chunk_size_or_default chunk_size in
  let Cb := match chunk_size with
            | Some c => c
            | None => GridFSBucket._chunk_size_bytes bucket
            end in
  let reads_empty coll' :=
    exists r', GridOut.read coll' (S fuel) (-1) (GridOut.__init__ (Some fid) None)
               = (Return [], r') in
  fresh_id coll0 fid ->
  (0 < C ->
   exists coll',
     MockGridFS.put fuel now PyOther fid chunk_size fname ctype enc coll0
     = (Raise (TypeError "can only write strings or file-like objects"), coll')
     /\ find_one (by_id fid) (files coll')
        = Some (final_doc (new_doc fid C fname ctype enc) [] now)
     /\ reads_empty coll')
  /\ (0 < C ->
      exists coll',
        MockGridFS.put fuel now (PyText encode) fid chunk_size fname ctype None coll0
        = (Raise (TypeError "must specify an encoding for file in order to write str"),
           coll')
        /\ find_one (by_id fid) (files coll')
           = Some (final_doc (new_doc fid C fname ctype None) [] now)
        /\ reads_empty coll')
  /\ (0 < Cb ->
      exists coll',
        GridFSBucket.upload_from_stream bucket fuel now fid (PyStr name) (PyText encode)
          chunk_size coll0
        = (Raise (TypeError "must specify an encoding for file in order to write str"),
           coll')
        /\ find_one (by_id fid) (files coll')
           = Some (final_doc (new_doc fid Cb (Some name) None None) [] now)
        /\ reads_empty coll').
Proof.
  intros C Cb reads_empty Hfresh. split; [| split]; intros HC.
  - destruct (close_after_failed_write coll0 fid C fname ctype enc PyOther _ now fuel HC Hfresh
                (write_rejects_other fuel
                   (GridIn.mkState (GridIn.__init__ fid (Some C) fname ctype enc) coll0)
                   eq_refl))
      as (w2 & r' & Htf & _ & Hfound & _ & Hrd).
    exists (GridIn.coll w2). split; [| split; [exact Hfound | exists r'; exact Hrd]].
    unfold MockGridFS.put. rewrite init_chunk_size. fold C.
    apply on_writer_run. rewrite (bind_Raise _ _ _ _ _ Htf). reflexivity.
  - destruct (close_after_failed_write coll0 fid C fname ctype None (PyText encode) _ now fuel
                HC Hfresh
                (write_rejects_text_without_encoding fuel encode
                   (GridIn.mkState (GridIn.__init__ fid (Some C) fname ctype None) coll0)
                   eq_refl eq_refl))
      as (w2 & r' & Htf & _ & Hfound & _ & Hrd).
    exists (GridIn.coll w2). split; [| split; [exact Hfound | exists r'; exact Hrd]].
    unfold MockGridFS.put. rewrite init_chunk_size. fold C.
    apply on_writer_run. rewrite (bind_Raise _ _ _ _ _ Htf). reflexivity.
  - destruct (close_after_failed_write coll0 fid Cb (Some name) None None (PyText encode) _
                now fuel HC Hfresh
                (write_rejects_text_without_encoding fuel encode
                   (GridIn.mkState (GridIn.__init__ fid (Some Cb) (Some name) None None) coll0)
                   eq_refl eq_refl))
      as (w2 & r' & _ & Hws & Hfound & _ & Hrd).
    exists (GridIn.coll w2). split; [| split; [exact Hfound | exists r'; exact Hrd]].
    unfold GridFSBucket.upload_from_stream, GridFSBucket.open_upload_stream, validate_string.
    msimpl. fold Cb.
    apply on_writer_run. rewrite (bind_Raise _ _ _ _ _ Hws). reflexivity.
Qed.

(* ===================================================================== *)
(** ** The further statements at concrete inputs *)
(* ===================================================================== *)

Lemma holds_content_hello_store :
  holds_content hello_store (file7 (bytes_of "hello world")) (bytes_of "hello world").
Proof.
  split; [| exact I].
  split; [simpl; lia |]. split; [reflexivity |].
  intros i Hi Hlt. cbn in Hlt.
  assert (i = 0 \/ i = 1 \/ i = 2) as [-> | [-> | ->]] by lia;
    eexists; (split; [reflexivity | reflexivity]).
Qed.


Lemma holds_chunks_lines_store : holds_chunks lines_store (file7 lines_content) lines_content.
Proof.
  split; [simpl; lia |]. split; [reflexivity |].
  intros i Hi Hlt. cbn in Hlt.
  assert (i = 0 \/ i = 1) as [-> | ->] by lia;
    eexists; (split; [reflexivity | reflexivity]).
Qed.

Lemma consecutive_reads_continue_witness :
  exists x y r1 r2 r3,
    GridOut.read hello_store 20 3 reader7 = (Return x, r1)
    /\ GridOut.read hello_store 20 5 r1 = (Return y, r2)
    /\ GridOut.read hello_store 20 (3 + 5) reader7 = (Return (x ++ y), r3)
    /\ x = take 3 (drop 0 (bytes_of "hello world"))
    /\ y = take 5 (drop (0 + len x) (bytes_of "hello world"))
    /\ GridOut.__position r1 = 0 + len x
    /\ GridOut.__position r2 = 0 + len x + len y
    /\ GridOut.__position r3 = 0 + len x + len y.
Proof.
  apply (consecutive_reads_continue hello_store (file7 (bytes_of "hello world"))
           (bytes_of "hello world") reader7 3 5 20
           holds_content_hello_store (reader7_resolves _ _) (ex_intro _ 0 eq_refl));
    [vm_compute; split; discriminate | lia | lia | vm_compute; reflexivity].
Defined.

Lemma seek_then_read_gives_content_from_target_witness :
  exists r',
    (GridOut.seek hello_store (-5) _SEEK_END ;;; GridOut.read hello_store 20 (-1)) reader7
    = (Return (bytes_of "world"), r')
    /\ GridOut.__position r' = 11.
Proof.
  apply (seek_then_read_gives_content_from_target hello_store
           (file7 (bytes_of "hello world")) (bytes_of "hello world") reader7 (-5) _SEEK_END 20
           holds_content_hello_store (reader7_resolves _ _));
    [right; right; reflexivity | vm_compute; split; discriminate | vm_compute; reflexivity].
Defined.

Lemma refused_seek_keeps_cursor_and_buffer_witness :
  exists msg r',
    GridOut.seek hello_store (-20) _SEEK_END reader7 = (Raise (IOError 22 msg), r')
    /\ GridOut.__position r' = GridOut.__position reader7
    /\ GridOut.__buffer r' = GridOut.__buffer reader7.
Proof.
  apply (refused_seek_keeps_cursor_and_buffer hello_store reader7
           (file7 (bytes_of "hello world")) (-20) _SEEK_END (reader7_resolves _ _)).
  right. split; [right; right; reflexivity | vm_compute; reflexivity].
Defined.


Lemma unknown_file_empty_store : unknown_file empty_store reader7.
Proof. split; reflexivity. Qed.

Lemma unknown_file_raises_no_file_witness :
  GridOut.read empty_store 5 (-1) reader7 = (Raise (NoFile (Some 7)), reader7).
Proof.
  apply (proj1 (unknown_file_raises_no_file empty_store reader7 5 (-1) 0
                  unknown_file_empty_store)).
Defined.


Lemma readline_calls_answer_the_lines_witness :
  exists r',
    readline_calls lines_store 9 3 reader7
    = (Return (lines_of 3 (drop 0 lines_content)), r')
    /\ (len lines_content - 0 <= Z.of_nat 3 ->
        List.concat (lines_of 3 (drop 0 lines_content)) = drop 0 lines_content).
Proof.
  apply (readline_calls_answer_the_lines lines_store (file7 lines_content) lines_content 3
           holds_chunks_lines_store reader7 9
           (or_intror (conj eq_refl (ex_intro _ 7 (conj eq_refl eq_refl))))
           (ex_intro _ 0 eq_refl));
    [vm_compute; split; discriminate | vm_compute; reflexivity].
Defined.

Lemma hello_file_found :
  find_one (by_id 7) (files hello_store) = Some (file7 (bytes_of "hello world")).
Proof. reflexivity. Qed.

Lemma download_writes_each_stored_chunk_witness :
  GridFSBucket.download_to_stream bytesio_write hello_store 5 7 BytesIO.empty
  = write_all bytesio_write (stored_chunks hello_store 7 0 3) BytesIO.empty.
Proof.
  apply (proj1 (download_writes_each_stored_chunk bytesio_write hello_store 7
                  (file7 (bytes_of "hello world")) 5 BytesIO.empty hello_file_found
                  ltac:(simpl; lia)
                  ltac:(intros i Hi; change (i < 3)%nat in Hi;
                        assert (i = 0 \/ i = 1 \/ i = 2)%nat as [-> | [-> | ->]] by lia;
                        discriminate)
                  ltac:(vm_compute; lia))).
Defined.

Lemma download_stops_at_missing_chunk_witness :
  GridFSBucket.download_to_stream bytesio_write hello_store_without_chunk_1 5 7 BytesIO.empty
  = (write_all bytesio_write (stored_chunks hello_store_without_chunk_1 7 0 1) ;;;
     raise (CorruptGridFile (GridOut.no_chunk_message 1))) BytesIO.empty.
Proof.
  apply (download_stops_at_missing_chunk bytesio_write hello_store_without_chunk_1 7
           (file7 (bytes_of "hello world")) 1 5 BytesIO.empty eq_refl).
  - simpl. lia.
  - vm_compute. reflexivity.
  - intros i Hi. assert (i = 0)%nat as -> by lia. discriminate.
  - reflexivity.
  - lia.
Defined.

Lemma put_then_get_reads_back_witness :
  exists coll' gout r',
    MockGridFS.put 20 99 (PyBytes (bytes_of "hello world")) 7 (Some 4) None None None
      empty_store
    = (Return 7, coll')
    /\ MockGridFS.get 7 coll' = (Return gout, coll')
    /\ GridOut.read coll' 20 (-1) gout = (Return (bytes_of "hello world"), r').
Proof.
  apply (put_then_get_reads_back empty_store 7 (Some 4) None None None
           (bytes_of "hello world") 99 20);
    [simpl; lia | apply fresh_id_empty_store | vm_compute; reflexivity].
Defined.

Lemma failed_upload_leaves_an_empty_file_witness :
  exists coll' r',
    MockGridFS.put 5 99 (PyFile broken_read tt) 7 (Some 4) None None None empty_store
    = (Raise (IOError 5 "Input/output error"), coll')
    /\ find_one (by_id 7) (files coll')
       = Some (final_doc (new_doc 7 4 None None None) [] 99)
    /\ docs (chunks coll') = docs (chunks empty_store)
    /\ GridOut.read coll' 6 (-1) (GridOut.__init__ (Some 7) None) = (Return [], r').
Proof.
  apply (proj1 (failed_upload_leaves_an_empty_file broken_read tt tt
                  (IOError 5 "Input/output error") bucket4 empty_store 7 (Some 4)
                  None None None "name" 99 5 (fresh_id_empty_store 7)));
    [simpl; lia | reflexivity].
Defined.

Lemma upload_then_download_gives_the_bytes_back_witness :
  exists coll',
    GridFSBucket.upload_from_stream bucket4 20 99 7 (PyStr "greeting")
      (PyBytes (bytes_of "hello world")) None empty_store
    = (Return 7, coll')
    /\ GridFSBucket.download_to_stream bytesio_write coll' 20 7 BytesIO.empty
       = (Return tt, BytesIO.mk (bytes_of "hello world") (len (bytes_of "hello world"))).
Proof.
  apply (upload_then_download_gives_the_bytes_back bucket4 empty_store 7 "greeting"
           (bytes_of "hello world") None 99 20);
    [simpl; lia | apply fresh_id_empty_store | vm_compute; reflexivity].
Defined.

Lemma abort_undoes_the_upload_witness :
  exists w1 w2,
    GridIn.writelines 20 (write_calls hello_parts)
      (GridIn.mkState (GridIn.__init__ 7 (Some 4) None None None) empty_store)
    = (Return tt, w1)
    /\ GridIn.abort w1 = (Return tt, w2)
    /\ docs (chunks (GridIn.coll w2)) = docs (chunks empty_store)
    /\ docs (files (GridIn.coll w2)) = docs (files empty_store)
    /\ GridIn.write 20 (PyBytes (bytes_of "!")) w2
       = (Raise (ValueError "cannot write to a closed file"), w2)
    /\ GridIn.close 99 w2 = (Return tt, w2).
Proof.
  apply (abort_undoes_the_upload empty_store 7 4 None None None hello_parts
           (PyBytes (bytes_of "!")) 99 20);
    [lia | apply fresh_id_empty_store | vm_compute; reflexivity].
Defined.



Lemma filename_may_be_assigned_before_or_after_close_witness :
  exists w1 wa wb,
    GridIn.write 20 (PyBytes (bytes_of "hello world"))
      (GridIn.mkState (GridIn.__init__ 7 (Some 4) None None None) empty_store)
    = (Return tt, w1)
    /\ (GridIn.assign_filename "greeting"%string ;;; GridIn.close 99) w1 = (Return tt, wa)
    /\ (GridIn.close 99 ;;; GridIn.assign_filename "greeting"%string) w1 = (Return tt, wb)
    /\ docs (files (GridIn.coll wa))
       = docs (files empty_store)
         ++ [final_doc (new_doc 7 4 (Some "greeting"%string) None None) (bytes_of "hello world") 99]
    /\ docs (files (GridIn.coll wb))
       = docs (files empty_store)
         ++ [final_doc (new_doc 7 4 (Some "greeting"%string) None None) (bytes_of "hello world") 99]
    /\ GridIn._file (GridIn.self wa)
       = final_doc (new_doc 7 4 (Some "greeting"%string) None None) (bytes_of "hello world") 99
    /\ GridIn._file (GridIn.self wb)
       = final_doc (new_doc 7 4 (Some "greeting"%string) None None) (bytes_of "hello world") 99
    /\ docs (chunks (GridIn.coll wa)) = docs (chunks (GridIn.coll wb)).
Proof.
  apply (filename_may_be_assigned_before_or_after_close empty_store 7 4 None None None
           (bytes_of "hello world") "greeting" 99 20);
    [lia | apply fresh_id_empty_store | vm_compute; reflexivity].
Defined.

Lemma delete_undoes_put_witness :
  exists coll1 coll2 coll3,
    MockGridFS.put 20 99 (PyBytes (bytes_of "hello world")) 7 (Some 4) None None None
      empty_store
    = (Return 7, coll1)
    /\ MockGridFS.delete 7 coll1 = (Return tt, coll2)
    /\ GridFSBucket.delete 7 coll1 = (Return tt, coll2)
    /\ docs (files coll2) = docs (files empty_store)
    /\ docs (chunks coll2) = docs (chunks empty_store)
    /\ MockGridFS.get 7 coll2 = (Raise (NoFile (Some 7)), coll2)
    /\ MockGridFS.delete 7 coll2 = (Return tt, coll3)
    /\ GridFSBucket.delete 7 coll2 = (Raise (NoFile (Some 7)), coll3)
    /\ docs (files coll3) = docs (files empty_store)
    /\ docs (chunks coll3) = docs (chunks empty_store).
Proof.
  apply (delete_undoes_put empty_store 7 (Some 4) None None None
           (bytes_of "hello world") 99 20);
    [simpl; lia | apply fresh_id_empty_store | vm_compute; reflexivity].
Defined.


Lemma readchunk_walks_the_content_witness :
  exists d,
    GridOut.readchunk hello_store (GridOut.mk (Some 7) [] 6 (Some (file7 (bytes_of "hello world"))))
    = (Return d, GridOut.mk (Some 7) [] (6 + len d) (Some (file7 (bytes_of "hello world"))))
    /\ d = take (len d) (drop 6 (bytes_of "hello world")).
Proof.
  destruct (readchunk_walks_the_content hello_store (file7 (bytes_of "hello world"))
              (bytes_of "hello world")
              (GridOut.mk (Some 7) [] 6 (Some (file7 (bytes_of "hello world"))))
              (proj1 holds_content_hello_store) eq_refl (ex_intro _ 0 eq_refl)
              ltac:(simpl; lia)) as (d & Hrun & Hd & _).
  exists d. split; [exact Hrun | exact Hd].
Defined.

Lemma download_agrees_with_read_witness :
  exists r',
    GridFSBucket.download_to_stream bytesio_write hello_store 20 7 BytesIO.empty
    = (Return tt, BytesIO.mk (bytes_of "hello world") (len (bytes_of "hello world")))
    /\ GridOut.read hello_store 20 (-1) (GridOut.__init__ (Some 7) None)
       = (Return (bytes_of "hello world"), r').
Proof.
  apply (download_agrees_with_read hello_store (file7 (bytes_of "hello world"))
           (bytes_of "hello world") 7 20 holds_content_hello_store hello_file_found).
  vm_compute. reflexivity.
Defined.

Lemma binary_round_trip_and_equality_witness :
  Binary.__new__ (Binary.Bytes (bytes_of "abc")) (Binary.Int BINARY_SUBTYPE)
  = Return (Binary.mk (bytes_of "abc") 0)
  /\ Binary.__eq__ (Binary.mk (bytes_of "abc") 0)
       (Binary.Bytes (Binary.data (Binary.mk (bytes_of "abc") 0))) = false.
Proof.
  split; [reflexivity |].
  apply (binary_round_trip_and_equality (Binary.Bytes (bytes_of "abc"))
           (Binary.Int BINARY_SUBTYPE) (Binary.mk (bytes_of "abc") 0) eq_refl).
Defined.

Lemma close_cannot_be_retried_after_file_exists_witness :
  exists w' msg w'',
    GridIn.close 99 writer7_on_taken_store = (Raise (FileExists 7), w')
    /\ (exists digest_of,
          FileDoc.md5 (GridIn._file (GridIn.self w')) = hex_string digest_of)
    /\ GridIn.close 100 w' = (Raise (AttributeError msg), w'')
    /\ GridIn._closed (GridIn.self w'') = false.
Proof.
  apply (close_cannot_be_retried_after_file_exists writer7_on_taken_store
           (snd (GridIn.__flush_buffer writer7_on_taken_store)) 99 100
           eq_refl (ex_intro _ [] eq_refl) eq_refl).
  exists (file7 (bytes_of "old")). split; [left; reflexivity | reflexivity].
Defined.

Lemma write_stops_at_the_first_short_read_witness :
  GridIn.write_stream stingy_read 5
    (O, GridIn.mkState (GridIn.__init__ 7 (Some 4) None None None) empty_store)
  = (Return tt,
     (1%nat,
      GridIn.on_self
        (fun g => GridIn.set_buffer (BytesIO.write (bytes_of "ab") (GridIn._buffer g)) g)
        (GridIn.mkState (GridIn.__init__ 7 (Some 4) None None None) empty_store))).
Proof.
  apply (proj1 (write_stops_at_the_first_short_read stingy_read O 1%nat
                  (GridIn.mkState (GridIn.__init__ 7 (Some 4) None None None) empty_store)
                  (bytes_of "ab") 5 eq_refl
                  ltac:(vm_compute; split; [discriminate | reflexivity]) eq_refl
                  ltac:(vm_compute; reflexivity) ltac:(lia))).
Defined.

Lemma refused_data_still_creates_a_file_witness :
  exists coll',
    MockGridFS.put 5 99 PyOther 7 (Some 4) None None None empty_store
    = (Raise (TypeError "can only write strings or file-like objects"), coll')
    /\ find_one (by_id 7) (files coll')
       = Some (final_doc (new_doc 7 4 None None None) [] 99)
    /\ exists r', GridOut.read coll' 6 (-1) (GridOut.__init__ (Some 7) None)
                  = (Return [], r').
Proof.
  apply (proj1 (refused_data_still_creates_a_file bucket4 empty_store 7 (Some 4)
                  None None None "name" (fun _ => Return []) 99 5
                  (fresh_id_empty_store 7))).
  simpl. lia.
Defined.
